(** * ilius/is: the equality engine and the assertion contexts

    A shallow embedding of the two package generations whose files
    workers.go and is.go are kept one after the other in v2/workers.go:

    - the package with the [Is] struct (lines 1 to 556: New, Msg, AddMsg,
      PrependMsg, MsgSep, Lax, Strict, Equal, OneOf, Contains,
      WaitForTrue, ...), module [IsPkg];
    - the package with the [Asserter] interface (lines 557 to 1129:
      asserter, Lax(fn), failDefault with the [failed] flag,
      convertibleTo, diff), module [AsserterPkg].

    The functions of package require (unnamed/part_002), which wrap a
    context of the first package, are in module [RequirePkg].

    Both share [isNil] and [isZero] and differ in [isEqual].  The Go
    runtime facilities the code calls (package reflect, interface
    comparison, append, the testing handle, the clock) are modelled in the
    modules [Reflect], [Heap] and [Testing]. *)

From Stdlib Require Import ZArith String Ascii List Bool Lia.
From stdpp Require Import base option list gmap strings.
Import ListNotations.

Local Open Scope string_scope.
Local Open Scope list_scope.
Local Open Scope nat_scope.

(** ** Results of Go expressions that may panic *)

Inductive res (A : Type) : Type :=
| Ok (a : A)
| Panic (msg : string).
Arguments Ok {A} a.
Arguments Panic {A} msg.

Definition res_bind {A B} (r : res A) (k : A -> res B) : res B :=
  match r with
  | Ok a => k a
  | Panic m => Panic m
  end.

(** ** Go types and values (the fragment of the language that is modelled)

    Booleans, the eleven integer kinds, strings, arrays, channels,
    functions, maps, pointers, slices, structs and defined (named) types.
    Floating-point and complex kinds, interface-typed components, channel
    directions and unsafe pointers are outside the fragment.  Integers of
    kind int, uint and uintptr are 64 bits wide. *)

Inductive intkind : Type :=
| Iword | I8 | I16 | I32 | I64 | Uword | U8 | U16 | U32 | U64 | Uptr.

Inductive type : Type :=
| TBool
| TInt (k : intkind)
| TString
| TArray (n : nat) (elem : type)
| TChan (elem : type)
| TFunc (sig : string)
| TMap (key elem : type)
| TPtr (elem : type)
| TSlice (elem : type)
| TStruct (fs : fields)
| TNamed (name : string) (under : type)
with fields : Type :=
| FNil
| FCons (name : string) (t : type) (rest : fields).

(** A value is a snapshot: a pointer carries its address and its pointee, a
    slice its data pointer and its elements, a map its address and its
    entries, a channel its address and the elements queued in its buffer.
    [None] is the nil pointer, slice, map, channel or function. *)
#[warnings="-register-all"]
Inductive value : Type :=
| VBool (b : bool)
| VInt (z : Z)
| VString (s : string)
| VArray (elems : list value)
| VChan (c : option (nat * list value))
| VFunc (f : option nat)
| VMap (m : option (nat * list (value * value)))
| VPtr (p : option (nat * value))
| VSlice (s : option (nat * list value))
| VStruct (fs : list value).

(** An interface value ([any]): the nil interface, or a dynamic type with
    a value of that type. *)
Inductive any : Type :=
| nilAny
| Iface (t : type) (v : value).

Lemma intkind_eq_dec (a b : intkind) : {a = b} + {a <> b}.
Proof. decide equality. Defined.

Lemma type_eq_dec (a b : type) : {a = b} + {a <> b}
with fields_eq_dec (a b : fields) : {a = b} + {a <> b}.
Proof.
  - decide equality;
      solve [ apply string_dec | apply Nat.eq_dec | apply intkind_eq_dec
            | apply type_eq_dec | apply fields_eq_dec ].
  - decide equality;
      solve [ apply string_dec | apply type_eq_dec | apply fields_eq_dec ].
Defined.

#[global] Instance intkind_eqdec : EqDecision intkind := intkind_eq_dec.
#[global] Instance type_eqdec : EqDecision type := type_eq_dec.

(** ** Package reflect *)

Module Reflect.

Inductive Kind : Type :=
| Invalid | Bool | Int | Int8 | Int16 | Int32 | Int64
| Uint | Uint8 | Uint16 | Uint32 | Uint64 | Uintptr
| Float32 | Float64 | Complex64 | Complex128
| Array | Chan | Func | Interface | Map | Ptr | Slice | String | Struct
| UnsafePointer.

(** The numeric value of a Kind constant, as the iota in reflect. *)
Definition ord (k : Kind) : nat :=
  match k with
  | Invalid => 0 | Bool => 1 | Int => 2 | Int8 => 3 | Int16 => 4
  | Int32 => 5 | Int64 => 6 | Uint => 7 | Uint8 => 8 | Uint16 => 9
  | Uint32 => 10 | Uint64 => 11 | Uintptr => 12 | Float32 => 13
  | Float64 => 14 | Complex64 => 15 | Complex128 => 16 | Array => 17
  | Chan => 18 | Func => 19 | Interface => 20 | Map => 21 | Ptr => 22
  | Slice => 23 | String => 24 | Struct => 25 | UnsafePointer => 26
  end.

Lemma Kind_eq_dec (a b : Kind) : {a = b} + {a <> b}.
Proof. decide equality. Defined.

#[global] Instance Kind_eqdec : EqDecision Kind := Kind_eq_dec.

Definition kindOfInt (k : intkind) : Kind :=
  match k with
  | Iword => Int | I8 => Int8 | I16 => Int16 | I32 => Int32 | I64 => Int64
  | Uword => Uint | U8 => Uint8 | U16 => Uint16 | U32 => Uint32 | U64 => Uint64
  | Uptr => Uintptr
  end.

(** Type.Kind: a defined type has the kind of its underlying type. *)
Fixpoint KindOf (t : type) : Kind :=
  match t with
  | TBool => Bool
  | TInt k => kindOfInt k
  | TString => String
  | TArray _ _ => Array
  | TChan _ => Chan
  | TFunc _ => Func
  | TMap _ _ => Map
  | TPtr _ => Ptr
  | TSlice _ => Slice
  | TStruct _ => Struct
  | TNamed _ u => KindOf u
  end.

(** The underlying type. *)
Fixpoint under (t : type) : type :=
  match t with
  | TNamed _ u => under u
  | _ => t
  end.

(** Type.Elem, for array, channel, map, pointer and slice types (reflect
    panics on the other kinds; the callers below test the kind first). *)
Definition Elem (t : type) : type :=
  match under t with
  | TArray _ e | TChan e | TMap _ e | TPtr e | TSlice e => e
  | u => u
  end.

Definition intName (k : intkind) : string :=
  match k with
  | Iword => "int" | I8 => "int8" | I16 => "int16" | I32 => "int32"
  | I64 => "int64" | Uword => "uint" | U8 => "uint8" | U16 => "uint16"
  | U32 => "uint32" | U64 => "uint64" | Uptr => "uintptr"
  end.

(** Type.Name: the name of a defined or predeclared type, empty for the
    others. *)
Definition Name (t : type) : string :=
  match t with
  | TNamed n _ => n
  | TBool => "bool"
  | TInt k => intName k
  | TString => "string"
  | _ => ""
  end.

(** Type.PkgPath: empty for predeclared and for unnamed types; the defined
    types of the model live in one package. *)
Definition PkgPath (t : type) : string :=
  match t with
  | TNamed _ _ => "main"
  | _ => ""
  end.

(** Value.IsNil, by kind as in reflect. *)
Definition IsNil (k : Kind) (v : value) : bool :=
  match k, v with
  | Chan, VChan None => true
  | Func, VFunc None => true
  | Map, VMap None => true
  | Ptr, VPtr None => true
  | Slice, VSlice None => true
  | _, _ => false
  end.

(** Value.Len: the array length comes from the type, the others from the
    value; a nil slice, map or channel has length 0. *)
Definition Len (t : type) (v : value) : nat :=
  match under t, v with
  | TArray n _, _ => n
  | _, VChan (Some (_, q)) => length q
  | _, VMap (Some (_, m)) => length m
  | _, VSlice (Some (_, l)) => length l
  | _, VString s => String.length s
  | _, _ => 0
  end.

(** reflect.Zero: the zero value of a type. *)
Fixpoint Zero (t : type) : value :=
  match t with
  | TBool => VBool false
  | TInt _ => VInt 0
  | TString => VString ""
  | TArray n e => VArray (repeat (Zero e) n)
  | TChan _ => VChan None
  | TFunc _ => VFunc None
  | TMap _ _ => VMap None
  | TPtr _ => VPtr None
  | TSlice _ => VSlice None
  | TStruct fs => VStruct (ZeroFields fs)
  | TNamed _ u => Zero u
  end
with ZeroFields (fs : fields) : list value :=
  match fs with
  | FNil => []
  | FCons _ t rest => Zero t :: ZeroFields rest
  end.

(** The largest address that occurs in a value; an allocation made while
    a value is live returns an address above it. *)
Fixpoint maxAddr (v : value) : nat :=
  match v with
  | VBool _ | VInt _ | VString _ => 0
  | VArray l | VStruct l => list_max (map maxAddr l)
  | VChan None | VFunc None | VMap None | VPtr None | VSlice None => 0
  | VChan (Some (a, q)) => Nat.max a (list_max (map maxAddr q))
  | VFunc (Some a) => a
  | VMap (Some (a, m)) =>
      Nat.max a (list_max (map (fun kv => Nat.max (maxAddr (fst kv)) (maxAddr (snd kv))) m))
  | VPtr (Some (a, p)) => Nat.max a (maxAddr p)
  | VSlice (Some (a, l)) => Nat.max a (list_max (map maxAddr l))
  end.

Definition maxAddrAny (a : any) : nat :=
  match a with
  | nilAny => 0
  | Iface _ v => maxAddr v
  end.

(** *** Comparison

    [valEq] is Go's [==] on two values of one comparable type: pointers and
    channels compare by identity, arrays and structs component-wise. *)
Fixpoint valEq (v1 v2 : value) : bool :=
  match v1, v2 with
  | VBool a, VBool b => Bool.eqb a b
  | VInt a, VInt b => Z.eqb a b
  | VString a, VString b => String.eqb a b
  | VArray l1, VArray l2 | VStruct l1, VStruct l2 =>
      (fix go (l1 l2 : list value) : bool :=
         match l1, l2 with
         | [], [] => true
         | x :: r, y :: s => valEq x y && go r s
         | _, _ => false
         end) l1 l2
  | VChan c1, VChan c2 => bool_decide (fst <$> c1 = fst <$> c2)
  | VPtr p1, VPtr p2 => bool_decide (fst <$> p1 = fst <$> p2)
  | _, _ => false
  end.

(** Whether the runtime has an equality function for the type (slices,
    maps and functions have none, nor has a type with such a component). *)
Fixpoint comparable (t : type) : bool :=
  match t with
  | TBool | TInt _ | TString | TChan _ | TPtr _ => true
  | TFunc _ | TMap _ _ | TSlice _ => false
  | TArray _ e => comparable e
  | TStruct fs => comparableFields fs
  | TNamed _ u => comparable u
  end
with comparableFields (fs : fields) : bool :=
  match fs with
  | FNil => true
  | FCons _ t rest => comparable t && comparableFields rest
  end.

(** [a == b] on two interface values: equal dynamic types and equal
    values; the comparison of two values of one uncomparable type is a
    run-time panic. *)
Definition ifaceEq (a b : any) : res bool :=
  match a, b with
  | nilAny, nilAny => Ok true
  | nilAny, Iface _ _ | Iface _ _, nilAny => Ok false
  | Iface ta va, Iface tb vb =>
      if decide (ta = tb) then
        if comparable ta then Ok (valEq va vb)
        else Panic "runtime error: comparing uncomparable type"
      else Ok false
  end.

(** Value.MapIndex: the entry of a key, found with the key type's [==]. *)
Fixpoint MapIndex (m : list (value * value)) (k : value) : option value :=
  match m with
  | [] => None
  | (k', x) :: rest => if valEq k' k then Some x else MapIndex rest k
  end.

(** reflect.deepValueEqual on two values of one type. *)
Fixpoint deepValueEqual (v1 v2 : value) : bool :=
  match v1, v2 with
  | VArray l1, VArray l2 | VStruct l1, VStruct l2 =>
      (fix go (l1 l2 : list value) : bool :=
         match l1, l2 with
         | [], [] => true
         | x :: r, y :: s => deepValueEqual x y && go r s
         | _, _ => false
         end) l1 l2
  | VSlice s1, VSlice s2 =>
      match s1, s2 with
      | None, None => true
      | Some (p1, l1), Some (p2, l2) =>
          if negb (length l1 =? length l2) then false
          else if p1 =? p2 then true
          else
            (fix go (l1 l2 : list value) : bool :=
               match l1, l2 with
               | [], [] => true
               | x :: r, y :: s => deepValueEqual x y && go r s
               | _, _ => false
               end) l1 l2
      | _, _ => false
      end
  | VPtr p1, VPtr p2 =>
      match p1, p2 with
      | None, None => true
      | Some (a1, x1), Some (a2, x2) =>
          if a1 =? a2 then true else deepValueEqual x1 x2
      | _, _ => false
      end
  | VMap m1, VMap m2 =>
      match m1, m2 with
      | None, None => true
      | Some (a1, e1), Some (a2, e2) =>
          if negb (length e1 =? length e2) then false
          else if a1 =? a2 then true
          else
            forallb (fun kv =>
                       match MapIndex e2 (fst kv) with
                       | Some x2 => deepValueEqual (snd kv) x2
                       | None => false
                       end) e1
      | _, _ => false
      end
  | VFunc f1, VFunc f2 =>
      match f1, f2 with
      | None, None => true
      | _, _ => false
      end
  | VBool a, VBool b => Bool.eqb a b
  | VInt a, VInt b => Z.eqb a b
  | VString a, VString b => String.eqb a b
  | VChan c1, VChan c2 => bool_decide (fst <$> c1 = fst <$> c2)
  | _, _ => false
  end.

(** reflect.DeepEqual. *)
Definition DeepEqual (x y : any) : bool :=
  match x, y with
  | nilAny, nilAny => true
  | nilAny, Iface _ _ | Iface _ _, nilAny => false
  | Iface t1 v1, Iface t2 v2 =>
      if decide (t1 = t2) then deepValueEqual v1 v2 else false
  end.

(** reflect.New(t).Interface(): a pointer, at a fresh address, to a zero
    value of [t]. *)
Definition New (t : type) (fresh : nat) : any :=
  Iface (TPtr t) (VPtr (Some (fresh, Zero t))).

(** *** Conversion (Type.ConvertibleTo and Value.Convert, as of Go 1.19) *)

Definition isIntKind (k : Kind) : bool := (ord Int <=? ord k) && (ord k <=? ord Uintptr).

Definition bits (k : intkind) : Z :=
  match k with
  | I8 | U8 => 8
  | I16 | U16 => 16
  | I32 | U32 => 32
  | Iword | I64 | Uword | U64 | Uptr => 64
  end.

Definition signed (k : intkind) : bool :=
  match k with
  | Iword | I8 | I16 | I32 | I64 => true
  | _ => false
  end.

(** The value an integer has after it is stored in an integer of kind [k]:
    truncated to the width of [k], read back signed or unsigned. *)
Definition wrap (k : intkind) (x : Z) : Z :=
  if signed k
  then ((x + 2 ^ (bits k - 1)) mod 2 ^ bits k - 2 ^ (bits k - 1))%Z
  else (x mod 2 ^ bits k)%Z.

(** Strings are byte strings; [bytesOf] and [stringOf] move between a
    string and the list of its bytes. *)
Definition bytesOf (s : string) : list Z :=
  map (fun c => Z.of_N (N_of_ascii c)) (list_ascii_of_string s).

Definition stringOf (l : list Z) : string :=
  string_of_list_ascii (map (fun b => ascii_of_N (Z.to_N b)) l).

Definition RuneError : Z := 0xFFFD.

(** UTF-8 encoding of a code point; an invalid one (negative, above
    U+10FFFF, or a surrogate) is encoded as U+FFFD. *)
Definition encodeRune (r0 : Z) : list Z :=
  let r := if ((r0 <? 0) || (0x10FFFF <? r0) || ((0xD800 <=? r0) && (r0 <=? 0xDFFF)))%Z
           then RuneError else r0 in
  (if r <=? 0x7F then [r]
   else if r <=? 0x7FF then
     [Z.lor 0xC0 (Z.shiftr r 6); Z.lor 0x80 (Z.land r 0x3F)]
   else if r <=? 0xFFFF then
     [Z.lor 0xE0 (Z.shiftr r 12); Z.lor 0x80 (Z.land (Z.shiftr r 6) 0x3F);
      Z.lor 0x80 (Z.land r 0x3F)]
   else
     [Z.lor 0xF0 (Z.shiftr r 18); Z.lor 0x80 (Z.land (Z.shiftr r 12) 0x3F);
      Z.lor 0x80 (Z.land (Z.shiftr r 6) 0x3F); Z.lor 0x80 (Z.land r 0x3F)])%Z.

Definition inRange (lo hi b : Z) : bool := ((lo <=? b) && (b <=? hi))%Z.

(** For a leading byte: the length of the sequence and the range accepted
    for the second byte (the table of unicode/utf8). *)
Definition leading (b0 : Z) : option (nat * Z * Z) :=
  (if inRange 0xC2 0xDF b0 then Some (2%nat, 0x80, 0xBF)
   else if b0 =? 0xE0 then Some (3%nat, 0xA0, 0xBF)
   else if b0 =? 0xED then Some (3%nat, 0x80, 0x9F)
   else if inRange 0xE1 0xEF b0 then Some (3%nat, 0x80, 0xBF)
   else if b0 =? 0xF0 then Some (4%nat, 0x90, 0xBF)
   else if inRange 0xF1 0xF3 b0 then Some (4%nat, 0x80, 0xBF)
   else if b0 =? 0xF4 then Some (4%nat, 0x80, 0x8F)
   else None)%Z.

Definition low6 (b : Z) : Z := Z.land b 0x3F.

(** The code points of a byte string, as a range loop over the string
    yields them: an invalid byte gives U+FFFD and is skipped alone. *)
Fixpoint decodeRunes (l : list Z) : list Z :=
  match l with
  | [] => []
  | b0 :: t0 =>
      if (b0 <? 0x80)%Z then b0 :: decodeRunes t0
      else
        match leading b0, t0 with
        | Some (2, lo, hi), b1 :: t1 =>
            if inRange lo hi b1
            then Z.lor (Z.shiftl (Z.land b0 0x1F) 6) (low6 b1) :: decodeRunes t1
            else RuneError :: decodeRunes t0
        | Some (3, lo, hi), b1 :: b2 :: t2 =>
            if inRange lo hi b1 && inRange 0x80 0xBF b2
            then Z.lor (Z.shiftl (Z.land b0 0x0F) 12)
                   (Z.lor (Z.shiftl (low6 b1) 6) (low6 b2)) :: decodeRunes t2
            else RuneError :: decodeRunes t0
        | Some (4, lo, hi), b1 :: b2 :: b3 :: t3 =>
            if inRange lo hi b1 && inRange 0x80 0xBF b2 && inRange 0x80 0xBF b3
            then Z.lor (Z.shiftl (Z.land b0 0x07) 18)
                   (Z.lor (Z.shiftl (low6 b1) 12)
                      (Z.lor (Z.shiftl (low6 b2) 6) (low6 b3))) :: decodeRunes t3
            else RuneError :: decodeRunes t0
        | _, _ => RuneError :: decodeRunes t0
        end
  end.

Definition sameNamed (T V : type) : bool :=
  String.eqb (Name T) (Name V) && bool_decide (KindOf T = KindOf V)
  && String.eqb (PkgPath T) (PkgPath V).

(** The comparison of two types of one kind by their underlying structure
    (the kind switch of haveIdenticalUnderlyingType); a component type is
    identical to another when name, kind and package agree and the
    underlying structures do (haveIdenticalType without tags). *)
Fixpoint identicalUnder (T V : type) {struct T} : bool :=
  match T with
  | TNamed _ u => identicalUnder u V
  | TBool | TInt _ | TString => bool_decide (KindOf T = KindOf V)
  | TArray n e =>
      match under V with
      | TArray n' e' => (n =? n') && sameNamed e e' && identicalUnder e e'
      | _ => false
      end
  | TChan e =>
      match under V with
      | TChan e' => sameNamed e e' && identicalUnder e e'
      | _ => false
      end
  | TFunc sig =>
      match under V with
      | TFunc sig' => String.eqb sig sig'
      | _ => false
      end
  | TMap k e =>
      match under V with
      | TMap k' e' =>
          sameNamed k k' && identicalUnder k k' && sameNamed e e' && identicalUnder e e'
      | _ => false
      end
  | TPtr e =>
      match under V with
      | TPtr e' => sameNamed e e' && identicalUnder e e'
      | _ => false
      end
  | TSlice e =>
      match under V with
      | TSlice e' => sameNamed e e' && identicalUnder e e'
      | _ => false
      end
  | TStruct fs =>
      match under V with
      | TStruct gs => identicalFields fs gs
      | _ => false
      end
  end
with identicalFields (fs gs : fields) {struct fs} : bool :=
  match fs, gs with
  | FNil, FNil => true
  | FCons n t r, FCons n' t' r' =>
      String.eqb n n' && sameNamed t t' && identicalUnder t t' && identicalFields r r'
  | _, _ => false
  end.

Definition haveIdenticalUnderlyingType (T V : type) : bool :=
  if decide (T = V) then true
  else if negb (bool_decide (KindOf T = KindOf V)) then false
  else identicalUnder T V.

Inductive cvt : Type :=
| cvtInt | cvtIntString | cvtStringBytes | cvtStringRunes | cvtBytesString
| cvtRunesString | cvtSliceArrayPtr | cvtDirect.

(** reflect.convertOp: the conversion from [src] to [dst], if there is
    one.  The cases on floating-point, complex and interface types have no
    instance in the fragment. *)
Definition convertOp (dst src : type) : option cvt :=
  let general :=
    if haveIdenticalUnderlyingType dst src then Some cvtDirect
    else if bool_decide (KindOf dst = Ptr) && String.eqb (Name dst) ""
            && bool_decide (KindOf src = Ptr) && String.eqb (Name src) ""
            && haveIdenticalUnderlyingType (Elem dst) (Elem src)
         then Some cvtDirect
         else None in
  if isIntKind (KindOf src) then
    if isIntKind (KindOf dst) then Some cvtInt
    else if bool_decide (KindOf dst = String) then Some cvtIntString
    else general
  else
    match KindOf src with
    | String =>
        if bool_decide (KindOf dst = Slice) && String.eqb (PkgPath (Elem dst)) "" then
          match KindOf (Elem dst) with
          | Uint8 => Some cvtStringBytes
          | Int32 => Some cvtStringRunes
          | _ => general
          end
        else general
    | Slice =>
        let toArrayPtr :=
          if bool_decide (KindOf dst = Ptr) && bool_decide (KindOf (Elem dst) = Array)
             && bool_decide (Elem src = Elem (Elem dst))
          then Some cvtSliceArrayPtr
          else general in
        if bool_decide (KindOf dst = String) && String.eqb (PkgPath (Elem src)) "" then
          match KindOf (Elem src) with
          | Uint8 => Some cvtBytesString
          | Int32 => Some cvtRunesString
          | _ => toArrayPtr
          end
        else toArrayPtr
    | Chan =>
        if bool_decide (KindOf dst = Chan)
           && (String.eqb (Name dst) "" || String.eqb (Name src) "")
           && bool_decide (Elem dst = Elem src)
        then Some cvtDirect
        else general
    | _ => general
    end.

Definition ConvertibleTo (src dst : type) : bool :=
  match convertOp dst src with
  | Some _ => true
  | None => false
  end.

Definition intsOf (l : list value) : list Z :=
  map (fun v => match v with VInt z => z | _ => 0%Z end) l.

Definition elemsOf (s : option (nat * list value)) : list value :=
  match s with
  | Some (_, l) => l
  | None => []
  end.

(** A reflect.Value: the zero Value (what ValueOf(nil) returns), or a
    type with a value of it. *)
Inductive Value : Type :=
| ZeroValue
| MkValue (t : type) (v : value).

Definition ValueOf (a : any) : Value :=
  match a with
  | nilAny => ZeroValue
  | Iface t v => MkValue t v
  end.

(** reflect.TypeOf: the nil Type for the nil interface. *)
Definition TypeOf (a : any) : option type :=
  match a with
  | nilAny => None
  | Iface t _ => Some t
  end.

(** Type.Kind called on the result of TypeOf: a method call on the nil
    interface is a nil dereference. *)
Definition TypeKind (t : option type) : res Kind :=
  match t with
  | None => Panic "runtime error: invalid memory address or nil pointer dereference"
  | Some t => Ok (KindOf t)
  end.

(** Value.Type panics on the zero Value. *)
Definition ValueType (v : Value) : res type :=
  match v with
  | ZeroValue => Panic "reflect: call of reflect.Value.Type on zero Value"
  | MkValue t _ => Ok t
  end.

(** Value.Interface panics on the zero Value. *)
Definition ValueInterface (v : Value) : res any :=
  match v with
  | ZeroValue => Panic "reflect: call of reflect.Value.Interface on zero Value"
  | MkValue t x => Ok (Iface t x)
  end.

(** Value.Convert to the type [dst]; [fresh] is the address of the memory a
    conversion allocates.  It panics when there is no conversion, and when
    a slice is shorter than the array the pointer should point to. *)
Definition Convert (val : Value) (dst : type) (fresh : nat) : res Value :=
  match val with
  | ZeroValue => Panic "reflect: call of reflect.Value.Convert on zero Value"
  | MkValue src v =>
      match convertOp dst src with
      | None => Panic "reflect.Value.Convert: value cannot be converted to type"
      | Some op =>
          match op, v with
          | cvtInt, VInt x =>
              match under dst with
              | TInt k => Ok (MkValue dst (VInt (wrap k x)))
              | _ => Ok (MkValue dst v)
              end
          | cvtIntString, VInt x => Ok (MkValue dst (VString (stringOf (encodeRune x))))
          | cvtStringBytes, VString s =>
              Ok (MkValue dst (VSlice (Some (fresh, map VInt (bytesOf s)))))
          | cvtStringRunes, VString s =>
              Ok (MkValue dst (VSlice (Some (fresh, map VInt (decodeRunes (bytesOf s))))))
          | cvtBytesString, VSlice sl =>
              Ok (MkValue dst (VString (stringOf (intsOf (elemsOf sl)))))
          | cvtRunesString, VSlice sl =>
              Ok (MkValue dst
                    (VString (stringOf (concat (map encodeRune (intsOf (elemsOf sl)))))))
          | cvtSliceArrayPtr, VSlice sl =>
              let n := Len (Elem dst) (VArray []) in
              if length (elemsOf sl) <? n
              then Panic "reflect: cannot convert slice to pointer to array: slice too short"
              else
                match sl with
                | None => Ok (MkValue dst (VPtr None))
                | Some (p, l) => Ok (MkValue dst (VPtr (Some (p, VArray (firstn n l)))))
                end
          | _, _ => Ok (MkValue dst v)
          end
      end
  end.

End Reflect.

#[global] Instance res_ret : MRet res := fun A a => Ok a.
#[global] Instance res_mbind : MBind res := fun A B k r => res_bind r k.

(** recover in a deferred function: a panic of the guarded call is
    swallowed and the named result keeps its zero value. *)
Definition recovered {A} (r : res A) (zero : A) : A :=
  match r with
  | Ok a => a
  | Panic _ => zero
  end.

(** ** The store: slices of [any], test handles, the clock

    A slice header is a data pointer (a backing array and an offset in it),
    a length and a capacity; the nil slice has no data pointer.  The
    backing arrays live in the store, so that two slice headers can share
    one array. *)

Module Heap.

Record slice : Type := Slice {
  data : option (nat * nat);
  len : nat;
  cap : nat
}.

Definition nilSlice : slice := Slice None 0 0.

Definition isNilSlice (s : slice) : bool :=
  match data s with
  | None => true
  | Some _ => false
  end.

(** The elements a slice shows, in a store of arrays. *)
Definition elems (arrs : gmap nat (list any)) (s : slice) : list any :=
  match data s with
  | None => []
  | Some (a, off) => take (len s) (drop off (default [] (arrs !! a)))
  end.

(** Writing [xs] into an array from index [off] on. *)
Definition write (off : nat) (xs arr : list any) : list any :=
  take off arr ++ xs ++ drop (off + length xs) arr.

(** The built-in append(s, t...): the elements of [t] are written after
    the elements of [s] in the array of [s] when its capacity allows it,
    and otherwise into a new array, of the needed length plus the extra
    capacity [slack] the runtime decides to give. *)
Definition append (slack : nat -> nat -> nat) (s t : slice)
    (arrs : gmap nat (list any)) : slice * gmap nat (list any) :=
  let xs := elems arrs t in
  let n := len s + length xs in
  if n <=? cap s then
    match data s with
    | Some (a, off) =>
        (Slice (Some (a, off)) n (cap s),
         <[a := write (off + len s) xs (default [] (arrs !! a))]> arrs)
    | None => (s, arrs)
    end
  else
    let c := n + slack (cap s) n in
    let a := fresh (dom arrs) in
    (Slice (Some (a, 0)) n c,
     <[a := elems arrs s ++ xs ++ replicate (c - n) nilAny]> arrs).

(** A slice is laid out in the store: its array is there and holds the
    whole capacity. *)
Definition wf (arrs : gmap nat (list any)) (s : slice) : Prop :=
  len s <= cap s /\
  match data s with
  | None => cap s = 0
  | Some (a, off) => exists arr, arrs !! a = Some arr /\ off + cap s <= length arr
  end.

(** append(s, t...) leaves the elements of [u] alone: when it writes in
    place, into the array of [u], the written part lies after or before
    the part [u] shows, or nothing is written. *)
Definition untouched (arrs : gmap nat (list any)) (s t u : slice) : Prop :=
  len s + length (elems arrs t) <= cap s ->
  match data s, data u with
  | Some (a, off), Some (a', off') =>
      a = a' ->
      off' + len u <= off + len s
      \/ off + len s + length (elems arrs t) <= off'
      \/ elems arrs t = []
  | _, _ => True
  end.

End Heap.

(** ** The test handle and the effects of an assertion

    A call of Fatalf or Errorf on a testing.TB is recorded in a log.  An
    argument of the call is an interface value or the slice of candidates
    of OneOf and NotOneOf. *)

Module Testing.

Inductive farg : Type :=
| ArgAny (a : any)
| ArgAnys (b : option (list any)).

Definition ArgStr (s : string) : farg := ArgAny (Iface TString (VString s)).
Definition ArgInt (z : Z) : farg := ArgAny (Iface (TInt Iword) (VInt z)).
Definition ArgDuration (z : Z) : farg :=
  ArgAny (Iface (TNamed "Duration" (TInt I64)) (VInt z)).

Record event : Type := Event {
  ev_tb : nat;
  ev_fatal : bool;
  ev_format : string;
  ev_args : list farg;
  ev_time : Z
}.

(** The state a test runs in: the objects of the context type [O] and the
    arrays behind slices, both by address, the log of reported failures,
    the clock in nanoseconds, and the number of calls made so far to the
    predicates that WaitForTrue polls. *)
Record world (O : Type) : Type := World {
  objs : gmap nat O;
  arrs : gmap nat (list any);
  tblog : list event;
  now : Z;
  polls : nat
}.
Arguments World {O} _ _ _ _ _.
Arguments objs {O} _.
Arguments arrs {O} _.
Arguments tblog {O} _.
Arguments now {O} _.
Arguments polls {O} _.

(** How a call ends: it returns, it panics, or the goroutine of the test
    exits (FailNow, called by Fatalf, runs runtime.Goexit). *)
Inductive outcome (A : Type) : Type :=
| Done (a : A)
| Panicked (msg : string)
| Exited.
Arguments Done {A} a.
Arguments Panicked {A} msg.
Arguments Exited {A}.

Definition M (O A : Type) : Type := world O -> outcome A * world O.

Definition M_ret {O A} (a : A) : M O A := fun w => (Done a, w).

Definition M_bind {O A B} (m : M O A) (k : A -> M O B) : M O B :=
  fun w =>
    match m w with
    | (Done a, w') => k a w'
    | (Panicked msg, w') => (Panicked msg, w')
    | (Exited, w') => (Exited, w')
    end.

Definition panic {O A} (msg : string) : M O A := fun w => (Panicked msg, w).

Definition liftRes {O A} (r : res A) : M O A :=
  match r with
  | Ok a => M_ret a
  | Panic msg => panic msg
  end.

(** Dereference of a pointer to a context. *)
Definition deref {O} (p : option nat) : M O O :=
  fun w =>
    match p with
    | None => (Panicked "runtime error: invalid memory address or nil pointer dereference", w)
    | Some l =>
        match objs w !! l with
        | Some x => (Done x, w)
        | None => (Panicked "runtime error: invalid memory address or nil pointer dereference", w)
        end
    end.

(** A new object: [&x] for a composite literal or an escaping local. *)
Definition alloc {O} (x : O) : M O (option nat) :=
  fun w =>
    let l := fresh (dom (objs w)) in
    (Done (Some l), World (<[l := x]> (objs w)) (arrs w) (tblog w) (now w) (polls w)).

(** An assignment through a pointer. *)
Definition store {O} (p : option nat) (x : O) : M O unit :=
  fun w =>
    match p with
    | Some l => (Done tt, World (<[l := x]> (objs w)) (arrs w) (tblog w) (now w) (polls w))
    | None => (Panicked "runtime error: invalid memory address or nil pointer dereference", w)
    end.

Definition readSlice {O} (s : Heap.slice) : M O (list any) :=
  fun w => (Done (Heap.elems (arrs w) s), w).

Definition appendSlice {O} (slack : nat -> nat -> nat) (s t : Heap.slice) : M O Heap.slice :=
  fun w =>
    let '(r, arrs') := Heap.append slack s t (arrs w) in
    (Done r, World (objs w) arrs' (tblog w) (now w) (polls w)).

(** The slice a call builds for variadic arguments passed one by one: nil
    for none, and otherwise a new array that the arguments fill. *)
Definition variadic {O} (l : list any) : M O Heap.slice :=
  fun w =>
    match l with
    | [] => (Done Heap.nilSlice, w)
    | _ =>
        let a := fresh (dom (arrs w)) in
        (Done (Heap.Slice (Some (a, 0)) (length l) (length l)),
         World (objs w) (<[a := l]> (arrs w)) (tblog w) (now w) (polls w))
    end.

(** TB.Helper only marks the caller; on a nil handle the call is a nil
    dereference. *)
Definition Helper {O} (tb : option nat) : M O unit :=
  match tb with
  | Some _ => M_ret tt
  | None => panic "runtime error: invalid memory address or nil pointer dereference"
  end.

Definition report {O} (fatal : bool) (tb : nat) (format : string) (args : list farg)
    (w : world O) : world O :=
  World (objs w) (arrs w) (tblog w ++ [Event tb fatal format args (now w)]) (now w) (polls w).

(** TB.Errorf records the failure and returns. *)
Definition Errorf {O} (tb : option nat) (format : string) (args : list farg) : M O unit :=
  fun w =>
    match tb with
    | Some t => (Done tt, report false t format args w)
    | None => (Panicked "runtime error: invalid memory address or nil pointer dereference", w)
    end.

(** TB.Fatalf records the failure and stops the test. *)
Definition Fatalf {O} (tb : option nat) (format : string) (args : list farg) : M O unit :=
  fun w =>
    match tb with
    | Some t => (Exited, report true t format args w)
    | None => (Panicked "runtime error: invalid memory address or nil pointer dereference", w)
    end.

(** The clock: reading it, and letting [d] nanoseconds pass. *)
Definition clock {O} : M O Z := fun w => (Done (now w), w).

Definition elapse {O} (d : Z) : M O unit :=
  fun w => (Done tt, World (objs w) (arrs w) (tblog w) (now w + d)%Z (polls w)).

(** A call of a polled predicate: [f k] is what call number [k] returns
    and the nanoseconds it takes. *)
Definition poll {O} (f : nat -> bool * N) : M O bool :=
  fun w =>
    (Done (fst (f (polls w))),
     World (objs w) (arrs w) (tblog w) (now w + Z.of_N (snd (f (polls w))))%Z
       (S (polls w))).

End Testing.

#[global] Instance M_mret O : MRet (Testing.M O) := fun A a => Testing.M_ret a.
#[global] Instance M_mbind O : MBind (Testing.M O) := fun A B k m => Testing.M_bind m k.

(** ** workers.go: the classifiers, the same in both packages *)

Module Workers.

Definition isNil (o : any) : bool :=
  match o with
  | nilAny => true
  | Iface t v =>
      let kind := Reflect.KindOf t in
      (Reflect.ord Reflect.Chan <=? Reflect.ord kind)
      && (Reflect.ord kind <=? Reflect.ord Reflect.Slice)
      && Reflect.IsNil kind v
  end.

Definition isZero (o : any) : bool :=
  match o with
  | nilAny => true
  | Iface t v =>
      match Reflect.KindOf t with
      | Reflect.Ptr =>
          Reflect.DeepEqual o (Reflect.New (Reflect.Elem t) (S (Reflect.maxAddr v)))
      | Reflect.Slice | Reflect.Array | Reflect.Map | Reflect.Chan =>
          if Reflect.Len t v =? 0 then true else false
      | _ => Reflect.DeepEqual o (Iface t (Reflect.Zero t))
      end
  end.

(** The address of the next allocation while [a] and [b] are live. *)
Definition freshFor (a b : any) : nat :=
  S (Nat.max (Reflect.maxAddrAny a) (Reflect.maxAddrAny b)).

(** A method of a dynamic type that implements an equality interface: it
    takes the receiver and the argument, and is modelled by what it
    returns, a boolean or a panic. *)
Definition hook : Type := any -> any -> res bool.

(** The type assertion [a.(Equaler)], given which types have the method. *)
Definition assertHook (methods : type -> option hook) (a : any) : option (any -> res bool) :=
  match a with
  | nilAny => None
  | Iface t _ =>
      match methods t with
      | Some m => Some (m a)
      | None => None
      end
  end.

End Workers.

(** ** Package is with the Is struct (v2/workers.go, lines 1 to 556) *)

Module IsPkg.
Import Workers Testing.

(** The Is struct; a context is a pointer to one. *)
Record Is : Type := MkIs {
  TB : option nat;
  strict : bool;
  failFormat : string;
  failArgs : Heap.slice;
  msgSep : string
}.

(** What a context shows to its user: the test handle, the strictness, the
    message template, the message arguments (the elements of failArgs, read
    in the store) and the separator. *)
Definition observable (w : world Is) (is_ : option nat) :
    option (option nat * bool * string * list any * string) :=
  match is_ with
  | None => None
  | Some l =>
      match objs w !! l with
      | None => None
      | Some x =>
          Some (TB x, strict x, failFormat x, Heap.elems (arrs w) (failArgs x), msgSep x)
      end
  end.

(** Every context of the store has its failArgs laid out in the store. *)
Definition store_wf (w : world Is) : Prop :=
  forall l x, objs w !! l = Some x -> Heap.wf (arrs w) (failArgs x).

(** How a call of a function value of type func() ends: it returns, it
    panics with a value (an interface value; the nil interface after
    panic(nil)), or the goroutine exits. *)
Inductive ending : Type :=
| Returns
| PanicsWith (v : any)
| Exits.

(** A function value of type func(): what a call of it does. *)
Definition func : Type := world Is -> ending * world Is.

(** The function whose body is a computation of the model.  A panic that
    the model records by its message has a value that is not nil; it is
    given as that message. *)
Definition funcOf (body : M Is unit) : func :=
  fun w =>
    match body w with
    | (Done _, w') => (Returns, w')
    | (Panicked msg, w') => (PanicsWith (Iface TString (VString msg)), w')
    | (Exited, w') => (Exits, w')
    end.

Section Package.

(** The Equal method of the types that implement Equaler. *)
Variable Equaler : type -> option hook.

(** fmt.Sprintf("%T", o), the name of the dynamic type of a value. *)
Variable typeName : any -> string.

(** The extra capacity append gives a new array, from the old capacity and
    the needed length. *)
Variable slack : nat -> nat -> nat.

Definition objectTypeName (o : any) : string := typeName o.

(** objectTypeNames takes the candidates as a slice: the nil slice is
    formatted as a value of type []interface {}. *)
Definition objectTypeNames (o : Heap.slice) : M Is string :=
  if Heap.isNilSlice o then mret "[]interface {}"
  else
    l ← readSlice o;
    if Heap.len o =? 1 then
      match l with
      | e :: _ => mret (objectTypeName e)
      | [] => panic "runtime error: index out of range"
      end
    else
      match l with
      | e :: rest =>
          mret (objectTypeName e
                +:+ String.concat "" (map (fun e => "," +:+ objectTypeName e) rest))
      | [] => panic "runtime error: index out of range [0] with length 0"
      end.

Definition isEqual (a b : any) : res bool :=
  if isNil a || isNil b then
    if isNil a && negb (isNil b) then Ok false
    else if negb (isNil a) && isNil b then Ok false
    else Reflect.ifaceEq a b
  else
    match assertHook Equaler a with
    | Some Equal => Equal b
    | None =>
        if Reflect.DeepEqual a b then Ok true
        else
          let aValue := Reflect.ValueOf a in
          let bValue := Reflect.ValueOf b in
          bType ← Reflect.ValueType bValue;
          aType ← Reflect.ValueType aValue;
          if Reflect.ConvertibleTo bType aType then
            c ← Reflect.Convert bValue aType (freshFor a b);
            ci ← Reflect.ValueInterface c;
            Ok (Reflect.DeepEqual a ci)
          else Ok false
    end.

Definition getMsgSep (is_ : option nat) : M Is string :=
  x ← deref is_;
  if negb (String.eqb (msgSep x) "") then mret (msgSep x)
  else mret " - ".

(** failDefault, the value of the package variable [fail]. *)
Definition failDefault (is_ : option nat) (format : string) (args : list farg) : M Is unit :=
  x ← deref is_;
  Helper (TB x);;
  r ← (if negb (String.length (failFormat x) =? 0) then
         sep ← getMsgSep is_;
         more ← readSlice (failArgs x);
         mret (format +:+ sep +:+ failFormat x, args ++ map ArgAny more)
       else mret (format, args));
  if strict x then Fatalf (TB x) (fst r) (snd r)
  else Errorf (TB x) (fst r) (snd r).

Definition fail := failDefault.

Definition New (tb : option nat) : M Is (option nat) :=
  match tb with
  | None => panic "You must provide a testing object."
  | Some _ => alloc (MkIs tb true "" Heap.nilSlice "")
  end.

(** The method New of an Is. *)
Definition Is_New (is_ : option nat) (tb : option nat) : M Is (option nat) :=
  newIs ← deref is_;
  alloc (MkIs tb (strict newIs) (failFormat newIs) (failArgs newIs) (msgSep newIs)).

Definition Msg (is_ : option nat) (format : string) (args : Heap.slice) : M Is (option nat) :=
  newIs ← deref is_;
  alloc (MkIs (TB newIs) (strict newIs) format args (msgSep newIs)).

Definition MsgSep (is_ : option nat) (sep : string) : M Is (option nat) :=
  newIs ← deref is_;
  alloc (MkIs (TB newIs) (strict newIs) (failFormat newIs) (failArgs newIs) sep).

Definition AddMsg (is_ : option nat) (format : string) (args : Heap.slice) : M Is (option nat) :=
  x ← deref is_;
  if String.eqb (failFormat x) "" then Msg is_ format args
  else
    newIs ← deref is_;
    sep ← getMsgSep is_;
    newArgs ← appendSlice slack (failArgs x) args;
    alloc (MkIs (TB newIs) (strict newIs) (failFormat x +:+ sep +:+ format) newArgs
             (msgSep newIs)).

Definition PrependMsg (is_ : option nat) (format : string) (args : Heap.slice) : M Is (option nat) :=
  x ← deref is_;
  if String.eqb (failFormat x) "" then Msg is_ format args
  else
    newIs ← deref is_;
    sep ← getMsgSep is_;
    newArgs ← appendSlice slack args (failArgs x);
    alloc (MkIs (TB newIs) (strict newIs) (format +:+ sep +:+ failFormat x) newArgs
             (msgSep newIs)).

Definition Lax (is_ : option nat) : M Is (option nat) :=
  newIs ← deref is_;
  alloc (MkIs (TB newIs) false (failFormat newIs) (failArgs newIs) (msgSep newIs)).

Definition Strict (is_ : option nat) : M Is (option nat) :=
  newIs ← deref is_;
  alloc (MkIs (TB newIs) true (failFormat newIs) (failArgs newIs) (msgSep newIs)).

Definition helper (is_ : option nat) : M Is unit :=
  x ← deref is_;
  Helper (TB x).

Definition Equal (is_ : option nat) (actual expected : any) : M Is bool :=
  helper is_;;
  eq ← liftRes (isEqual actual expected);
  if negb eq then
    fail is_ "got '%v' (%s). expected '%v' (%s)"
      [ArgAny actual; ArgStr (objectTypeName actual);
       ArgAny expected; ArgStr (objectTypeName expected)];;
    mret false
  else mret true.

Definition NotEqual (is_ : option nat) (a b : any) : M Is bool :=
  helper is_;;
  eq ← liftRes (isEqual a b);
  if (eq : bool) then
    fail is_ "expected objects '%s' and '%s' not to be equal"
      [ArgStr (objectTypeName a); ArgStr (objectTypeName b)];;
    mret false
  else mret true.

(** The loop of OneOf and NotOneOf: [result] after the range over the
    candidates, which stops at the first equal one. *)
Fixpoint anyEqual (a : any) (b : list any) : res bool :=
  match b with
  | [] => Ok false
  | o :: rest =>
      result ← isEqual a o;
      if (result : bool) then Ok true else anyEqual a rest
  end.

Definition candidates (b : Heap.slice) (l : list any) : farg :=
  ArgAnys (if Heap.isNilSlice b then None else Some l).

Definition OneOf (is_ : option nat) (a : any) (b : Heap.slice) : M Is bool :=
  helper is_;;
  l ← readSlice b;
  result ← liftRes (anyEqual a l);
  if negb result then
    names ← objectTypeNames b;
    fail is_ "expected object '%s' to be equal to one of '%s', but got: %#v and %#v"
      [ArgStr (objectTypeName a); ArgStr names; ArgAny a; candidates b l];;
    mret false
  else mret true.

Definition NotOneOf (is_ : option nat) (a : any) (b : Heap.slice) : M Is bool :=
  helper is_;;
  l ← readSlice b;
  result ← liftRes (anyEqual a l);
  if (result : bool) then
    names ← objectTypeNames b;
    fail is_ "expected object '%s' not to be equal to one of '%s', but got: %v and %v"
      [ArgStr (objectTypeName a); ArgStr names; ArgAny a; candidates b l];;
    mret false
  else mret true.

Definition isString (a : any) : res bool :=
  k ← Reflect.TypeKind (Reflect.TypeOf a);
  Ok (bool_decide (k = Reflect.String)).

Definition isSlice (a : any) : res bool :=
  k ← Reflect.TypeKind (Reflect.TypeOf a);
  Ok (bool_decide (k = Reflect.Slice)).

(** strings.Contains. *)
Fixpoint stringsContains (s substr : string) : bool :=
  if String.prefix substr s then true
  else
    match s with
    | EmptyString => false
    | String _ rest => stringsContains rest substr
    end.

(** Value.String of a value of kind String. *)
Definition stringValue (a : any) : string :=
  match a with
  | Iface _ (VString s) => s
  | _ => ""
  end.

(** The elements alist.Index(i).Interface() of a value of kind Slice. *)
Definition sliceElements (a : any) : list any :=
  match a with
  | Iface t (VSlice sl) => map (Iface (Reflect.Elem t)) (Reflect.elemsOf sl)
  | _ => []
  end.

(** The loop of Contains over the elements: true at the first one equal
    to [b]. *)
Fixpoint containsLoop (alist : list any) (b : any) : res bool :=
  match alist with
  | [] => Ok false
  | e :: rest =>
      eq ← isEqual e b;
      if (eq : bool) then Ok true else containsLoop rest b
  end.

Definition Contains (is_ : option nat) (a b : any) : M Is bool :=
  sa ← liftRes (isString a);
  both ← (if (sa : bool) then liftRes (isString b) else mret false);
  if (both : bool) then
    let astr := stringValue a in
    let bstr := stringValue b in
    if stringsContains astr bstr then mret true
    else
      fail is_ "%#v expected to contain %#v" [ArgAny a; ArgAny b];;
      mret false
  else
    sl ← liftRes (isSlice a);
    if (sl : bool) then
      found ← liftRes (containsLoop (sliceElements a) b);
      if (found : bool) then mret true
      else
        fail is_ "%#v expected to contain %#v" [ArgAny a; ArgAny b];;
        mret false
    else
      fail is_ "unexpected argument types %T and %T" [ArgAny a; ArgAny b];;
      mret false.

Definition Nil (is_ : option nat) (o : any) : M Is bool :=
  helper is_;;
  if negb (isNil o) then
    fail is_ "expected object '%s' to be nil, but got: %v"
      [ArgStr (objectTypeName o); ArgAny o];;
    mret false
  else mret true.

Definition NotNil (is_ : option nat) (o : any) : M Is bool :=
  helper is_;;
  if isNil o then
    fail is_ "expected object '%s' not to be nil" [ArgStr (objectTypeName o)];;
    mret false
  else mret true.

Definition True (is_ : option nat) (b : bool) : M Is bool :=
  helper is_;;
  if negb b then
    fail is_ "expected boolean to be true" [];;
    mret false
  else mret true.

Definition False (is_ : option nat) (b : bool) : M Is bool :=
  helper is_;;
  if b then
    fail is_ "expected boolean to be false" [];;
    mret false
  else mret true.

Definition Zero (is_ : option nat) (o : any) : M Is bool :=
  helper is_;;
  if negb (isZero o) then
    fail is_ "expected object '%s' to be zero value, but it was: %v"
      [ArgStr (objectTypeName o); ArgAny o];;
    mret false
  else mret true.

Definition NotZero (is_ : option nat) (o : any) : M Is bool :=
  helper is_;;
  if isZero o then
    fail is_ "expected object '%s' not to be zero value" [ArgStr (objectTypeName o)];;
    mret false
  else mret true.

Definition lenKind (k : Reflect.Kind) : bool :=
  bool_decide (k = Reflect.Array) || bool_decide (k = Reflect.Slice)
  || bool_decide (k = Reflect.Map).

Definition Len (is_ : option nat) (o : any) (l : Z) : M Is bool :=
  helper is_;;
  match o with
  | nilAny =>
      fail is_
        "expected object '%s' to be of length '%d', but the object is not one of array, slice or map"
        [ArgStr (objectTypeName o); ArgInt l];;
      mret false
  | Iface t v =>
      if negb (lenKind (Reflect.KindOf t)) then
        fail is_
          "expected object '%s' to be of length '%d', but the object is not one of array, slice or map"
          [ArgStr (objectTypeName o); ArgInt l];;
        mret false
      else
        let rLen := Z.of_nat (Reflect.Len t v) in
        if negb (rLen =? l)%Z then
          fail is_ "expected object '%s' to be of length '%d' but it was: %d"
            [ArgStr (objectTypeName o); ArgInt l; ArgInt rLen];;
          mret false
        else mret true
  end.

(** 100 * time.Millisecond, in nanoseconds. *)
Definition sleepTime : Z := 100000000.

(** The loop of WaitForTrue.  time.After(timeout) starts a timer that is
    due once the clock has reached [after]; its value is sent on the
    channel when the scheduler services the timer, and the goroutine of the
    test enters the scheduler only when it sleeps.  [serviced] says whether
    it has slept since the timer was started: at the first select the
    channel is empty whatever the timeout is, and at a later select it
    holds the value when the timer was due at the end of the sleep before
    it.  (A timer that another thread services during the few instructions
    between time.After and the first select is not modelled.)  The select
    takes the default branch while the channel is empty.  The predicate is
    polled with [poll].  The loop runs for at most [fuel] rounds; it returns
    [Some tt] when the Go loop returns, and [None] if the rounds do not
    suffice. *)
Fixpoint waitLoop (fuel : nat) (is_ : option nat) (timeout after : Z)
    (f : nat -> bool * N) (serviced : bool) : M Is (option unit) :=
  match fuel with
  | 0 => mret None
  | S fuel' =>
      t ← clock;
      if serviced && (after <=? t)%Z then
        fail is_ "function did not return true within the timeout of %v"
          [ArgDuration timeout];;
        mret (Some tt)
      else
        r ← poll f;
        if (r : bool) then mret (Some tt)
        else
          elapse sleepTime;;
          waitLoop fuel' is_ timeout after f true
  end.

(** The rounds that suffice for a timeout: every round but the last spends
    at least [sleepTime], and the first one is always made. *)
Definition rounds (timeout : Z) : nat := S (S (Z.to_nat (timeout / sleepTime))).


(** WaitForTrue.  [startup] is the time, in nanoseconds, that passes
    between the call of time.After and the first select; the goroutine
    does not sleep in between. *)
Definition WaitForTrue (is_ : option nat) (timeout : Z) (f : nat -> bool * N)
    (startup : N) : M Is (option unit) :=
  helper is_;;
  t ← clock;
  let after := (t + timeout)%Z in
  elapse (Z.of_N startup);;
  waitLoop (rounds timeout) is_ timeout after f false.

(** The method Error of the dynamic type of an error value, modelled by
    what it returns.  An error is passed as the interface value it is. *)
Variable ErrorOf : any -> res string.

Definition Err (is_ : option nat) (e : any) : M Is bool :=
  helper is_;;
  if isNil e then
    fail is_ "expected error" [];;
    mret false
  else mret true.

Definition ErrMsg (is_ : option nat) (e : any) (expectedMsg : string) : M Is bool :=
  helper is_;;
  if isNil e then
    fail is_ "expected error %#v" [ArgStr expectedMsg];;
    mret false
  else
    msg ← liftRes (ErrorOf e);
    Equal is_ (Iface TString (VString msg)) (Iface TString (VString expectedMsg)).

Definition NotErr (is_ : option nat) (e : any) : M Is bool :=
  helper is_;;
  if negb (isNil e) then
    fail is_ "expected no error, but got: %v" [ArgAny e];;
    mret false
  else mret true.

Definition Fail (is_ : option nat) (msg : string) : M Is unit :=
  helper is_;;
  fail is_ msg [].

(** ShouldPanic.  The deferred function runs however [f] ends.  After a
    return and after a Goexit (a fatal failure inside [f]) recover returns
    nil and the failure is recorded.  After a panic recover stops the panic
    and returns its value: ShouldPanic returns, and it records nothing
    unless the value is the nil interface, which is what recover returns
    after panic(nil) up to Go 1.20; then the failure is recorded as it is
    after a return. *)
Definition ShouldPanic (is_ : option nat) (f : func) : M Is unit :=
  helper is_;;
  ((fun w =>
      match f w with
      | (Returns, w') => fail is_ "expected function to panic" [] w'
      | (PanicsWith r, w') =>
          match r with
          | nilAny => fail is_ "expected function to panic" [] w'
          | Iface _ _ => (Done tt, w')
          end
      | (Exits, w') =>
          match fail is_ "expected function to panic" [] w' with
          | (Panicked msg, w'') => (Panicked msg, w'')
          | (_, w'') => (Exited, w'')
          end
      end) : M Is unit).

Definition EqualType (is_ : option nat) (expected actual : any) : M Is bool :=
  helper is_;;
  if negb (bool_decide (Reflect.TypeOf expected = Reflect.TypeOf actual)) then
    fail is_ "expected objects '%s' to be of the same type as object '%s'"
      [ArgStr (objectTypeName expected); ArgStr (objectTypeName actual)];;
    mret false
  else mret true.

End Package.

(** The failure that fail records for the context [x] with the test handle
    [t], at a time and in a store of arrays: the message of the context, if
    there is one, follows the separator. *)
Definition failure (x : Is) (t : nat) (format : string) (args : list farg)
    (w : world Is) : event :=
  if String.length (failFormat x) =? 0
  then Event t (strict x) format args (now w)
  else Event t (strict x)
         (format +:+ (if String.eqb (msgSep x) "" then " - " else msgSep x) +:+ failFormat x)
         (args ++ map ArgAny (Heap.elems (arrs w) (failArgs x))) (now w).

(** The world after one more failure is recorded. *)
Definition recorded (e : event) (w : world Is) : world Is :=
  World (objs w) (arrs w) (tblog w ++ [e]) (now w) (polls w).

End IsPkg.

(** ** Package require (unnamed/part_002): functions in the style of
    testify over a context of the Is package *)

Module RequirePkg.
Import Workers Testing.

Section Package.

Variable Equaler : type -> option hook.
Variable typeName : any -> string.
Variable slack : nat -> nat -> nat.
Variable ErrorOf : any -> res string.

(** The type assertion [msgAndArgs[0].(string)]: the dynamic type must be
    string itself. *)
Definition assertString (a : any) : res string :=
  match a with
  | Iface TString (VString s) => Ok s
  | _ => Panic "interface conversion: interface {} is not string"
  end.

(** The slice expression [s[1:]] on a slice with an element. *)
Definition from1 (s : Heap.slice) : Heap.slice :=
  match Heap.data s with
  | Some (a, off) => Heap.Slice (Some (a, S off)) (Heap.len s - 1) (Heap.cap s - 1)
  | None => s
  end.

(** The lines every function of the package starts with: a new context
    and, when there are message arguments, a call of AddMsg whose result is
    not kept.  The context [is] of the function is returned. *)
Definition newContext (t : option nat) (msgAndArgs : Heap.slice) : M IsPkg.Is (option nat) :=
  is_ ← IsPkg.New t;
  (if 0 <? Heap.len msgAndArgs then
     l ← readSlice msgAndArgs;
     format ← liftRes (match l with
                       | e :: _ => assertString e
                       | [] => Panic "runtime error: index out of range [0] with length 0"
                       end);
     IsPkg.AddMsg slack is_ format (from1 msgAndArgs);;
     mret tt
   else mret tt);;
  mret is_.

Definition Contains (t : option nat) (s contains : any) (msgAndArgs : Heap.slice) :
    M IsPkg.Is unit :=
  is_ ← newContext t msgAndArgs;
  IsPkg.Contains Equaler is_ s contains;;
  mret tt.

Definition Equal (t : option nat) (expected actual : any) (msgAndArgs : Heap.slice) :
    M IsPkg.Is unit :=
  is_ ← newContext t msgAndArgs;
  IsPkg.Equal Equaler typeName is_ actual expected;;
  mret tt.

Definition EqualError (t : option nat) (theError : any) (errString : string)
    (msgAndArgs : Heap.slice) : M IsPkg.Is unit :=
  is_ ← newContext t msgAndArgs;
  IsPkg.ErrMsg Equaler typeName ErrorOf is_ theError errString;;
  mret tt.

Definition EqualValuesf (t : option nat) (expected actual : any) (msg : string)
    (args : Heap.slice) : M IsPkg.Is unit :=
  is_ ← IsPkg.New t;
  IsPkg.AddMsg slack is_ msg args;;
  IsPkg.Equal Equaler typeName is_ actual expected;;
  IsPkg.EqualType typeName is_ expected actual;;
  mret tt.

Definition Error (t : option nat) (err : any) (msgAndArgs : Heap.slice) : M IsPkg.Is unit :=
  is_ ← newContext t msgAndArgs;
  IsPkg.Err is_ err;;
  mret tt.

Definition False (t : option nat) (value : bool) (msgAndArgs : Heap.slice) : M IsPkg.Is unit :=
  is_ ← newContext t msgAndArgs;
  IsPkg.False is_ value;;
  mret tt.

Definition Len (t : option nat) (object : any) (length : Z) (msgAndArgs : Heap.slice) :
    M IsPkg.Is unit :=
  is_ ← newContext t msgAndArgs;
  IsPkg.Len typeName is_ object length;;
  mret tt.

Definition Nil (t : option nat) (object : any) (msgAndArgs : Heap.slice) : M IsPkg.Is unit :=
  is_ ← newContext t msgAndArgs;
  IsPkg.Nil typeName is_ object;;
  mret tt.

Definition NoError (t : option nat) (err : any) (msgAndArgs : Heap.slice) : M IsPkg.Is unit :=
  is_ ← newContext t msgAndArgs;
  IsPkg.NotErr is_ err;;
  mret tt.

Definition NotNil (t : option nat) (object : any) (msgAndArgs : Heap.slice) : M IsPkg.Is unit :=
  is_ ← newContext t msgAndArgs;
  IsPkg.NotNil typeName is_ object;;
  mret tt.

Definition Panics (t : option nat) (f : IsPkg.func) (msgAndArgs : Heap.slice) :
    M IsPkg.Is unit :=
  is_ ← newContext t msgAndArgs;
  IsPkg.ShouldPanic is_ f.

Definition True (t : option nat) (value : bool) (msgAndArgs : Heap.slice) : M IsPkg.Is unit :=
  is_ ← newContext t msgAndArgs;
  IsPkg.True is_ value;;
  mret tt.

End Package.

End RequirePkg.

(** ** Package is with the Asserter interface (v2/workers.go, lines 557
    to 1129) *)

Module AsserterPkg.
Import Workers Testing.

(** The asserter struct behind the Asserter interface. *)
Record asserter : Type := MkAsserter {
  tb : option nat;
  strict : bool;
  failFormat : string;
  failArgs : Heap.slice;
  failed : bool
}.

Section Package.

(** The Equal method of the types that implement Equaler, and the IsEqual
    method of those that implement EqualityChecker. *)
Variable Equaler : type -> option hook.
Variable EqualityChecker : type -> option hook.

(** fmt.Sprintf("%T", o), the name of the dynamic type of a value. *)
Variable typeName : any -> string.

(** The extra capacity append gives a new array. *)
Variable slack : nat -> nat -> nat.

(** cmp.Diff of the JSON round trips of two values of one slice or map
    kind; empty when a value does not marshal. *)
Variable jsonDiff : any -> any -> string.

Definition objectTypeName (o : any) : string := typeName o.

Definition objectTypeNames (o : Heap.slice) : M asserter string :=
  if Heap.isNilSlice o then mret "[]interface {}"
  else
    l ← readSlice o;
    if Heap.len o =? 1 then
      match l with
      | e :: _ => mret (objectTypeName e)
      | [] => panic "runtime error: index out of range"
      end
    else
      match l with
      | e :: rest =>
          mret (objectTypeName e
                +:+ String.concat "" (map (fun e => "," +:+ objectTypeName e) rest))
      | [] => panic "runtime error: index out of range [0] with length 0"
      end.

Definition convertibleTo (aValue bValue : Reflect.Value) : res bool :=
  aType ← Reflect.ValueType aValue;
  bType ← Reflect.ValueType bValue;
  Ok (recovered (Ok (Reflect.ConvertibleTo aType bType)) false).

Definition isEqual (a b : any) : res bool :=
  if isNil a || isNil b then
    if isNil a && negb (isNil b) then Ok false
    else if negb (isNil a) && isNil b then Ok false
    else Reflect.ifaceEq a b
  else
    match assertHook Equaler a with
    | Some Equal => Equal b
    | None =>
        match assertHook EqualityChecker a with
        | Some IsEqual => IsEqual b
        | None =>
            if Reflect.DeepEqual a b then Ok true
            else
              let aValue := Reflect.ValueOf a in
              let bValue := Reflect.ValueOf b in
              ok ← convertibleTo bValue aValue;
              if (ok : bool) then
                aType ← Reflect.ValueType aValue;
                c ← Reflect.Convert bValue aType (freshFor a b);
                ci ← Reflect.ValueInterface c;
                Ok (Reflect.DeepEqual a ci)
              else Ok false
        end
    end.

(** failDefault, the value of the package variable [fail]. *)
Definition failDefault (is_ : option nat) (format : string) (args : list farg) :
    M asserter unit :=
  x ← deref is_;
  Helper (tb x);;
  store is_ (MkAsserter (tb x) (strict x) (failFormat x) (failArgs x) true);;
  r ← (if negb (String.length (failFormat x) =? 0) then
         more ← readSlice (failArgs x);
         mret (format +:+ " - " +:+ failFormat x, args ++ map ArgAny more)
       else mret (format, args));
  if strict x then Fatalf (tb x) (fst r) (snd r)
  else Errorf (tb x) (fst r) (snd r).

Definition fail := failDefault.

Definition diff (actual expected : any) : res string :=
  aKind ← Reflect.TypeKind (Reflect.TypeOf actual);
  eKind ← Reflect.TypeKind (Reflect.TypeOf expected);
  if negb (bool_decide (aKind = eKind)) then Ok ""
  else if negb (bool_decide (aKind = Reflect.Slice)) && negb (bool_decide (aKind = Reflect.Map))
  then Ok ""
  else
    let s := jsonDiff actual expected in
    if negb (String.eqb s "") then Ok (" - Diff:" +:+ String (ascii_of_nat 10) s)
    else Ok "".

(** New ends the process (log.Fatalln) when there is no testing object. *)
Definition New (t : option nat) : M asserter (option nat) :=
  match t with
  | None => fun w => (Exited, w)
  | Some _ => alloc (MkAsserter t true "" Heap.nilSlice false)
  end.

Definition TB (self : option nat) : M asserter (option nat) :=
  x ← deref self;
  mret (tb x).

Definition Msg (self : option nat) (format : string) (args : Heap.slice) :
    M asserter (option nat) :=
  x ← deref self;
  alloc (MkAsserter (tb x) (strict x) format args false).

Definition AddMsg (self : option nat) (format : string) (args : Heap.slice) :
    M asserter (option nat) :=
  x ← deref self;
  if String.eqb (failFormat x) "" then Msg self format args
  else
    newArgs ← appendSlice slack (failArgs x) args;
    alloc (MkAsserter (tb x) (strict x) (failFormat x +:+ " - " +:+ format) newArgs false).

Definition helper (self : option nat) : M asserter unit :=
  x ← deref self;
  Helper (tb x).

Definition Equal (self : option nat) (actual expected : any) : M asserter unit :=
  helper self;;
  eq ← liftRes (isEqual actual expected);
  if negb eq then
    d ← liftRes (diff actual expected);
    fail self "actual value '%v' (%s) should be equal to expected value '%v' (%s)%s"
      [ArgAny actual; ArgStr (objectTypeName actual);
       ArgAny expected; ArgStr (objectTypeName expected); ArgStr d]
  else mret tt.

Definition NotEqual (self : option nat) (actual expected : any) : M asserter unit :=
  helper self;;
  eq ← liftRes (isEqual actual expected);
  if (eq : bool) then
    fail self "actual value '%v' (%s) should not be equal to expected value '%v' (%s)"
      [ArgAny actual; ArgStr (objectTypeName actual);
       ArgAny expected; ArgStr (objectTypeName expected)]
  else mret tt.

Fixpoint anyEqual (a : any) (b : list any) : res bool :=
  match b with
  | [] => Ok false
  | o :: rest =>
      result ← isEqual a o;
      if (result : bool) then Ok true else anyEqual a rest
  end.

Definition candidates (b : Heap.slice) (l : list any) : farg :=
  ArgAnys (if Heap.isNilSlice b then None else Some l).

Definition OneOf (self : option nat) (a : any) (b : Heap.slice) : M asserter unit :=
  helper self;;
  l ← readSlice b;
  result ← liftRes (anyEqual a l);
  if negb result then
    names ← objectTypeNames b;
    fail self "expected object '%s' to be equal to one of '%s', but got: %v and %v"
      [ArgStr (objectTypeName a); ArgStr names; ArgAny a; candidates b l]
  else mret tt.

Definition NotOneOf (self : option nat) (a : any) (b : Heap.slice) : M asserter unit :=
  helper self;;
  l ← readSlice b;
  result ← liftRes (anyEqual a l);
  if (result : bool) then
    names ← objectTypeNames b;
    fail self "expected object '%s' not to be equal to one of '%s', but got: %v and %v"
      [ArgStr (objectTypeName a); ArgStr names; ArgAny a; candidates b l]
  else mret tt.

Definition Nil (self : option nat) (o : any) : M asserter unit :=
  helper self;;
  if negb (isNil o) then
    fail self "expected object '%s' to be nil, but got: %v"
      [ArgStr (objectTypeName o); ArgAny o]
  else mret tt.

Definition NotNil (self : option nat) (o : any) : M asserter unit :=
  helper self;;
  if isNil o then
    fail self "expected object '%s' not to be nil" [ArgStr (objectTypeName o)]
  else mret tt.

Definition True (self : option nat) (b : bool) : M asserter unit :=
  helper self;;
  if negb b then fail self "expected boolean to be true" []
  else mret tt.

Definition False (self : option nat) (b : bool) : M asserter unit :=
  helper self;;
  if b then fail self "expected boolean to be false" []
  else mret tt.

Definition Zero (self : option nat) (o : any) : M asserter unit :=
  helper self;;
  if negb (isZero o) then
    fail self "expected object '%s' to be zero value, but it was: %v"
      [ArgStr (objectTypeName o); ArgAny o]
  else mret tt.

Definition NotZero (self : option nat) (o : any) : M asserter unit :=
  helper self;;
  if isZero o then
    fail self "expected object '%s' not to be zero value" [ArgStr (objectTypeName o)]
  else mret tt.

Definition Lax (self : option nat) (fn : option nat -> M asserter unit) : M asserter unit :=
  x ← deref self;
  lax ← alloc (MkAsserter (tb x) false (failFormat x) (failArgs x) false);
  fn lax;;
  l ← deref lax;
  if failed l then fail self "at least one assertion in the Lax function failed" []
  else mret tt.

End Package.

(** The asserter after failDefault has marked it. *)
Definition marked (y : asserter) : asserter :=
  MkAsserter (tb y) (strict y)
    (failFormat y) (failArgs y) true.

(** The failure fail records for an asserter, at a time and in a store of
    arrays: the message of the asserter, if there is one, follows. *)
Definition failure (y : asserter) (t : nat) (format : string)
    (args : list farg) (w : world asserter) : event :=
  if String.length (failFormat y) =? 0
  then Event t (strict y) format args (now w)
  else Event t (strict y) (format +:+ " - " +:+ failFormat y)
         (args ++ map ArgAny (Heap.elems (arrs w) (failArgs y))) (now w).

(** Callbacks for Lax: a callback that makes a list of checks, one after
    the other, on the context it is given. *)
Inductive check : Type :=
| CheckTrue (b : bool)
| CheckFalse (b : bool)
| CheckNil (o : any)
| CheckNotNil (o : any)
| CheckZero (o : any)
| CheckNotZero (o : any).

Definition runCheck (typeName : any -> string) (a : option nat) (c : check) :
    M asserter unit :=
  match c with
  | CheckTrue b => AsserterPkg.True a b
  | CheckFalse b => AsserterPkg.False a b
  | CheckNil o => Nil typeName a o
  | CheckNotNil o => NotNil typeName a o
  | CheckZero o => Zero typeName a o
  | CheckNotZero o => NotZero typeName a o
  end.

Fixpoint runChecks (typeName : any -> string) (a : option nat) (cs : list check) :
    M asserter unit :=
  match cs with
  | [] => mret tt
  | c :: rest => runCheck typeName a c;; runChecks typeName a rest
  end.

(** Whether a check holds. *)
Definition passes (c : check) : bool :=
  match c with
  | CheckTrue b => b
  | CheckFalse b => negb b
  | CheckNil o => isNil o
  | CheckNotNil o => negb (isNil o)
  | CheckZero o => isZero o
  | CheckNotZero o => negb (isZero o)
  end.

End AsserterPkg.

(** ** Values used in the examples (after the package's own tests) *)

Module Samples.

(** No type has an equality method. *)
Definition noHooks : type -> option Workers.hook := fun _ => None.

(** type testStruct struct { v int } *)
Definition testStruct : type := TNamed "testStruct" (TStruct (FCons "v" (TInt Iword) FNil)).

(** type other struct { v int } *)
Definition other : type := TNamed "other" (TStruct (FCons "v" (TInt Iword) FNil)).

(** The values of the table of tests: int(z), a string, testStruct{v}, a
    pointer at address [p] to testStruct{v}, a slice of int64 with its array
    at [p], a map from string to int64 at [p], and a boolean. *)
Definition int (z : Z) : any := Iface (TInt Iword) (VInt z).
Definition str (s : string) : any := Iface TString (VString s).
Definition structOf (v : Z) : any := Iface testStruct (VStruct [VInt v]).
Definition ptrTo (p : nat) (v : Z) : any :=
  Iface (TPtr testStruct) (VPtr (Some (p, VStruct [VInt v]))).
Definition int64s (p : nat) (l : list Z) : any :=
  Iface (TSlice (TInt I64)) (VSlice (Some (p, map VInt l))).
Definition answers (p : nat) (l : list (string * Z)) : any :=
  Iface (TMap TString (TInt I64))
    (VMap (Some (p, map (fun kv => (VString (fst kv), VInt (snd kv))) l))).
Definition boolean (b : bool) : any := Iface TBool (VBool b).

(** The nil pointers of type *testStruct and *other *)
Definition nilTestStruct : any := Iface (TPtr testStruct) (VPtr None).
Definition nilOther : any := Iface (TPtr other) (VPtr None).

(** []int64(nil), []int64{} (allocated at address 7) and int(0) *)
Definition nilInt64s : any := Iface (TSlice (TInt I64)) (VSlice None).
Definition emptyInt64s : any := Iface (TSlice (TInt I64)) (VSlice (Some (7, []))).
Definition zeroInt : any := Iface (TInt Iword) (VInt 0).

(** &[2]int{1, 2} (at address 1) and []int{1} (its array at address 2) *)
Definition arrayPtr : any :=
  Iface (TPtr (TArray 2 (TInt Iword))) (VPtr (Some (1, VArray [VInt 1; VInt 2]))).
Definition shortSlice : any := Iface (TSlice (TInt Iword)) (VSlice (Some (2, [VInt 1]))).

(** type equaler struct { equal, called bool }, whose pointer type has the
    method Equal of the tests: the argument must be a *equaler with the
    same [equal] field. *)
Definition equaler : type :=
  TNamed "equaler" (TStruct (FCons "equal" TBool (FCons "called" TBool FNil))).

Definition equalOf (a : any) : option bool :=
  match a with
  | Iface t (VPtr (Some (_, VStruct (VBool e :: _)))) =>
      if decide (t = TPtr equaler) then Some e else None
  | _ => None
  end.

Definition equalerEqual : Workers.hook :=
  fun e v =>
    match equalOf e, equalOf v with
    | Some x, Some y => Ok (Bool.eqb x y)
    | _, _ => Ok false
    end.

Definition equalerHooks : type -> option Workers.hook :=
  fun t => if decide (t = TPtr equaler) then Some equalerEqual else None.

(** &equaler{equal: true} at address 1 and &equaler{} at address 2 *)
Definition equalerA : any :=
  Iface (TPtr equaler) (VPtr (Some (1, VStruct [VBool true; VBool false]))).
Definition equalerB : any :=
  Iface (TPtr equaler) (VPtr (Some (2, VStruct [VBool false; VBool false]))).

(** The integers 1 and 2 as interface values. *)
Definition one : any := Iface (TInt Iword) (VInt 1).
Definition two : any := Iface (TInt Iword) (VInt 2).

(** A store with one array of capacity 4 at address 0, as after
    xs := make([]any, 2, 4); xs[0] = 1; xs[1] = 2, and no context yet. *)
Definition sharedStore : Testing.world IsPkg.Is :=
  Testing.World ∅ {[0 := [one; two; nilAny; nilAny]]} [] 0 0.

(** xs, and xs[:1] *)
Definition xs : Heap.slice := Heap.Slice (Some (0, 0)) 2 4.
Definition xs1 : Heap.slice := Heap.Slice (Some (0, 0)) 1 4.

(** The empty store, and the handle of a test. *)
Definition emptyStore {O} : Testing.world O := Testing.World ∅ ∅ [] 0 0.
Definition t0 : option nat := Some 0.

(** []any{}, an allocated slice without elements (its array at address 0). *)
Definition noCandidates : Heap.slice := Heap.Slice (Some (0, 0)) 0 0.
Definition storeWithEmptyArray {O} : Testing.world O :=
  Testing.World ∅ {[0 := []]} [] 0 0.

(** The strings "x" and "y" as interface values. *)
Definition strX : any := Iface TString (VString "x").
Definition strY : any := Iface TString (VString "y").

(** A store with the context New(t).Msg("a %s", "x") at address 0, and the
    arguments "x" and "y" in arrays of their own. *)
Definition boundContext : IsPkg.Is :=
  IsPkg.MkIs t0 true "a %s" (Heap.Slice (Some (0, 0)) 1 1) "".
Definition boundStore : Testing.world IsPkg.Is :=
  Testing.World {[0 := boundContext]} {[0 := [strX]; 1 := [strY]]} [] 0 0.
Definition argY : Heap.slice := Heap.Slice (Some (1, 0)) 1 1.

(** A store with one context, not strict and without a message, at
    address 0; and two predicates: one that returns true at once, one that
    never does (each call takes a millisecond). *)
Definition laxStore : Testing.world IsPkg.Is :=
  Testing.World {[0 := IsPkg.MkIs t0 false "" Heap.nilSlice ""]} ∅ [] 0 0.
Definition alwaysTrue : nat -> bool * N := fun _ => (true, 1000000%N).
Definition alwaysFalse : nat -> bool * N := fun _ => (false, 1000000%N).

(** The callback of a lax scope that makes its one check, True(false),
    on the asserter lax.Msg("m") gives. *)
Definition checkThroughMsg (lax : option nat) : Testing.M AsserterPkg.asserter unit :=
  d ← AsserterPkg.Msg lax "m" Heap.nilSlice;
  AsserterPkg.True d false.

(** The same check made on the asserter of the scope itself. *)
Definition checkDirectly (lax : option nat) : Testing.M AsserterPkg.asserter unit :=
  AsserterPkg.True lax false.

(** A growth policy for append: a new array has as much spare capacity as
    the old one had capacity. *)
Definition doubling : nat -> nat -> nat := fun old _ => old.

(** A stand-in for the verb %T in the examples: the name of a predeclared
    or defined type, and nothing for an unnamed composite type. *)
Definition shortName (a : any) : string :=
  match a with
  | nilAny => "<nil>"
  | Iface t _ => Reflect.Name t
  end.

(** The context of [laxStore], and a store with a strict context. *)
Definition laxContext : IsPkg.Is := IsPkg.MkIs t0 false "" Heap.nilSlice "".
Definition strictContext : IsPkg.Is := IsPkg.MkIs t0 true "" Heap.nilSlice "".
Definition strictStore : Testing.world IsPkg.Is :=
  Testing.World {[0 := strictContext]} ∅ [] 0 0.

(** The Error method of the examples: the text an error of type
    *errorString holds (errors.New), no text for other values. *)
Definition errorString : type := TNamed "errorString" (TStruct (FCons "s" TString FNil)).
Definition errorsNew (p : nat) (text : string) : any :=
  Iface (TPtr errorString) (VPtr (Some (p, VStruct [VString text]))).
Definition errorText (e : any) : res string :=
  match e with
  | Iface _ (VPtr (Some (_, VStruct [VString s]))) => Ok s
  | _ => Ok ""
  end.

(** A store with the candidates 1 and 2 in an array at address 0, and a
    lax context. *)
Definition candidateStore : Testing.world IsPkg.Is :=
  Testing.World {[0 := laxContext]} {[0 := [one; two]]} [] 0 0.
Definition oneTwo : Heap.slice := Heap.Slice (Some (0, 0)) 2 2.

(** A store without contexts that holds the message arguments "wanted %d"
    and 1 in an array at address 0 and the lone argument 1 in an array at
    address 1. *)
Definition messageStore : Testing.world IsPkg.Is :=
  Testing.World ∅ {[0 := [str "wanted %d"; one]; 1 := [one]]} [] 0 0.
Definition wanted : Heap.slice := Heap.Slice (Some (0, 0)) 2 2.
Definition onlyOne : Heap.slice := Heap.Slice (Some (1, 0)) 1 1.

(** A store with a context whose one argument "x" lies in an array of
    capacity 2 at address 0, and the arguments "y" and 1 in arrays of their
    own. *)
Definition spareContext : IsPkg.Is :=
  IsPkg.MkIs t0 true "a %s" (Heap.Slice (Some (0, 0)) 1 2) "".
Definition spareStore : Testing.world IsPkg.Is :=
  Testing.World {[0 := spareContext]} {[0 := [strX; nilAny]; 1 := [strY]; 2 := [one]]} [] 0 0.
Definition argOne : Heap.slice := Heap.Slice (Some (2, 0)) 1 1.

(** A store with a strict asserter without a message at address 0; and a
    store with the asserter New(t).Msg("a %s", "x") after a failure
    (the failed flag is set), with the argument "y" in an array of its own. *)
Definition strictAsserter : AsserterPkg.asserter :=
  AsserterPkg.MkAsserter t0 true "" Heap.nilSlice false.
Definition asserterStore : Testing.world AsserterPkg.asserter :=
  Testing.World {[0 := strictAsserter]} ∅ [] 0 0.
Definition failedAsserter : AsserterPkg.asserter :=
  AsserterPkg.MkAsserter t0 false "a %s" (Heap.Slice (Some (0, 0)) 1 1) true.
Definition failedStore : Testing.world AsserterPkg.asserter :=
  Testing.World {[0 := failedAsserter]} {[0 := [strX]; 1 := [strY]]} [] 0 0.

End Samples.

(** * Theorems *)

(** ** The equality engine *)

Section EqualityFacts.

Import Workers.

Lemma isNil_inv t v :
  isNil (Iface t v) = true ->
  (Reflect.KindOf t = Reflect.Chan /\ v = VChan None)
  \/ (Reflect.KindOf t = Reflect.Func /\ v = VFunc None)
  \/ (Reflect.KindOf t = Reflect.Map /\ v = VMap None)
  \/ (Reflect.KindOf t = Reflect.Ptr /\ v = VPtr None)
  \/ (Reflect.KindOf t = Reflect.Slice /\ v = VSlice None).
Proof.
  unfold isNil. destruct (Reflect.KindOf t); simpl; try discriminate;
    destruct v as [| | | |[?|]|[?|]|[?|]|[?|]|[?|]|]; simpl; try discriminate;
    intros _; tauto.
Qed.

Lemma comparable_kind t :
  Reflect.comparable t = true ->
  Reflect.KindOf t <> Reflect.Func /\ Reflect.KindOf t <> Reflect.Map
  /\ Reflect.KindOf t <> Reflect.Slice.
Proof.
  induction t; simpl; try discriminate; try (intros _; repeat split; discriminate).
  - destruct k; intros _; repeat split; discriminate.
  - assumption.
Qed.

Lemma ifaceEq_nil_same t va vb :
  isNil (Iface t va) = true -> isNil (Iface t vb) = true ->
  Reflect.comparable t = true ->
  Reflect.ifaceEq (Iface t va) (Iface t vb) = Ok true.
Proof.
  intros Ha Hb Hc. simpl. rewrite decide_True by reflexivity. rewrite Hc.
  apply comparable_kind in Hc as (Hf & Hm & Hs).
  apply isNil_inv in Ha, Hb.
  destruct Ha as [[K ->]|[[K ->]|[[K ->]|[[K ->]|[K ->]]]]]; try congruence;
    destruct Hb as [[K' ->]|[[K' ->]|[[K' ->]|[[K' ->]|[K' ->]]]]]; try congruence;
    reflexivity.
Qed.

Lemma ifaceEq_types_differ a b :
  Reflect.TypeOf a <> Reflect.TypeOf b -> Reflect.ifaceEq a b = Ok false.
Proof.
  destruct a as [|ta va], b as [|tb vb]; simpl; try congruence.
  intros H. rewrite decide_False; [reflexivity | congruence].
Qed.

End EqualityFacts.

Section EqualityClaims.

Import Workers.

(** Both nil slices have one uncomparable dynamic type: the comparison the
    nil branch ends with panics. *)
Lemma isEqual_nil_slices_panic :
  isNil Samples.nilInt64s = true
  /\ IsPkg.isEqual Samples.noHooks Samples.nilInt64s Samples.nilInt64s
     = Panic "runtime error: comparing uncomparable type"
  /\ AsserterPkg.isEqual Samples.noHooks Samples.noHooks Samples.nilInt64s Samples.nilInt64s
     = Panic "runtime error: comparing uncomparable type".
Proof. repeat split; reflexivity. Qed.

(** C1, as stated, fails: two typed nil pointers of different types are
    both nil-like, and isEqual returns false on them. *)
Lemma C1_nil_pointers_of_two_types :
  isNil Samples.nilTestStruct = true
  /\ isNil Samples.nilOther = true
  /\ IsPkg.isEqual Samples.noHooks Samples.nilTestStruct Samples.nilOther = Ok false
  /\ AsserterPkg.isEqual Samples.noHooks Samples.noHooks Samples.nilTestStruct Samples.nilOther
     = Ok false.
Proof. repeat split; reflexivity. Qed.

(** C1, amended: when at least one operand is nil-like, isEqual returns
    false if exactly one is; if both are, it returns the interface
    comparison [a == b], which is false when the dynamic types differ and
    true when both are the nil interface or have one comparable dynamic
    type. *)
Theorem C1_isEqual_nil_like (E C : type -> option hook) (a b : any) :
  isNil a || isNil b = true ->
  (isNil a && isNil b = false ->
     IsPkg.isEqual E a b = Ok false /\ AsserterPkg.isEqual E C a b = Ok false)
  /\ (isNil a && isNil b = true ->
      Reflect.TypeOf a <> Reflect.TypeOf b ->
      IsPkg.isEqual E a b = Ok false /\ AsserterPkg.isEqual E C a b = Ok false)
  /\ (isNil a && isNil b = true ->
      Reflect.TypeOf a = Reflect.TypeOf b ->
      (forall t, Reflect.TypeOf a = Some t -> Reflect.comparable t = true) ->
      IsPkg.isEqual E a b = Ok true /\ AsserterPkg.isEqual E C a b = Ok true).
Proof.
  intros Hor. unfold IsPkg.isEqual, AsserterPkg.isEqual. rewrite Hor.
  destruct (isNil a) eqn:Ha, (isNil b) eqn:Hb; simpl in *; try discriminate.
  - split; [discriminate|]. split.
    + intros _ Hne. rewrite ifaceEq_types_differ by assumption. auto.
    + intros _ Heq Hcmp.
      destruct a as [|ta va], b as [|tb vb]; simpl in Heq; try discriminate.
      * auto.
      * injection Heq as <-.
        rewrite ifaceEq_nil_same by eauto. auto.
  - split; [auto|]. split; discriminate.
  - split; [auto|]. split; discriminate.
Qed.

Lemma C1_isEqual_nil_like_witness :
  isNil Samples.nilTestStruct || isNil Samples.nilTestStruct = true
  /\ IsPkg.isEqual Samples.noHooks Samples.nilTestStruct Samples.nilTestStruct = Ok true
  /\ AsserterPkg.isEqual Samples.noHooks Samples.noHooks
       Samples.nilTestStruct Samples.nilTestStruct = Ok true.
Proof.
  split; [reflexivity|].
  apply (proj2 (proj2 (C1_isEqual_nil_like Samples.noHooks Samples.noHooks
                         Samples.nilTestStruct Samples.nilTestStruct eq_refl)));
    try reflexivity.
  intros t [= <-]. reflexivity.
Defined.

(** C2: on operands that are not nil-like, when the dynamic type of [a]
    has the method Equal, isEqual is that method applied to [a] and [b];
    in the Asserter package IsEqual is used when there is no Equal.  No
    method of the type of [b] is looked at. *)
Theorem C2_isEqual_hook (E C : type -> option hook) (a b : any) (ta : type) (m : hook) :
  isNil a = false -> isNil b = false -> Reflect.TypeOf a = Some ta ->
  (E ta = Some m ->
     IsPkg.isEqual E a b = m a b /\ AsserterPkg.isEqual E C a b = m a b)
  /\ (E ta = None -> C ta = Some m -> AsserterPkg.isEqual E C a b = m a b).
Proof.
  intros Ha Hb Ht. unfold IsPkg.isEqual, AsserterPkg.isEqual. rewrite Ha, Hb. simpl.
  destruct a as [|t va]; [discriminate|]. injection Ht as ->.
  unfold assertHook. split.
  - intros ->. auto.
  - intros -> ->. reflexivity.
Qed.

Lemma C2_isEqual_hook_witness :
  isNil Samples.equalerA = false /\ isNil Samples.equalerB = false
  /\ Reflect.TypeOf Samples.equalerA = Some (TPtr Samples.equaler)
  /\ Samples.equalerHooks (TPtr Samples.equaler) = Some Samples.equalerEqual
  /\ IsPkg.isEqual Samples.equalerHooks Samples.equalerA Samples.equalerB
     = Samples.equalerEqual Samples.equalerA Samples.equalerB
  /\ AsserterPkg.isEqual Samples.equalerHooks Samples.noHooks Samples.equalerA Samples.equalerB
     = Samples.equalerEqual Samples.equalerA Samples.equalerB.
Proof.
  repeat (split; [reflexivity|]).
  apply (proj1 (C2_isEqual_hook Samples.equalerHooks Samples.noHooks Samples.equalerA
                  Samples.equalerB (TPtr Samples.equaler) Samples.equalerEqual
                  eq_refl eq_refl eq_refl)).
  reflexivity.
Defined.

(** The relation is not symmetric when only one side has a method: a
    *equaler against a nil-free value of another type. *)
Lemma isEqual_hook_not_symmetric :
  let always : hook := fun _ _ => Ok true in
  let hooks : type -> option hook :=
    fun t => if decide (t = TPtr Samples.equaler) then Some always else None in
  IsPkg.isEqual hooks Samples.equalerA Samples.zeroInt = Ok true
  /\ IsPkg.isEqual hooks Samples.zeroInt Samples.equalerA = Ok false.
Proof. split; reflexivity. Qed.

(** When the type of [b] is not convertible to the type of [a], the
    fallback returns false. *)
Lemma isEqual_not_convertible (E C : type -> option hook) (a b : any) (ta tb : type) :
  isNil a = false -> isNil b = false ->
  Reflect.TypeOf a = Some ta -> Reflect.TypeOf b = Some tb ->
  E ta = None -> C ta = None ->
  Reflect.DeepEqual a b = false ->
  Reflect.ConvertibleTo tb ta = false ->
  IsPkg.isEqual E a b = Ok false /\ AsserterPkg.isEqual E C a b = Ok false.
Proof.
  intros Ha Hb Hta Htb HE HC Hd Hc.
  unfold IsPkg.isEqual, AsserterPkg.isEqual. rewrite Ha, Hb, Hd. simpl.
  destruct a as [|t va]; [discriminate|]. injection Hta as ->.
  destruct b as [|t vb]; [discriminate|]. injection Htb as ->.
  unfold assertHook. rewrite HE, HC. simpl.
  unfold AsserterPkg.convertibleTo. simpl. rewrite Hc. auto.
Qed.

(** C3 fails on the code: the operands are not nil-like, have no method,
    are not deep-equal, the slice type is convertible to the pointer type,
    and the conversion panics because the slice is shorter than the array;
    isEqual lets the panic through. *)
Theorem C3_conversion_panic_propagates :
  isNil Samples.arrayPtr = false /\ isNil Samples.shortSlice = false
  /\ Reflect.DeepEqual Samples.arrayPtr Samples.shortSlice = false
  /\ Reflect.ConvertibleTo (TSlice (TInt Iword)) (TPtr (TArray 2 (TInt Iword))) = true
  /\ IsPkg.isEqual Samples.noHooks Samples.arrayPtr Samples.shortSlice
     = Panic "reflect: cannot convert slice to pointer to array: slice too short"
  /\ AsserterPkg.isEqual Samples.noHooks Samples.noHooks Samples.arrayPtr Samples.shortSlice
     = Panic "reflect: cannot convert slice to pointer to array: slice too short".
Proof. repeat split; reflexivity. Qed.

(** The table of the package's tests, without its floating-point columns:
    Equal(a, b) and NotEqual(a, c) hold, also when the integer on the right
    is converted to any integer type; Zero(d) and NotZero(e) hold. *)
Example package_test_table :
  map (fun k => IsPkg.isEqual Samples.noHooks (Samples.int 0) (Iface (TInt k) (VInt 0)))
    [Iword; I8; I16; I32; I64; Uword; U8; U16; U32; U64]
  = repeat (Ok true) 10
  /\ map (fun k => IsPkg.isEqual Samples.noHooks (Samples.int 0) (Iface (TInt k) (VInt 1)))
       [Iword; I8; I16; I32; I64; Uword; U8; U16; U32; U64]
     = repeat (Ok false) 10
  /\ map (fun ab => IsPkg.isEqual Samples.noHooks (fst ab) (snd ab))
       [(Samples.int 0, Samples.int 0);
        (Samples.str "test", Samples.str "test");
        (Samples.ptrTo 1 0, Samples.ptrTo 2 0);
        (Samples.int64s 1 [0; 1]%Z, Samples.int64s 2 [0; 1]%Z);
        (Samples.answers 1 [("answer", 42%Z)], Samples.answers 2 [("answer", 42%Z)]);
        (Samples.boolean true, Samples.boolean true)]
     = repeat (Ok true) 6
  /\ map (fun ac => IsPkg.isEqual Samples.noHooks (fst ac) (snd ac))
       [(Samples.int 0, Samples.int 1);
        (Samples.str "test", Samples.str "testing");
        (Samples.ptrTo 1 0, Samples.ptrTo 2 1);
        (Samples.int64s 1 [0; 1]%Z, Samples.int64s 2 [0; 2]%Z);
        (Samples.answers 1 [("answer", 42%Z)], Samples.answers 2 [("answer", 43%Z)]);
        (Samples.boolean true, Samples.boolean false)]
     = repeat (Ok false) 6
  /\ map Workers.isZero
       [Samples.int 0; Samples.str ""; Samples.structOf 0; Samples.ptrTo 1 0;
        Samples.int64s 1 []%Z; Samples.answers 1 []; Samples.boolean false; nilAny]
     = repeat true 8
  /\ map Workers.isZero
       [Samples.int 1; Samples.str "testing"; Samples.structOf 1; Samples.ptrTo 1 1;
        Samples.int64s 1 [0; 2]%Z; Samples.answers 1 [("answer", 42%Z)]; Samples.boolean true]
     = repeat false 7.
Proof. vm_compute. repeat split; reflexivity. Qed.

End EqualityClaims.

(** ** The classifiers *)

Section ClassifierClaims.

Import Workers.

Lemma Zero_of_kind t :
  match Reflect.KindOf t with
  | Reflect.Bool => Reflect.Zero t = VBool false
  | Reflect.String => Reflect.Zero t = VString ""
  | Reflect.Slice => Reflect.Zero t = VSlice None
  | Reflect.Map => Reflect.Zero t = VMap None
  | Reflect.Chan => Reflect.Zero t = VChan None
  | Reflect.Ptr => Reflect.Zero t = VPtr None
  | Reflect.Func => Reflect.Zero t = VFunc None
  | k => Reflect.isIntKind k = true -> Reflect.Zero t = VInt 0
  end.
Proof.
  induction t; simpl; try reflexivity; try discriminate; try assumption.
  destruct k; intros _; reflexivity.
Qed.

Lemma under_not_array t :
  Reflect.KindOf t <> Reflect.Array ->
  forall n e, Reflect.under t <> TArray n e.
Proof.
  induction t; simpl; intros H n' e'; try discriminate; auto.
Qed.

(** C8, as stated, fails: the allocated empty slice []int64{} is
    zero-valued and is not nil-like. *)
Lemma C8_empty_slice_is_not_nil_like :
  isZero Samples.emptyInt64s = true /\ isNil Samples.emptyInt64s = false.
Proof. split; reflexivity. Qed.

(** C8, amended: a nil slice, map or channel is both zero-valued and
    nil-like; an allocated empty one is zero-valued and not nil-like; the
    zero value of a boolean, integer or string type is zero-valued and not
    nil-like. *)
Theorem C8_isZero_isNil (t : type) (p : nat) :
  (Reflect.KindOf t = Reflect.Slice ->
     (isZero (Iface t (VSlice None)) = true /\ isNil (Iface t (VSlice None)) = true)
     /\ (isZero (Iface t (VSlice (Some (p, [])))) = true
         /\ isNil (Iface t (VSlice (Some (p, [])))) = false))
  /\ (Reflect.KindOf t = Reflect.Map ->
     (isZero (Iface t (VMap None)) = true /\ isNil (Iface t (VMap None)) = true)
     /\ (isZero (Iface t (VMap (Some (p, [])))) = true
         /\ isNil (Iface t (VMap (Some (p, [])))) = false))
  /\ (Reflect.KindOf t = Reflect.Chan ->
     (isZero (Iface t (VChan None)) = true /\ isNil (Iface t (VChan None)) = true)
     /\ (isZero (Iface t (VChan (Some (p, [])))) = true
         /\ isNil (Iface t (VChan (Some (p, [])))) = false))
  /\ (Reflect.KindOf t = Reflect.Bool \/ Reflect.isIntKind (Reflect.KindOf t) = true
      \/ Reflect.KindOf t = Reflect.String ->
      isZero (Iface t (Reflect.Zero t)) = true /\ isNil (Iface t (Reflect.Zero t)) = false).
Proof.
  assert (HL : forall v, Reflect.KindOf t <> Reflect.Array ->
             Reflect.Len t v = match v with
                               | VChan (Some (_, q)) => length q
                               | VMap (Some (_, m)) => length m
                               | VSlice (Some (_, l)) => length l
                               | VString s => String.length s
                               | _ => 0
                               end).
  { intros v H. unfold Reflect.Len. pose proof (under_not_array t H) as Hu.
    destruct (Reflect.under t); try reflexivity. exfalso. eapply Hu. reflexivity. }
  split; [|split; [|split]]; intros K.
  1-3: unfold isZero, isNil; rewrite K; simpl; rewrite !HL by congruence; simpl; auto.
  pose proof (Zero_of_kind t) as HZ. unfold isZero, isNil.
  destruct K as [K|[K|K]].
  - rewrite K in *. rewrite HZ. simpl. rewrite decide_True by reflexivity. auto.
  - destruct (Reflect.KindOf t); try discriminate K;
      rewrite (HZ K); simpl; rewrite decide_True by reflexivity; auto.
  - rewrite K in *. rewrite HZ. simpl. rewrite decide_True by reflexivity. auto.
Qed.

Lemma C8_isZero_isNil_witness :
  Reflect.KindOf (TSlice (TInt I64)) = Reflect.Slice
  /\ (isZero Samples.nilInt64s = true /\ isNil Samples.nilInt64s = true)
  /\ (isZero Samples.emptyInt64s = true /\ isNil Samples.emptyInt64s = false)
  /\ Reflect.isIntKind (Reflect.KindOf (TInt Iword)) = true
  /\ (isZero Samples.zeroInt = true /\ isNil Samples.zeroInt = false).
Proof.
  split; [reflexivity|].
  pose proof (C8_isZero_isNil (TSlice (TInt I64)) 7) as (Hs & _).
  pose proof (C8_isZero_isNil (TInt Iword) 0) as (_ & _ & _ & Hz).
  destruct (Hs eq_refl) as [Hnil Hempty].
  split; [exact Hnil|]. split; [exact Hempty|]. split; [reflexivity|].
  apply Hz. right. left. reflexivity.
Defined.

End ClassifierClaims.

(** ** Slices in the store *)

Section HeapFacts.

Implicit Types (arrs : gmap nat (list any)) (s t : Heap.slice).

Lemma elems_length arrs s : Heap.wf arrs s -> length (Heap.elems arrs s) = Heap.len s.
Proof.
  intros [Hle Hd]. unfold Heap.elems. destruct (Heap.data s) as [[a off]|].
  - destruct Hd as (arr & -> & Hlen). simpl.
    rewrite length_take, length_drop. lia.
  - simpl. lia.
Qed.

(** Reading [n] elements at [off] in an array written from [k] on, when
    the read ends before [k]. *)
Lemma read_before_write (off n k : nat) (xs arr : list any) :
  off + n <= k -> k <= length arr ->
  take n (drop off (Heap.write k xs arr)) = take n (drop off arr).
Proof.
  intros H1 H2. unfold Heap.write.
  rewrite drop_app_le by (rewrite length_take; lia).
  rewrite take_app_le by (rewrite length_drop, length_take; lia).
  rewrite !take_drop_commute, take_take.
  f_equal. f_equal. lia.
Qed.

(** Reading after the written part. *)
Lemma read_after_write (off k : nat) (xs arr : list any) :
  k + length xs <= off -> k + length xs <= length arr ->
  drop off (Heap.write k xs arr) = drop off arr.
Proof.
  intros H1 H2. unfold Heap.write.
  rewrite app_assoc.
  rewrite drop_app_ge by (rewrite length_app, length_take; lia).
  rewrite length_app, length_take.
  rewrite drop_drop. f_equal. lia.
Qed.

End HeapFacts.

Section AppendFacts.

Variable slack : nat -> nat -> nat.
Implicit Types (arrs : gmap nat (list any)) (s t u : Heap.slice).

(** The slice append returns shows the elements of [s] followed by those
    of [t], as they were before the call. *)
Lemma append_elems arrs s t :
  Heap.wf arrs s ->
  Heap.elems (Heap.append slack s t arrs).2 (Heap.append slack s t arrs).1
  = Heap.elems arrs s ++ Heap.elems arrs t.
Proof.
  intros Hwf. pose proof (elems_length arrs s Hwf) as Hlen.
  destruct Hwf as [Hle Hd]. unfold Heap.append.
  set (xs := Heap.elems arrs t) in *.
  destruct (Heap.len s + length xs <=? Heap.cap s) eqn:Hcap.
  - apply Nat.leb_le in Hcap.
    destruct (Heap.data s) as [[a off]|] eqn:Hdata.
    + destruct Hd as (arr & Harr & Hbound). simpl.
      unfold Heap.elems at 1. simpl. rewrite lookup_insert_eq. simpl.
      rewrite Harr. simpl. unfold Heap.write.
      rewrite drop_app_le by (rewrite length_take; lia).
      assert (Hs : drop off (take (off + Heap.len s) arr) = Heap.elems arrs s).
      { unfold Heap.elems. rewrite Hdata, Harr. simpl.
        rewrite take_drop_commute. reflexivity. }
      rewrite Hs. rewrite app_assoc.
      rewrite take_app_le by (rewrite length_app; lia).
      rewrite take_ge by (rewrite length_app; lia). reflexivity.
    + simpl. assert (xs = []) as ->
        by (destruct xs; [reflexivity | simpl in Hcap; lia]).
      rewrite app_nil_r. reflexivity.
  - simpl. unfold Heap.elems at 1. simpl. rewrite lookup_insert_eq. simpl.
    rewrite drop_0, app_assoc.
    rewrite take_app_le by (rewrite length_app; lia).
    rewrite take_ge by (rewrite length_app; lia). reflexivity.
Qed.

(** append does not change what an untouched slice shows. *)
Lemma append_frame arrs s t u :
  Heap.wf arrs s -> Heap.wf arrs u -> Heap.untouched arrs s t u ->
  Heap.elems (Heap.append slack s t arrs).2 u = Heap.elems arrs u.
Proof.
  intros [Hle Hd] [Hle' Hd'] Hun. unfold Heap.append, Heap.untouched in *.
  set (xs := Heap.elems arrs t) in *.
  destruct (Heap.len s + length xs <=? Heap.cap s) eqn:Hcap.
  - apply Nat.leb_le in Hcap. specialize (Hun Hcap).
    destruct (Heap.data s) as [[a off]|] eqn:Hdata; [|reflexivity].
    destruct Hd as (arr & Harr & Hbound). simpl.
    unfold Heap.elems. destruct (Heap.data u) as [[a' off']|] eqn:Hdata'; [|reflexivity].
    destruct (decide (a = a')) as [<-|Hne].
    + rewrite lookup_insert_eq, Harr. simpl.
      destruct Hd' as (arr' & Harr' & Hbound'). rewrite Harr in Harr'.
      injection Harr' as <-.
      destruct (Hun eq_refl) as [Hb|[Ha|Hnil]].
      * apply read_before_write; lia.
      * rewrite read_after_write by lia. reflexivity.
      * rewrite Hnil. unfold Heap.write. simpl.
        rewrite Nat.add_0_r, take_drop. reflexivity.
    + rewrite lookup_insert_ne by assumption. reflexivity.
  - simpl. unfold Heap.elems. destruct (Heap.data u) as [[a' off']|] eqn:Hdata'; [|reflexivity].
    destruct Hd' as (arr' & Harr' & Hbound').
    rewrite lookup_insert_ne; [reflexivity|].
    intros Heq. pose proof (is_fresh (dom arrs)) as Hf.
    rewrite Heq in Hf. apply Hf. apply elem_of_dom. eauto.
Qed.

Lemma write_length (k : nat) (xs arr : list any) :
  k + length xs <= length arr -> length (Heap.write k xs arr) = length arr.
Proof.
  intros H. unfold Heap.write.
  rewrite !length_app, length_take, length_drop. lia.
Qed.

(** append keeps the slices of the store laid out, and the slice it
    returns is laid out. *)
Lemma append_wf arrs s t u :
  Heap.wf arrs s -> Heap.wf arrs u ->
  Heap.wf (Heap.append slack s t arrs).2 u
  /\ Heap.wf (Heap.append slack s t arrs).2 (Heap.append slack s t arrs).1.
Proof.
  intros Hs Hu. pose proof (elems_length arrs s Hs) as Hlen.
  destruct Hs as [Hle Hd], Hu as [Hle' Hd']. unfold Heap.append.
  set (xs := Heap.elems arrs t) in *.
  destruct (Heap.len s + length xs <=? Heap.cap s) eqn:Hcap.
  - apply Nat.leb_le in Hcap.
    destruct (Heap.data s) as [[a off]|] eqn:Hdata; simpl.
    + destruct Hd as (arr & Harr & Hbound). rewrite Harr. simpl.
      assert (Hw : length (Heap.write (off + Heap.len s) xs arr) = length arr)
        by (apply write_length; lia).
      split; (split; [simpl; lia|]).
      * destruct (Heap.data u) as [[a' off']|]; [|exact Hd'].
        destruct Hd' as (arr' & Harr' & Hbound').
        destruct (decide (a = a')) as [<-|Hne].
        -- rewrite lookup_insert_eq. eexists. split; [reflexivity|].
           rewrite Hw. congruence.
        -- rewrite lookup_insert_ne by assumption. eauto.
      * simpl. rewrite lookup_insert_eq. eexists. split; [reflexivity|].
        rewrite Hw. exact Hbound.
    + split; split; try assumption; rewrite ?Hdata; assumption.
  - simpl. split; (split; [simpl; lia|]).
    + destruct (Heap.data u) as [[a' off']|]; [|exact Hd'].
      destruct Hd' as (arr' & Harr' & Hbound').
      rewrite lookup_insert_ne; [eauto|].
      intros Heq. pose proof (is_fresh (dom arrs)) as Hf.
      rewrite Heq in Hf. apply Hf. apply elem_of_dom. eauto.
    + simpl. rewrite lookup_insert_eq. eexists. split; [reflexivity|].
      rewrite !length_app, length_replicate. lia.
Qed.

(** Appending to a slice leaves what the slice itself shows. *)
Lemma untouched_self arrs s t : Heap.untouched arrs s t s.
Proof.
  unfold Heap.untouched. intros _. destruct (Heap.data s) as [[a off]|]; [|exact I].
  intros _. left. lia.
Qed.

(** A slice without spare capacity is never written in place. *)
Lemma untouched_full arrs s t u : Heap.cap s = Heap.len s -> Heap.untouched arrs s t u.
Proof.
  unfold Heap.untouched. intros Hc Hle.
  destruct (Heap.data s) as [[a off]|]; [|exact I].
  destruct (Heap.data u) as [[a' off']|]; [|exact I].
  intros _. right. right. destruct (Heap.elems arrs t); [reflexivity | simpl in Hle; lia].
Qed.

End AppendFacts.

(** ** Contexts of the Is package *)

Section ContextFacts.

Import Testing.

Variable slack : nat -> nat -> nat.

Ltac run :=
  unfold mbind, M_mbind, mret, M_mret, Testing.M_bind, Testing.M_ret.

Lemma fresh_unused {O} (m : gmap nat O) : m !! fresh (dom m) = None.
Proof. apply not_elem_of_dom. apply is_fresh. Qed.

Lemma deref_ok {O} (w : world O) (l : nat) (x : O) :
  objs w !! l = Some x -> deref (Some l) w = (Done x, w).
Proof. intros H. unfold deref. rewrite H. reflexivity. Qed.

(** The separator AddMsg and PrependMsg use for a context. *)
Lemma getMsgSep_ok (w : world IsPkg.Is) l x :
  objs w !! l = Some x ->
  IsPkg.getMsgSep (Some l) w
  = (Done (if String.eqb (IsPkg.msgSep x) "" then " - " else IsPkg.msgSep x), w).
Proof.
  intros H. unfold IsPkg.getMsgSep. run. rewrite (deref_ok _ _ _ H).
  destruct (String.eqb (IsPkg.msgSep x) ""); reflexivity.
Qed.

(** What the context made by a struct literal shows, and that the
    contexts already there are not touched by the allocation. *)
Lemma alloc_observable (w : world IsPkg.Is) (arrs' : gmap nat (list any)) (y : IsPkg.Is) :
  let q := fresh (dom (objs w)) in
  let w' := World (<[q := y]> (objs w)) arrs' (tblog w) (now w) (polls w) in
  objs w !! q = None
  /\ IsPkg.observable w' (Some q)
     = Some (IsPkg.TB y, IsPkg.strict y, IsPkg.failFormat y,
             Heap.elems arrs' (IsPkg.failArgs y), IsPkg.msgSep y)
  /\ forall l x, objs w !! l = Some x -> objs w' !! l = Some x.
Proof.
  intros q w'. pose proof (fresh_unused (objs w)) as Hq. fold q in Hq.
  split; [exact Hq|]. split.
  - unfold IsPkg.observable, w'. simpl. rewrite lookup_insert_eq. reflexivity.
  - intros l x Hl. unfold w'. simpl. rewrite lookup_insert_ne; [exact Hl|].
    intros ->. congruence.
Qed.

End ContextFacts.

Section ContextClaims.

Import Testing.

Variable slack : nat -> nat -> nat.

Ltac run :=
  unfold mbind, M_mbind, mret, M_mret, Testing.M_bind, Testing.M_ret.

(** C4: Msg binds the message; on a context without a message AddMsg and
    PrependMsg are Msg; on a context with one, AddMsg yields the template
    old + separator + format with the arguments old ++ new, and PrependMsg
    format + separator + old with new ++ old.  The separator is " - " unless
    MsgSep has set a non-empty one, and MsgSep changes nothing else. *)
Theorem C4_message_composition (w : world IsPkg.Is) (l : nat) (x : IsPkg.Is)
    (format sep' : string) (args : Heap.slice) :
  objs w !! l = Some x ->
  Heap.wf (arrs w) (IsPkg.failArgs x) ->
  Heap.wf (arrs w) args ->
  let sep := if String.eqb (IsPkg.msgSep x) "" then " - " else IsPkg.msgSep x in
  let old := Heap.elems (arrs w) (IsPkg.failArgs x) in
  let new := Heap.elems (arrs w) args in
  (exists q w',
      IsPkg.Msg (Some l) format args w = (Done q, w')
      /\ IsPkg.observable w' q
         = Some (IsPkg.TB x, IsPkg.strict x, format, new, IsPkg.msgSep x))
  /\ (IsPkg.failFormat x = "" ->
      IsPkg.AddMsg slack (Some l) format args w = IsPkg.Msg (Some l) format args w
      /\ IsPkg.PrependMsg slack (Some l) format args w = IsPkg.Msg (Some l) format args w)
  /\ (IsPkg.failFormat x <> "" ->
      (exists q w',
          IsPkg.AddMsg slack (Some l) format args w = (Done q, w')
          /\ IsPkg.observable w' q
             = Some (IsPkg.TB x, IsPkg.strict x,
                     IsPkg.failFormat x +:+ sep +:+ format, old ++ new, IsPkg.msgSep x))
      /\ (exists q w',
             IsPkg.PrependMsg slack (Some l) format args w = (Done q, w')
             /\ IsPkg.observable w' q
                = Some (IsPkg.TB x, IsPkg.strict x,
                        format +:+ sep +:+ IsPkg.failFormat x, new ++ old, IsPkg.msgSep x)))
  /\ (exists q w',
         IsPkg.MsgSep (Some l) sep' w = (Done q, w')
         /\ IsPkg.observable w' q
            = Some (IsPkg.TB x, IsPkg.strict x, IsPkg.failFormat x, old, sep')).
Proof.
  intros Hx Hwf Hwfa sep old new.
  split; [|split; [|split]].
  - unfold IsPkg.Msg. run. rewrite (deref_ok _ _ _ Hx). unfold alloc.
    eexists _, _. split; [reflexivity|].
    apply (alloc_observable w (arrs w)
             (IsPkg.MkIs (IsPkg.TB x) (IsPkg.strict x) format args (IsPkg.msgSep x))).
  - intros He. unfold IsPkg.AddMsg, IsPkg.PrependMsg. run.
    rewrite (deref_ok _ _ _ Hx), He. simpl. auto.
  - intros Hne. apply String.eqb_neq in Hne.
    split.
    + unfold IsPkg.AddMsg. run. rewrite (deref_ok _ _ _ Hx), Hne.
      rewrite (deref_ok _ _ _ Hx), (getMsgSep_ok _ _ _ Hx).
      unfold appendSlice.
      pose proof (append_elems slack (arrs w) (IsPkg.failArgs x) args Hwf) as Hel.
      destruct (Heap.append slack (IsPkg.failArgs x) args (arrs w)) as [r arrs'].
      simpl in Hel. unfold alloc. simpl.
      eexists _, _. split; [reflexivity|].
      pose proof (alloc_observable w arrs'
                    (IsPkg.MkIs (IsPkg.TB x) (IsPkg.strict x)
                       (IsPkg.failFormat x +:+ sep +:+ format) r (IsPkg.msgSep x)))
        as (_ & Hobs & _).
      simpl in Hobs. rewrite Hel in Hobs. exact Hobs.
    + unfold IsPkg.PrependMsg. run. rewrite (deref_ok _ _ _ Hx), Hne.
      rewrite (deref_ok _ _ _ Hx), (getMsgSep_ok _ _ _ Hx).
      unfold appendSlice.
      pose proof (append_elems slack (arrs w) args (IsPkg.failArgs x) Hwfa) as Hel.
      destruct (Heap.append slack args (IsPkg.failArgs x) (arrs w)) as [r arrs'].
      simpl in Hel. unfold alloc. simpl.
      eexists _, _. split; [reflexivity|].
      pose proof (alloc_observable w arrs'
                    (IsPkg.MkIs (IsPkg.TB x) (IsPkg.strict x)
                       (format +:+ sep +:+ IsPkg.failFormat x) r (IsPkg.msgSep x)))
        as (_ & Hobs & _).
      simpl in Hobs. rewrite Hel in Hobs. exact Hobs.
  - unfold IsPkg.MsgSep. run. rewrite (deref_ok _ _ _ Hx). unfold alloc.
    eexists _, _. split; [reflexivity|].
    apply (alloc_observable w (arrs w)
             (IsPkg.MkIs (IsPkg.TB x) (IsPkg.strict x) (IsPkg.failFormat x)
                (IsPkg.failArgs x) sep')).
Qed.


(** The chain of the package's test: AddMsg("a %s", "x"), AddMsg("b %s",
    "y") and PrependMsg("#%d msg", 1) on a new context. *)
Example message_chain :
  (is0 ← IsPkg.New Samples.t0;
   a1 ← variadic [Samples.strX];
   is1 ← IsPkg.AddMsg Samples.doubling is0 "a %s" a1;
   a2 ← variadic [Samples.strY];
   is2 ← IsPkg.AddMsg Samples.doubling is1 "b %s" a2;
   a3 ← variadic [Samples.one];
   is3 ← IsPkg.PrependMsg Samples.doubling is2 "#%d msg" a3;
   ((fun w => (Done (IsPkg.observable w is3), w)) : M IsPkg.Is _)) Samples.emptyStore
  = (Done (Some (Samples.t0, true, "#%d msg - a %s - b %s",
                 [Samples.one; Samples.strX; Samples.strY], "")),
     snd ((is0 ← IsPkg.New Samples.t0;
           a1 ← variadic [Samples.strX];
           is1 ← IsPkg.AddMsg Samples.doubling is0 "a %s" a1;
           a2 ← variadic [Samples.strY];
           is2 ← IsPkg.AddMsg Samples.doubling is1 "b %s" a2;
           a3 ← variadic [Samples.one];
           IsPkg.PrependMsg Samples.doubling is2 "#%d msg" a3) Samples.emptyStore)).
Proof. vm_compute. reflexivity. Qed.

(** The observable fields of a context stay when its struct and the
    elements of its failArgs do. *)
Lemma observable_stays (w w' : world IsPkg.Is) (l : nat) (x : IsPkg.Is) :
  objs w !! l = Some x -> objs w' !! l = Some x ->
  Heap.elems (arrs w') (IsPkg.failArgs x) = Heap.elems (arrs w) (IsPkg.failArgs x) ->
  IsPkg.observable w' (Some l) = IsPkg.observable w (Some l).
Proof. intros H H' He. unfold IsPkg.observable. rewrite H, H', He. reflexivity. Qed.

(** X28.  What C5 says of the original context holds for Msg, AddMsg,
    MsgSep, Lax, Strict and the method New: each returns a context at an
    address that was not in use, and the receiver shows what it showed. *)
Lemma mutators_keep_original (w : world IsPkg.Is) (l : nat) (x : IsPkg.Is)
    (format sep : string) (args : Heap.slice) (tb : option nat) (m : M IsPkg.Is (option nat)) :
  objs w !! l = Some x ->
  Heap.wf (arrs w) (IsPkg.failArgs x) ->
  In m [IsPkg.Msg (Some l) format args; IsPkg.AddMsg slack (Some l) format args;
        IsPkg.MsgSep (Some l) sep; IsPkg.Lax (Some l); IsPkg.Strict (Some l);
        IsPkg.Is_New (Some l) tb] ->
  exists q w',
    m w = (Done (Some q), w') /\ objs w !! q = None
    /\ IsPkg.observable w' (Some l) = IsPkg.observable w (Some l).
Proof.
  intros Hx Hwf Hin.
  assert (Hplain : forall y,
             exists q w',
               (newIs ← deref (Some l); alloc (y newIs)) w = (Done (Some q), w')
               /\ objs w !! q = None
               /\ IsPkg.observable w' (Some l) = IsPkg.observable w (Some l)).
  { intros y. run. rewrite (deref_ok _ _ _ Hx). unfold alloc.
    eexists _, _. split; [reflexivity|].
    pose proof (alloc_observable w (arrs w) (y x)) as (Hq & _ & Hkeep).
    split; [exact Hq|]. eapply observable_stays; eauto. }
  simpl in Hin.
  destruct Hin as [<-|[<-|[<-|[<-|[<-|[<-|[]]]]]]];
    try (apply (Hplain (fun newIs => _))).
  unfold IsPkg.AddMsg. run. rewrite (deref_ok _ _ _ Hx).
  destruct (String.eqb (IsPkg.failFormat x) "").
  - apply (Hplain (fun newIs => IsPkg.MkIs (IsPkg.TB newIs) (IsPkg.strict newIs) format args
                                  (IsPkg.msgSep newIs))).
  - rewrite (deref_ok _ _ _ Hx), (getMsgSep_ok _ _ _ Hx). unfold appendSlice.
    pose proof (append_frame slack (arrs w) (IsPkg.failArgs x) args (IsPkg.failArgs x)
                  Hwf Hwf (untouched_self _ _ _)) as Hfr.
    destruct (Heap.append slack (IsPkg.failArgs x) args (arrs w)) as [r arrs'].
    simpl in Hfr. unfold alloc. simpl.
    eexists _, _. split; [reflexivity|].
    match goal with
    | |- context [<[_ := ?y]> (objs w)] =>
        pose proof (alloc_observable w arrs' y) as (Hq & _ & Hkeep)
    end.
    split; [exact Hq|]. eapply observable_stays; eauto.
Qed.

Lemma alloc_store_wf (w : world IsPkg.Is) (arrs' : gmap nat (list any)) (y : IsPkg.Is) :
  (forall u, Heap.wf (arrs w) u -> Heap.wf arrs' u) ->
  IsPkg.store_wf w -> Heap.wf arrs' (IsPkg.failArgs y) ->
  IsPkg.store_wf
    (World (<[fresh (dom (objs w)) := y]> (objs w)) arrs' (tblog w) (now w) (polls w)).
Proof.
  intros Hkeep Hw Hy l x. simpl.
  destruct (decide (fresh (dom (objs w)) = l)) as [<-|Hne].
  - rewrite lookup_insert_eq. intros [= <-]. exact Hy.
  - rewrite lookup_insert_ne by assumption. intros Hl. apply Hkeep. eapply Hw. exact Hl.
Qed.

(** The contexts a test can reach are laid out in the store: New and the
    mutators keep [store_wf], given argument slices that are laid out. *)
Lemma mutators_keep_store_wf (w : world IsPkg.Is) (l : nat) (x : IsPkg.Is)
    (format sep : string) (args : Heap.slice) (h : nat) (tb : option nat)
    (m : M IsPkg.Is (option nat)) :
  IsPkg.store_wf w -> objs w !! l = Some x -> Heap.wf (arrs w) args ->
  In m [IsPkg.New (Some h); IsPkg.Msg (Some l) format args;
        IsPkg.AddMsg slack (Some l) format args; IsPkg.PrependMsg slack (Some l) format args;
        IsPkg.MsgSep (Some l) sep; IsPkg.Lax (Some l); IsPkg.Strict (Some l);
        IsPkg.Is_New (Some l) tb] ->
  exists q w', m w = (Done (Some q), w') /\ IsPkg.store_wf w'.
Proof.
  intros Hw Hx Hargs Hin. pose proof (Hw l x Hx) as Hfx.
  assert (Hnil : Heap.wf (arrs w) Heap.nilSlice) by (split; simpl; auto).
  assert (Hplain : forall y,
             Heap.wf (arrs w) (IsPkg.failArgs (y x)) ->
             exists q w',
               (newIs ← deref (Some l); alloc (y newIs)) w = (Done (Some q), w')
               /\ IsPkg.store_wf w').
  { intros y Hy. run. rewrite (deref_ok _ _ _ Hx). unfold alloc.
    eexists _, _. split; [reflexivity|]. apply alloc_store_wf; auto. }
  assert (Happ : forall s t mk,
             Heap.wf (arrs w) s ->
             IsPkg.failArgs (mk (Heap.append slack s t (arrs w)).1)
             = (Heap.append slack s t (arrs w)).1 ->
             exists q w',
               (newArgs ← appendSlice slack s t; alloc (mk newArgs)) w = (Done (Some q), w')
               /\ IsPkg.store_wf w').
  { intros s t mk Hs Hmk. run. unfold appendSlice.
    pose proof (fun u Hu => proj1 (append_wf slack (arrs w) s t u Hs Hu)) as Hkeep.
    pose proof (proj2 (append_wf slack (arrs w) s t s Hs Hs)) as Hnew.
    destruct (Heap.append slack s t (arrs w)) as [r arrs']. simpl in *.
    unfold alloc. simpl. eexists _, _. split; [reflexivity|].
    apply alloc_store_wf; auto. rewrite Hmk. exact Hnew. }
  simpl in Hin.
  destruct Hin as [<-|[<-|[<-|[<-|[<-|[<-|[<-|[<-|[]]]]]]]]];
    try (apply (Hplain (fun newIs => _)); simpl; assumption).
  - unfold IsPkg.New, alloc. eexists _, _. split; [reflexivity|].
    apply alloc_store_wf; auto.
  - unfold IsPkg.AddMsg. run. rewrite (deref_ok _ _ _ Hx).
    destruct (String.eqb (IsPkg.failFormat x) "").
    + apply (Hplain (fun newIs => IsPkg.MkIs (IsPkg.TB newIs) (IsPkg.strict newIs) format
                                    args (IsPkg.msgSep newIs))). exact Hargs.
    + rewrite (deref_ok _ _ _ Hx), (getMsgSep_ok _ _ _ Hx).
      apply (Happ (IsPkg.failArgs x) args
               (fun newArgs => IsPkg.MkIs (IsPkg.TB x) (IsPkg.strict x) _ newArgs
                                 (IsPkg.msgSep x))); auto.
  - unfold IsPkg.PrependMsg. run. rewrite (deref_ok _ _ _ Hx).
    destruct (String.eqb (IsPkg.failFormat x) "").
    + apply (Hplain (fun newIs => IsPkg.MkIs (IsPkg.TB newIs) (IsPkg.strict newIs) format
                                    args (IsPkg.msgSep newIs))). exact Hargs.
    + rewrite (deref_ok _ _ _ Hx), (getMsgSep_ok _ _ _ Hx).
      apply (Happ args (IsPkg.failArgs x)
               (fun newArgs => IsPkg.MkIs (IsPkg.TB x) (IsPkg.strict x) _ newArgs
                                 (IsPkg.msgSep x))); auto.
Qed.

(** X29.  PrependMsg appends to the slice of the caller: the receiver shows
    what it showed when that append does not write over its arguments, as
    when the caller's slice has no spare capacity. *)
Lemma PrependMsg_keeps_original (w : world IsPkg.Is) (l : nat) (x : IsPkg.Is)
    (format : string) (args : Heap.slice) :
  objs w !! l = Some x ->
  Heap.wf (arrs w) (IsPkg.failArgs x) ->
  Heap.wf (arrs w) args ->
  Heap.untouched (arrs w) args (IsPkg.failArgs x) (IsPkg.failArgs x) ->
  exists q w',
    IsPkg.PrependMsg slack (Some l) format args w = (Done (Some q), w')
    /\ objs w !! q = None
    /\ IsPkg.observable w' (Some l) = IsPkg.observable w (Some l).
Proof.
  intros Hx Hwf Hwfa Hun.
  unfold IsPkg.PrependMsg. run. rewrite (deref_ok _ _ _ Hx).
  destruct (String.eqb (IsPkg.failFormat x) "").
  - unfold IsPkg.Msg. run. rewrite (deref_ok _ _ _ Hx). unfold alloc.
    eexists _, _. split; [reflexivity|].
    match goal with
    | |- context [<[_ := ?y]> (objs w)] =>
        pose proof (alloc_observable w (arrs w) y) as (Hq & _ & Hkeep)
    end.
    split; [exact Hq|]. eapply observable_stays; eauto.
  - rewrite (deref_ok _ _ _ Hx), (getMsgSep_ok _ _ _ Hx). unfold appendSlice.
    pose proof (append_frame slack (arrs w) args (IsPkg.failArgs x) (IsPkg.failArgs x)
                  Hwfa Hwf Hun) as Hfr.
    destruct (Heap.append slack args (IsPkg.failArgs x) (arrs w)) as [r arrs'].
    simpl in Hfr. unfold alloc. simpl.
    eexists _, _. split; [reflexivity|].
    match goal with
    | |- context [<[_ := ?y]> (objs w)] =>
        pose proof (alloc_observable w arrs' y) as (Hq & _ & Hkeep)
    end.
    split; [exact Hq|]. eapply observable_stays; eauto.
Qed.

(** A context made by New is strict and has no message; Lax makes a copy
    that is not strict. *)
Lemma New_strict_Lax_copy (w : world IsPkg.Is) (tb l : nat) (x : IsPkg.Is) :
  (exists q w',
      IsPkg.New (Some tb) w = (Done (Some q), w') /\ objs w !! q = None
      /\ IsPkg.observable w' (Some q) = Some (Some tb, true, "", [], ""))
  /\ (objs w !! l = Some x ->
      exists q w',
        IsPkg.Lax (Some l) w = (Done (Some q), w') /\ objs w !! q = None
        /\ IsPkg.observable w' (Some q)
           = Some (IsPkg.TB x, false, IsPkg.failFormat x,
                   Heap.elems (arrs w) (IsPkg.failArgs x), IsPkg.msgSep x)).
Proof.
  split.
  - unfold IsPkg.New, alloc. eexists _, _. split; [reflexivity|].
    pose proof (alloc_observable w (arrs w) (IsPkg.MkIs (Some tb) true "" Heap.nilSlice ""))
      as (Hq & Hobs & _).
    split; [exact Hq | exact Hobs].
  - intros Hx. unfold IsPkg.Lax. run. rewrite (deref_ok _ _ _ Hx). unfold alloc.
    eexists _, _. split; [reflexivity|].
    pose proof (alloc_observable w (arrs w)
                  (IsPkg.MkIs (IsPkg.TB x) false (IsPkg.failFormat x) (IsPkg.failArgs x)
                     (IsPkg.msgSep x))) as (Hq & Hobs & _).
    split; [exact Hq | exact Hobs].
Qed.

(** C5 fails on the code: the context made by Msg("%v %v", xs...) shows the
    arguments 1 and 2; PrependMsg("%v", xs[:1]...) on it appends to xs[:1]
    in place, in the array the context reads, and afterwards the original
    context shows 1 and 1. *)
Theorem C5_PrependMsg_overwrites_original :
  exists is1 w1 is2 w2,
    (is0 ← IsPkg.New Samples.t0; IsPkg.Msg is0 "%v %v" Samples.xs) Samples.sharedStore
    = (Done is1, w1)
    /\ IsPkg.PrependMsg slack is1 "%v" Samples.xs1 w1 = (Done is2, w2)
    /\ IsPkg.observable w1 is1
       = Some (Samples.t0, true, "%v %v", [Samples.one; Samples.two], "")
    /\ IsPkg.observable w2 is1
       = Some (Samples.t0, true, "%v %v", [Samples.one; Samples.one], "")
    /\ IsPkg.observable w2 is2
       = Some (Samples.t0, true, "%v - %v %v",
               [Samples.one; Samples.one; Samples.two], "").
Proof.
  eexists _, _, _, _.
  split; [vm_compute; reflexivity|].
  split; [vm_compute; reflexivity|].
  repeat split; vm_compute; reflexivity.
Qed.

End ContextClaims.

Lemma C4_message_composition_witness :
  Testing.objs Samples.boundStore !! 0 = Some Samples.boundContext
  /\ Heap.wf (Testing.arrs Samples.boundStore) (IsPkg.failArgs Samples.boundContext)
  /\ Heap.wf (Testing.arrs Samples.boundStore) Samples.argY
  /\ exists q w',
      IsPkg.AddMsg Samples.doubling (Some 0) "b %s" Samples.argY Samples.boundStore = (Testing.Done q, w')
      /\ IsPkg.observable w' q
         = Some (Samples.t0, true, "a %s - b %s", [Samples.strX; Samples.strY], "").
Proof.
  assert (H1 : Heap.wf (Testing.arrs Samples.boundStore) (IsPkg.failArgs Samples.boundContext)).
  { split; [simpl; lia|]. exists [Samples.strX]. split; [reflexivity | simpl; lia]. }
  assert (H2 : Heap.wf (Testing.arrs Samples.boundStore) Samples.argY).
  { split; [simpl; lia|]. exists [Samples.strY]. split; [reflexivity | simpl; lia]. }
  split; [reflexivity|]. split; [exact H1|]. split; [exact H2|].
  pose proof (C4_message_composition Samples.doubling Samples.boundStore 0 Samples.boundContext
                "b %s" "" Samples.argY eq_refl H1 H2) as (_ & _ & H & _).
  apply H. discriminate.
Defined.


(** ** Failure dispatch and the checks of the Is package *)

Section CheckFacts.

Import Testing.

Variable Equaler : type -> option Workers.hook.
Variable typeName : any -> string.

Ltac run :=
  unfold mbind, M_mbind, mret, M_mret, Testing.M_bind, Testing.M_ret.

(** A call of fail on a context with a test handle records exactly one
    failure, at the time of the call, and changes nothing else; it stops
    the test when the context is strict and returns when it is not.  The
    message of the context, if there is one, follows the format and the
    arguments of the check. *)
Lemma fail_reports (w : world IsPkg.Is) (l t : nat) (x : IsPkg.Is)
    (format : string) (args : list farg) :
  objs w !! l = Some x -> IsPkg.TB x = Some t ->
  let sep := if String.eqb (IsPkg.msgSep x) "" then " - " else IsPkg.msgSep x in
  let e :=
    if String.length (IsPkg.failFormat x) =? 0
    then Event t (IsPkg.strict x) format args (now w)
    else Event t (IsPkg.strict x) (format +:+ sep +:+ IsPkg.failFormat x)
           (args ++ map ArgAny (Heap.elems (arrs w) (IsPkg.failArgs x))) (now w) in
  IsPkg.fail (Some l) format args w
  = (if IsPkg.strict x then Exited else Done tt,
     World (objs w) (arrs w) (tblog w ++ [e]) (now w) (polls w)).
Proof.
  intros Hx Ht. unfold IsPkg.fail, IsPkg.failDefault. run.
  rewrite (deref_ok _ _ _ Hx), Ht. simpl.
  destruct (String.length (IsPkg.failFormat x) =? 0); simpl.
  - unfold Fatalf, Errorf, report. destruct (IsPkg.strict x); reflexivity.
  - rewrite (getMsgSep_ok _ _ _ Hx). simpl.
    unfold Fatalf, Errorf, report. destruct (IsPkg.strict x); reflexivity.
Qed.

Lemma helper_ok (w : world IsPkg.Is) (l t : nat) (x : IsPkg.Is) :
  objs w !! l = Some x -> IsPkg.TB x = Some t ->
  IsPkg.helper (Some l) w = (Done tt, w).
Proof.
  intros Hx Ht. unfold IsPkg.helper. run. rewrite (deref_ok _ _ _ Hx), Ht. reflexivity.
Qed.


(** OneOf without candidates, passed as the nil slice (the call OneOf(a)),
    records one failure; NotOneOf on a slice without elements returns true
    and records nothing. *)
Lemma OneOf_nil_candidates (w : world IsPkg.Is) (l t : nat) (x : IsPkg.Is)
    (a : any) (b : Heap.slice) :
  objs w !! l = Some x -> IsPkg.TB x = Some t ->
  (exists e,
      IsPkg.OneOf Equaler typeName (Some l) a Heap.nilSlice w
      = (if IsPkg.strict x then Exited else Done false,
         World (objs w) (arrs w) (tblog w ++ [e]) (now w) (polls w)))
  /\ (Heap.elems (arrs w) b = [] ->
      IsPkg.NotOneOf Equaler typeName (Some l) a b w = (Done true, w)).
Proof.
  intros Hx Ht. split.
  - unfold IsPkg.OneOf. run. rewrite (helper_ok _ _ _ _ Hx Ht).
    unfold readSlice. simpl. unfold IsPkg.objectTypeNames. simpl. run.
    rewrite (fail_reports w l t x _ _ Hx Ht).
    match goal with |- context [tblog w ++ [?ev]] => exists ev end.
    destruct (IsPkg.strict x); reflexivity.
  - intros Hb. unfold IsPkg.NotOneOf. run. rewrite (helper_ok _ _ _ _ Hx Ht).
    unfold readSlice. rewrite Hb. reflexivity.
Qed.

(** C10 fails on the code for a candidate slice that is empty and not nil
    (OneOf(a, []any{}...)): objectTypeNames indexes its first element while
    the arguments of fail are built, and OneOf panics before any failure is
    recorded.  With the nil slice OneOf records one failure (here on a
    strict context, which stops the test), and NotOneOf returns true in
    both cases. *)
Theorem C10_OneOf_empty_slice_panics (a : any) :
  exists is0 w0,
    IsPkg.New Samples.t0 Samples.storeWithEmptyArray = (Done is0, w0)
    /\ Heap.isNilSlice Samples.noCandidates = false
    /\ Heap.elems (arrs w0) Samples.noCandidates = []
    /\ IsPkg.OneOf Equaler typeName is0 a Samples.noCandidates w0
       = (Panicked "runtime error: index out of range [0] with length 0", w0)
    /\ (exists e,
           IsPkg.OneOf Equaler typeName is0 a Heap.nilSlice w0
           = (Exited, World (objs w0) (arrs w0) [e] (now w0) (polls w0)))
    /\ IsPkg.NotOneOf Equaler typeName is0 a Samples.noCandidates w0 = (Done true, w0)
    /\ IsPkg.NotOneOf Equaler typeName is0 a Heap.nilSlice w0 = (Done true, w0).
Proof.
  eexists _, _. split; [vm_compute; reflexivity|].
  repeat split; try (eexists; vm_compute; reflexivity); vm_compute; reflexivity.
Qed.

(** C7 fails on the code for the nil container: reflect.TypeOf(nil) is the
    nil Type and isString calls Kind on it, so Contains panics before any
    failure is recorded; the same happens for a nil item in a string. *)
Theorem C7_Contains_nil_panics (is_ : option nat) (b : any) (s : string) (w : world IsPkg.Is) :
  IsPkg.Contains Equaler is_ nilAny b w
  = (Panicked "runtime error: invalid memory address or nil pointer dereference", w)
  /\ IsPkg.Contains Equaler is_ (Iface TString (VString s)) nilAny w
     = (Panicked "runtime error: invalid memory address or nil pointer dereference", w).
Proof. split; reflexivity. Qed.

(** Len tests for the nil interface first and records a failure for it. *)
Lemma Len_nil_reports (w : world IsPkg.Is) (l t : nat) (x : IsPkg.Is) (n : Z) :
  objs w !! l = Some x -> IsPkg.TB x = Some t ->
  exists e,
    IsPkg.Len typeName (Some l) nilAny n w
    = (if IsPkg.strict x then Exited else Done false,
       World (objs w) (arrs w) (tblog w ++ [e]) (now w) (polls w)).
Proof.
  intros Hx Ht. unfold IsPkg.Len. run. rewrite (helper_ok _ _ _ _ Hx Ht).
  rewrite (fail_reports w l t x _ _ Hx Ht).
  match goal with |- context [tblog w ++ [?ev]] => exists ev end.
  destruct (IsPkg.strict x); reflexivity.
Qed.

(** X30.  On a container that is not the nil interface Contains does what
    C7 says: a substring test on two strings, and for a container that is
    neither a string with a string item nor a slice one failure with the
    argument-type format. *)
Lemma Contains_by_kind (w : world IsPkg.Is) (l t : nat) (x : IsPkg.Is)
    (ta tb : type) (va vb : value) :
  objs w !! l = Some x -> IsPkg.TB x = Some t -> IsPkg.failFormat x = "" ->
  (Reflect.KindOf ta = Reflect.String -> Reflect.KindOf tb = Reflect.String ->
   IsPkg.stringsContains (IsPkg.stringValue (Iface ta va)) (IsPkg.stringValue (Iface tb vb))
   = true ->
   IsPkg.Contains Equaler (Some l) (Iface ta va) (Iface tb vb) w = (Done true, w))
  /\ (Reflect.KindOf ta <> Reflect.String \/ Reflect.KindOf tb <> Reflect.String ->
      Reflect.KindOf ta <> Reflect.Slice ->
      IsPkg.Contains Equaler (Some l) (Iface ta va) (Iface tb vb) w
      = (if IsPkg.strict x then Exited else Done false,
         World (objs w) (arrs w)
           (tblog w ++ [Event t (IsPkg.strict x) "unexpected argument types %T and %T"
                          [ArgAny (Iface ta va); ArgAny (Iface tb vb)] (now w)])
           (now w) (polls w))).
Proof.
  intros Hx Ht Hf. split.
  - intros Ka Kb Hc. unfold IsPkg.Contains, IsPkg.isString. simpl. run. simpl.
    simpl in Hc. rewrite Ka, Kb. simpl. rewrite Hc. reflexivity.
  - intros Hs Hsl. unfold IsPkg.Contains, IsPkg.isString, IsPkg.isSlice. simpl. run. simpl.
    pose proof (fail_reports w l t x "unexpected argument types %T and %T"
                  [ArgAny (Iface ta va); ArgAny (Iface tb vb)] Hx Ht) as Hfail.
    rewrite Hf in Hfail. simpl in Hfail.
    assert (Hboth : (if bool_decide (Reflect.KindOf ta = Reflect.String)
                     then bool_decide (Reflect.KindOf tb = Reflect.String) else false) = false).
    { destruct Hs as [Hs|Hs].
      - rewrite bool_decide_eq_false_2 by assumption. reflexivity.
      - rewrite (bool_decide_eq_false_2 _ Hs). destruct (bool_decide _); reflexivity. }
    destruct (bool_decide (Reflect.KindOf ta = Reflect.String)) eqn:Ea; simpl.
    + simpl in Hboth. rewrite Hboth. simpl.
      rewrite (bool_decide_eq_false_2 _ Hsl). simpl.
      rewrite Hfail. destruct (IsPkg.strict x); reflexivity.
    + rewrite (bool_decide_eq_false_2 _ Hsl). simpl.
      rewrite Hfail. destruct (IsPkg.strict x); reflexivity.
Qed.

End CheckFacts.

(** ** WaitForTrue *)

Section WaitFacts.

Import Testing.

Variables (l t : nat) (x : IsPkg.Is) (timeout : Z) (f : nat -> bool * N).
Hypothesis Ht : IsPkg.TB x = Some t.

Ltac run :=
  unfold mbind, M_mbind, mret, M_mret, Testing.M_bind, Testing.M_ret.








End WaitFacts.

(** A timeout of zero, and a timeout of one nanosecond when fifty pass
    before the first select: the predicate is called once; when it returns
    true nothing is recorded, and when it returns false the failure is
    recorded after the sleep. *)
Example wait_zero_timeout_polls_once :
  map (fun timeout_startup =>
         let r := IsPkg.WaitForTrue (Some 0) (fst timeout_startup) Samples.alwaysTrue
                    (snd timeout_startup) Samples.laxStore in
         (Testing.polls (snd r), length (Testing.tblog (snd r))))
    [(0%Z, 0%N); (1%Z, 50%N)]
  = [(1, 0); (1, 0)]
  /\ (let r := IsPkg.WaitForTrue (Some 0) 0 Samples.alwaysFalse 0 Samples.laxStore in
      Testing.polls (snd r) = 1
      /\ map Testing.ev_time (Testing.tblog (snd r)) = [101000000%Z]).
Proof. vm_compute. repeat split; reflexivity. Qed.


(** The scenario of the package's test: 200ms and a predicate that never
    returns true give two calls and one failure, after 202ms. *)
Example wait_200ms_always_false :
  let r := IsPkg.WaitForTrue (Some 0) 200000000 Samples.alwaysFalse 1000
             Samples.laxStore in
  Testing.polls (snd r) = 2
  /\ map Testing.ev_time (Testing.tblog (snd r)) = [202001000%Z].
Proof. vm_compute. split; reflexivity. Qed.

(** ** The lax scope of the Asserter package *)

Section LaxFacts.

Import Testing.

Variable typeName : any -> string.

Ltac run :=
  unfold mbind, M_mbind, mret, M_mret, Testing.M_bind, Testing.M_ret.

Lemma failure_fatal y t format args w :
  ev_fatal (AsserterPkg.failure y t format args w) = AsserterPkg.strict y.
Proof. unfold AsserterPkg.failure. destruct (_ =? _); reflexivity. Qed.

(** A call of fail marks the asserter as failed and records exactly one
    failure, fatal when the asserter is strict. *)
Lemma asserter_fail_reports (w : world AsserterPkg.asserter) (q t : nat)
    (y : AsserterPkg.asserter) (format : string) (args : list farg) :
  objs w !! q = Some y -> AsserterPkg.tb y = Some t ->
  AsserterPkg.fail (Some q) format args w
  = (if AsserterPkg.strict y then Exited else Done tt,
     World (<[q := AsserterPkg.marked y]> (objs w)) (arrs w)
       (tblog w ++ [AsserterPkg.failure y t format args w]) (now w) (polls w)).
Proof.
  intros Hy Ht. unfold AsserterPkg.fail, AsserterPkg.failDefault, AsserterPkg.failure. run.
  rewrite (deref_ok _ _ _ Hy). unfold AsserterPkg.marked.
  destruct y as [tb0 st ff fa fl]. simpl in *. subst tb0. simpl.
  destruct (String.length ff =? 0); simpl;
    unfold Fatalf, Errorf, report; simpl;
    destruct st; reflexivity.
Qed.

Lemma asserter_helper_ok (w : world AsserterPkg.asserter) (q t : nat)
    (y : AsserterPkg.asserter) :
  objs w !! q = Some y -> AsserterPkg.tb y = Some t ->
  AsserterPkg.helper (Some q) w = (Done tt, w).
Proof.
  intros Hy Ht. unfold AsserterPkg.helper. run. rewrite (deref_ok _ _ _ Hy), Ht.
  reflexivity.
Qed.

(** A check on an asserter that is not strict returns; when it fails it
    marks the asserter and records one failure that is not fatal. *)
Lemma runCheck_lax (w : world AsserterPkg.asserter) (q t : nat)
    (y : AsserterPkg.asserter) (c : AsserterPkg.check) :
  objs w !! q = Some y -> AsserterPkg.tb y = Some t -> AsserterPkg.strict y = false ->
  exists e,
    ev_fatal e = false
    /\ AsserterPkg.runCheck typeName (Some q) c w
       = (Done tt,
          if AsserterPkg.passes c then w
          else World (<[q := AsserterPkg.marked y]> (objs w)) (arrs w) (tblog w ++ [e]) (now w) (polls w)).
Proof.
  intros Hy Ht Hs.
  assert (Hfail : forall format args,
             AsserterPkg.fail (Some q) format args w
             = (Done tt,
                World (<[q := AsserterPkg.marked y]> (objs w)) (arrs w)
                  (tblog w ++ [AsserterPkg.failure y t format args w]) (now w) (polls w))).
  { intros. rewrite (asserter_fail_reports w q t y _ _ Hy Ht), Hs. reflexivity. }
  destruct c as [b|b|o|o|o|o]; simpl;
    unfold AsserterPkg.True, AsserterPkg.False, AsserterPkg.Nil, AsserterPkg.NotNil,
      AsserterPkg.Zero, AsserterPkg.NotZero; run;
    rewrite (asserter_helper_ok _ _ _ _ Hy Ht);
    match goal with
    | |- context [if negb ?b then _ else _] => destruct b
    | |- context [if ?b then _ else _] => destruct b
    end; simpl;
    try (exists (AsserterPkg.failure y t "" [] w); split; [rewrite failure_fatal; exact Hs | reflexivity]);
    rewrite Hfail; eexists; (split; [|reflexivity]); rewrite failure_fatal; exact Hs.
Qed.

(** A list of checks on an asserter that is not strict: every failed
    check records one failure that is not fatal, and the asserter is marked
    when one of them failed. *)
Lemma runChecks_lax (cs : list AsserterPkg.check) (w : world AsserterPkg.asserter)
    (q t : nat) (y : AsserterPkg.asserter) :
  objs w !! q = Some y -> AsserterPkg.tb y = Some t -> AsserterPkg.strict y = false ->
  exists subs,
    length subs = length (filter (fun c => negb (AsserterPkg.passes c)) cs)
    /\ Forall (fun e => ev_fatal e = false) subs
    /\ AsserterPkg.runChecks typeName (Some q) cs w
       = (Done tt,
          World (if forallb AsserterPkg.passes cs then objs w
                 else <[q := AsserterPkg.marked y]> (objs w))
            (arrs w) (tblog w ++ subs) (now w) (polls w)).
Proof.
  revert w y. induction cs as [|c cs IH]; intros w y Hy Ht Hs.
  - exists []. simpl. rewrite app_nil_r. destruct w. repeat split; constructor.
  - destruct (runCheck_lax w q t y c Hy Ht Hs) as (e & He & Hc).
    simpl. run. rewrite Hc. rewrite filter_cons.
    destruct (AsserterPkg.passes c) eqn:Hp; simpl.
    + destruct (IH w y Hy Ht Hs) as (subs & Hlen & Hall & Hrun).
      exists subs. rewrite Hrun. repeat split; assumption.
    + assert (Hy' : objs (World (<[q := AsserterPkg.marked y]> (objs w)) (arrs w) (tblog w ++ [e])
                            (now w) (polls w)) !! q = Some (AsserterPkg.marked y))
        by (simpl; apply lookup_insert_eq).
      destruct (IH _ (AsserterPkg.marked y) Hy' Ht Hs) as (subs & Hlen & Hall & Hrun).
      exists (e :: subs). rewrite Hrun. simpl.
      split; [simpl; congruence|]. split; [constructor; assumption|].
      rewrite <- app_assoc. simpl.
      replace (AsserterPkg.marked (AsserterPkg.marked y)) with (AsserterPkg.marked y) by reflexivity.
      rewrite insert_insert_eq.
      destruct (forallb AsserterPkg.passes cs); reflexivity.
Qed.

(** X27.  A lax scope whose callback makes its checks on the asserter it is
    given: every failed check records one failure that is not fatal, and
    afterwards the scope records one more failure on the parent, fatal when
    the parent is strict, exactly when a check failed. *)
Lemma Lax_aggregates (w : world AsserterPkg.asserter) (l t : nat)
    (x : AsserterPkg.asserter) (cs : list AsserterPkg.check) :
  objs w !! l = Some x -> AsserterPkg.tb x = Some t ->
  let r := AsserterPkg.Lax (Some l)
             (fun lax => AsserterPkg.runChecks typeName lax cs) w in
  exists subs,
    length subs = length (filter (fun c => negb (AsserterPkg.passes c)) cs)
    /\ Forall (fun e => ev_fatal e = false) subs
    /\ if forallb AsserterPkg.passes cs
       then fst r = Done tt /\ tblog (snd r) = tblog w ++ subs
       else fst r = (if AsserterPkg.strict x then Exited else Done tt)
            /\ tblog (snd r)
               = tblog w ++ subs
                 ++ [AsserterPkg.failure x t "at least one assertion in the Lax function failed" [] w].
Proof.
  intros Hx Ht. unfold AsserterPkg.Lax. run. rewrite (deref_ok _ _ _ Hx).
  unfold alloc. simpl.
  set (q := fresh (dom (objs w))).
  set (y0 := AsserterPkg.MkAsserter (AsserterPkg.tb x) false (AsserterPkg.failFormat x)
               (AsserterPkg.failArgs x) false).
  set (w1 := World (<[q := y0]> (objs w)) (arrs w) (tblog w) (now w) (polls w)).
  assert (Hq : objs w !! q = None) by apply fresh_unused.
  assert (Hlq : l <> q) by (intros ->; congruence).
  assert (Hy0 : objs w1 !! q = Some y0) by (simpl; apply lookup_insert_eq).
  destruct (runChecks_lax cs w1 q t y0 Hy0 Ht eq_refl) as (subs & Hlen & Hall & Hrun).
  exists subs. split; [exact Hlen|]. split; [exact Hall|].
  rewrite Hrun. unfold deref. simpl.
  destruct (forallb AsserterPkg.passes cs).
  - rewrite lookup_insert_eq. simpl. auto.
  - rewrite lookup_insert_eq. simpl.
    match goal with
    | |- context [AsserterPkg.fail _ _ _ ?w2] =>
        assert (Hx2 : objs w2 !! l = Some x)
          by (simpl; rewrite !lookup_insert_ne by congruence; exact Hx);
        rewrite (asserter_fail_reports w2 l t x _ _ Hx2 Ht)
    end.
    simpl. rewrite <- app_assoc. split; [reflexivity|].
    reflexivity.
Qed.

End LaxFacts.

(** The scenario of the specification: three checks in a lax scope of
    which one fails give one failure of the check and one aggregate
    failure, which is fatal for the strict parent. *)
Example lax_scope_one_of_three (typeName : any -> string) :
  let r := (parent ← AsserterPkg.New Samples.t0;
            AsserterPkg.Lax parent
              (fun lax =>
                 AsserterPkg.runChecks typeName lax
                   [AsserterPkg.CheckTrue true; AsserterPkg.CheckTrue false;
                    AsserterPkg.CheckFalse false])) Samples.emptyStore in
  fst r = Testing.Exited
  /\ map (fun e => (Testing.ev_fatal e, Testing.ev_format e)) (Testing.tblog (snd r))
     = [(false, "expected boolean to be true");
        (true, "at least one assertion in the Lax function failed")].
Proof. vm_compute. split; reflexivity. Qed.

(** C9 fails on the code: a check that fails on the asserter lax.Msg("m")
    returns marks that asserter, not the one of the scope, so Lax records
    no aggregate failure on the parent and returns, although the same check
    made on the asserter of the scope gives the aggregate failure, which
    stops the strict parent. *)
Theorem C9_Lax_misses_failure_of_derived_asserter :
  (let r := (parent ← AsserterPkg.New Samples.t0;
             AsserterPkg.Lax parent Samples.checkThroughMsg) Samples.emptyStore in
   fst r = Testing.Done tt
   /\ map (fun e => (Testing.ev_fatal e, Testing.ev_format e)) (Testing.tblog (snd r))
      = [(false, "expected boolean to be true - m")])
  /\ (let r := (parent ← AsserterPkg.New Samples.t0;
                AsserterPkg.Lax parent Samples.checkDirectly) Samples.emptyStore in
      fst r = Testing.Exited
      /\ map (fun e => (Testing.ev_fatal e, Testing.ev_format e)) (Testing.tblog (snd r))
         = [(false, "expected boolean to be true");
            (true, "at least one assertion in the Lax function failed")]).
Proof. vm_compute. repeat split; reflexivity. Qed.

(** * Further properties of the code *)

(** ** The equality engine on operands that are not nil-like *)

Section ConversionFacts.

Import Workers.

Lemma isNil_int k z : isNil (Iface (TInt k) (VInt z)) = false.
Proof. destruct k; reflexivity. Qed.

Lemma isIntKind_int k : Reflect.isIntKind (Reflect.kindOfInt k) = true.
Proof. destruct k; reflexivity. Qed.

Lemma convertOp_ints k1 k2 : Reflect.convertOp (TInt k1) (TInt k2) = Some Reflect.cvtInt.
Proof. unfold Reflect.convertOp. simpl. rewrite !isIntKind_int. reflexivity. Qed.

Lemma wrap_idem k z : Reflect.wrap k (Reflect.wrap k z) = Reflect.wrap k z.
Proof.
  unfold Reflect.wrap. destruct (Reflect.signed k).
  - assert (0 < 2 ^ Reflect.bits k)%Z by (destruct k; reflexivity).
    replace ((z + 2 ^ (Reflect.bits k - 1)) mod 2 ^ Reflect.bits k
             - 2 ^ (Reflect.bits k - 1) + 2 ^ (Reflect.bits k - 1))%Z
      with ((z + 2 ^ (Reflect.bits k - 1)) mod 2 ^ Reflect.bits k)%Z by lia.
    rewrite Z.mod_mod by lia. reflexivity.
  - assert (0 < 2 ^ Reflect.bits k)%Z by (destruct k; reflexivity).
    rewrite Z.mod_mod by lia. reflexivity.
Qed.

Lemma convertOp_int_to_string k :
  Reflect.convertOp TString (TInt k) = Some Reflect.cvtIntString.
Proof. unfold Reflect.convertOp. simpl. rewrite isIntKind_int. destruct k; reflexivity. Qed.

Lemma convertOp_string_to_int k : Reflect.convertOp (TInt k) TString = None.
Proof. destruct k; reflexivity. Qed.

(** The conversion of a slice to a pointer to an array is chosen only for
    a destination of kind Ptr and a source of kind Slice. *)
Lemma convertOp_arrayptr dst src :
  Reflect.convertOp dst src = Some Reflect.cvtSliceArrayPtr ->
  Reflect.KindOf dst = Reflect.Ptr /\ Reflect.KindOf src = Reflect.Slice.
Proof.
  unfold Reflect.convertOp.
  repeat match goal with
         | |- context [if ?b then _ else _] => destruct b eqn:?
         | |- context [match Reflect.KindOf ?t with _ => _ end] =>
             destruct (Reflect.KindOf t) eqn:?
         end; try discriminate.
  all: intros _; split; [|reflexivity].
  all: repeat match goal with
         | H : _ && _ = true |- _ => apply andb_true_iff in H as [? ?]
         | H : bool_decide _ = true |- _ => apply bool_decide_eq_true in H
         end; assumption.
Qed.

(** Convert returns a value of the destination type unless the conversion
    is the one of a slice to a pointer to an array. *)
Lemma Convert_returns dst src v fresh op :
  Reflect.convertOp dst src = Some op -> op <> Reflect.cvtSliceArrayPtr ->
  exists v', Reflect.Convert (Reflect.MkValue src v) dst fresh = Ok (Reflect.MkValue dst v').
Proof.
  intros Hop Hne. unfold Reflect.Convert. rewrite Hop.
  destruct op; try congruence; destruct v; try (eexists; reflexivity);
    destruct (Reflect.under dst); eexists; reflexivity.
Qed.

End ConversionFacts.

Section EqualityExtras.

Import Workers.

Variables E C : type -> option hook.

Ltac res_run := unfold mbind, res_mbind, res_bind.

(** X1.  Two integers, of any two of the integer types, neither with an
    equality method: isEqual converts the right operand to the type of the
    left one, with wrap-around, and compares.  So an integer on the right
    that does not fit the type on the left can be found equal to the value
    it wraps to. *)
Theorem isEqual_integers (k1 k2 : intkind) (x y : Z) :
  E (TInt k1) = None -> C (TInt k1) = None ->
  Reflect.wrap k2 y = y ->
  IsPkg.isEqual E (Iface (TInt k1) (VInt x)) (Iface (TInt k2) (VInt y))
  = Ok (x =? Reflect.wrap k1 y)%Z
  /\ AsserterPkg.isEqual E C (Iface (TInt k1) (VInt x)) (Iface (TInt k2) (VInt y))
     = Ok (x =? Reflect.wrap k1 y)%Z.
Proof.
  intros HE HC Hy.
  assert (Hconv :
    (if Reflect.DeepEqual (Iface (TInt k1) (VInt x)) (Iface (TInt k2) (VInt y))
     then Ok true
     else Ok (Reflect.DeepEqual (Iface (TInt k1) (VInt x))
                (Iface (TInt k1) (VInt (Reflect.wrap k1 y)))))
    = Ok (x =? Reflect.wrap k1 y)%Z).
  { unfold Reflect.DeepEqual. rewrite (decide_True (P := TInt k1 = TInt k1)) by reflexivity.
    destruct (decide (TInt k1 = TInt k2)) as [Heq|Hne]; [|reflexivity].
    injection Heq as <-. simpl. rewrite Hy. destruct (x =? y)%Z; reflexivity. }
  unfold IsPkg.isEqual, AsserterPkg.isEqual, AsserterPkg.convertibleTo.
  rewrite !isNil_int. unfold assertHook. rewrite HE, HC.
  cbn [orb Reflect.ValueOf Reflect.ValueType]. res_run.
  unfold Reflect.ConvertibleTo, Reflect.Convert. rewrite convertOp_ints.
  cbn [recovered Reflect.under Reflect.ValueInterface].
  split; exact Hconv.
Qed.

(** Two strings: isEqual is the comparison of the strings. *)
Lemma isEqual_strings (s1 s2 : string) :
  E TString = None -> C TString = None ->
  IsPkg.isEqual E (Iface TString (VString s1)) (Iface TString (VString s2))
  = Ok (String.eqb s1 s2)
  /\ AsserterPkg.isEqual E C (Iface TString (VString s1)) (Iface TString (VString s2))
     = Ok (String.eqb s1 s2).
Proof.
  intros HE HC. unfold IsPkg.isEqual, AsserterPkg.isEqual. simpl.
  rewrite HE, HC. destruct (String.eqb s1 s2) eqn:Heq; [auto|].
  unfold AsserterPkg.convertibleTo. simpl. auto.
Qed.

(** X2.  A string and an integer: with the string on the left the integer
    is converted to the string that holds the UTF-8 encoding of the code
    point, and the two strings are compared; with the integer on the left
    there is no conversion of the string and isEqual returns false.  So
    isEqual("A", 65) holds and isEqual(65, "A") does not. *)
Theorem isEqual_string_and_integer (k : intkind) (s : string) (z : Z) :
  E TString = None -> C TString = None -> E (TInt k) = None -> C (TInt k) = None ->
  (IsPkg.isEqual E (Iface TString (VString s)) (Iface (TInt k) (VInt z))
   = Ok (String.eqb s (Reflect.stringOf (Reflect.encodeRune z)))
   /\ AsserterPkg.isEqual E C (Iface TString (VString s)) (Iface (TInt k) (VInt z))
      = Ok (String.eqb s (Reflect.stringOf (Reflect.encodeRune z))))
  /\ (IsPkg.isEqual E (Iface (TInt k) (VInt z)) (Iface TString (VString s)) = Ok false
      /\ AsserterPkg.isEqual E C (Iface (TInt k) (VInt z)) (Iface TString (VString s))
         = Ok false).
Proof.
  intros HEs HCs HEi HCi.
  unfold IsPkg.isEqual, AsserterPkg.isEqual, AsserterPkg.convertibleTo.
  rewrite !isNil_int. unfold assertHook. rewrite HEs, HCs, HEi, HCi.
  cbn [isNil Reflect.KindOf Reflect.ord Reflect.IsNil andb orb Nat.leb
       Reflect.ValueOf Reflect.ValueType].
  res_run. unfold Reflect.ConvertibleTo, Reflect.Convert, Reflect.DeepEqual.
  rewrite convertOp_int_to_string, convertOp_string_to_int.
  rewrite (decide_False (P := TString = TInt k)) by discriminate.
  rewrite (decide_False (P := TInt k = TString)) by discriminate.
  cbn [recovered Reflect.ValueInterface]. rewrite decide_True by reflexivity.
  repeat split; reflexivity.
Qed.

Lemma deepValueEqual_func (p : nat) (v : value) :
  Reflect.deepValueEqual (VFunc (Some p)) v = false.
Proof. destruct v; reflexivity. Qed.

(** X3.  A function that is not nil, of a type without an equality method,
    is equal to nothing, not even to itself: DeepEqual holds for two
    functions only when both are nil, and no conversion changes that. *)
Theorem isEqual_func_never_equal (t : type) (p : nat) (b : any) :
  Reflect.KindOf t = Reflect.Func -> E t = None -> C t = None ->
  IsPkg.isEqual E (Iface t (VFunc (Some p))) b = Ok false
  /\ AsserterPkg.isEqual E C (Iface t (VFunc (Some p))) b = Ok false.
Proof.
  intros K HE HC.
  unfold IsPkg.isEqual, AsserterPkg.isEqual, AsserterPkg.convertibleTo.
  assert (Ha : isNil (Iface t (VFunc (Some p))) = false)
    by (unfold isNil; rewrite K; reflexivity).
  rewrite Ha. destruct (isNil b) eqn:Hb; [auto|].
  destruct b as [|tb vb]; [discriminate|].
  unfold assertHook. rewrite HE, HC.
  cbn [orb Reflect.ValueOf Reflect.ValueType]. res_run.
  assert (Hd : forall t' v', Reflect.DeepEqual (Iface t (VFunc (Some p))) (Iface t' v') = false).
  { intros. unfold Reflect.DeepEqual. rewrite deepValueEqual_func.
    destruct (decide _); reflexivity. }
  rewrite Hd. unfold Reflect.ConvertibleTo.
  destruct (Reflect.convertOp t tb) as [op|] eqn:Hop; cbn [recovered]; [|auto].
  destruct (Convert_returns t tb vb (freshFor (Iface t (VFunc (Some p))) (Iface tb vb)) op Hop)
    as [v' ->].
  { intros ->. apply convertOp_arrayptr in Hop as [Hp _]. congruence. }
  cbn [Reflect.ValueInterface]. rewrite Hd. auto.
Qed.

(** X4.  On operands that are not nil-like, when the type of the left one
    has no equality method and is not a pointer type, isEqual returns: it
    does not panic, and both packages return the same.  (The conversion
    that can panic is the one of a slice to a pointer to an array.) *)
Theorem isEqual_returns (a b : any) (ta : type) :
  isNil a = false -> isNil b = false ->
  Reflect.TypeOf a = Some ta -> E ta = None -> C ta = None ->
  Reflect.KindOf ta <> Reflect.Ptr ->
  exists r, IsPkg.isEqual E a b = Ok r /\ AsserterPkg.isEqual E C a b = Ok r.
Proof.
  intros Ha Hb Hta HE HC K.
  unfold IsPkg.isEqual, AsserterPkg.isEqual, AsserterPkg.convertibleTo.
  rewrite Ha, Hb.
  destruct a as [|t va]; [discriminate|]. injection Hta as ->.
  destruct b as [|tb vb]; [discriminate|].
  unfold assertHook. rewrite HE, HC.
  cbn [orb Reflect.ValueOf Reflect.ValueType]. res_run.
  destruct (Reflect.DeepEqual (Iface ta va) (Iface tb vb)); [eauto|].
  unfold Reflect.ConvertibleTo.
  destruct (Reflect.convertOp ta tb) as [op|] eqn:Hop; cbn [recovered]; [|eauto].
  destruct (Convert_returns ta tb vb (freshFor (Iface ta va) (Iface tb vb)) op Hop)
    as [v' ->].
  { intros ->. apply convertOp_arrayptr in Hop as [Hp _]. congruence. }
  cbn [Reflect.ValueInterface]. eauto.
Qed.

(** X5.  The two packages compute the same equality whenever the type of
    the left operand has the method Equal or has no method IsEqual: the
    guard that the Asserter package puts around ConvertibleTo changes no
    result, and a panic of Convert leaves both. *)
Theorem isEqual_packages_agree (a b : any) :
  (forall t, Reflect.TypeOf a = Some t -> E t = None -> C t = None) ->
  IsPkg.isEqual E a b = AsserterPkg.isEqual E C a b.
Proof.
  intros H. unfold IsPkg.isEqual, AsserterPkg.isEqual, AsserterPkg.convertibleTo.
  destruct (isNil a || isNil b) eqn:Hnil; [reflexivity|].
  apply orb_false_iff in Hnil as [Ha Hb].
  destruct a as [|ta va]; [discriminate|]. destruct b as [|tb vb]; [discriminate|].
  unfold assertHook. destruct (E ta) eqn:HE; [reflexivity|].
  rewrite (H ta eq_refl HE).
  cbn [Reflect.ValueOf Reflect.ValueType]. res_run.
  destruct (Reflect.DeepEqual (Iface ta va) (Iface tb vb)); [reflexivity|].
  cbn [recovered]. destruct (Reflect.ConvertibleTo tb ta); reflexivity.
Qed.

End EqualityExtras.

Lemma isEqual_integers_witness :
  IsPkg.isEqual Samples.noHooks (Iface (TInt I8) (VInt (-56))) (Iface (TInt Iword) (VInt 200))
  = Ok true
  /\ AsserterPkg.isEqual Samples.noHooks Samples.noHooks
       (Iface (TInt I8) (VInt (-56))) (Iface (TInt Iword) (VInt 200))
     = Ok true.
Proof.
  exact (isEqual_integers Samples.noHooks Samples.noHooks I8 Iword (-56) 200
           eq_refl eq_refl eq_refl).
Defined.

Lemma isEqual_string_and_integer_witness :
  IsPkg.isEqual Samples.noHooks (Samples.str "A") (Samples.int 65) = Ok true
  /\ IsPkg.isEqual Samples.noHooks (Samples.int 65) (Samples.str "A") = Ok false.
Proof.
  pose proof (isEqual_string_and_integer Samples.noHooks Samples.noHooks Iword "A" 65
                eq_refl eq_refl eq_refl eq_refl) as [[H1 _] [H2 _]].
  split; [exact H1 | exact H2].
Defined.

Lemma isEqual_func_never_equal_witness :
  Reflect.KindOf (TFunc "func()") = Reflect.Func
  /\ IsPkg.isEqual Samples.noHooks (Iface (TFunc "func()") (VFunc (Some 1)))
       (Iface (TFunc "func()") (VFunc (Some 1))) = Ok false.
Proof.
  split; [reflexivity|].
  exact (proj1 (isEqual_func_never_equal Samples.noHooks Samples.noHooks (TFunc "func()") 1
                  (Iface (TFunc "func()") (VFunc (Some 1))) eq_refl eq_refl eq_refl)).
Defined.

Lemma isEqual_returns_witness :
  exists r,
    IsPkg.isEqual Samples.noHooks (Samples.int64s 1 [0; 1]%Z) (Samples.str "x") = Ok r
    /\ AsserterPkg.isEqual Samples.noHooks Samples.noHooks
         (Samples.int64s 1 [0; 1]%Z) (Samples.str "x") = Ok r.
Proof.
  apply (isEqual_returns Samples.noHooks Samples.noHooks (Samples.int64s 1 [0; 1]%Z)
           (Samples.str "x") (TSlice (TInt I64)) eq_refl eq_refl eq_refl eq_refl eq_refl).
  discriminate.
Defined.

Lemma isEqual_packages_agree_witness :
  IsPkg.isEqual Samples.noHooks Samples.arrayPtr Samples.shortSlice
  = AsserterPkg.isEqual Samples.noHooks Samples.noHooks Samples.arrayPtr Samples.shortSlice.
Proof.
  apply (isEqual_packages_agree Samples.noHooks Samples.noHooks). reflexivity.
Defined.

(** ** Nil-like and zero-valued values *)

Section ClassifierExtras.

Import Workers.

Lemma KindOf_under t : Reflect.KindOf (Reflect.under t) = Reflect.KindOf t.
Proof. induction t; simpl; auto. Qed.

Lemma Len_not_array t v :
  Reflect.KindOf t <> Reflect.Array ->
  Reflect.Len t v = match v with
                    | VChan (Some (_, q)) => length q
                    | VMap (Some (_, m)) => length m
                    | VSlice (Some (_, l)) => length l
                    | VString s => String.length s
                    | _ => 0
                    end.
Proof.
  intros H. unfold Reflect.Len. pose proof (under_not_array t H) as Hu.
  destruct (Reflect.under t); try reflexivity. exfalso. eapply Hu. reflexivity.
Qed.

(** X6.  A nil-like value is zero-valued, except a nil pointer: isZero
    compares a pointer with a pointer to a new zero value, which a nil
    pointer never equals.  So Nil and Zero both hold for the nil interface
    and for a nil slice, map, channel or function, and for a nil pointer
    Nil holds and Zero fails. *)
Theorem isNil_isZero (o : any) :
  isNil o = true ->
  (isZero o = false <-> exists t, o = Iface t (VPtr None) /\ Reflect.KindOf t = Reflect.Ptr).
Proof.
  intros Hn. destruct o as [|t v].
  - simpl. split; [discriminate|]. intros (t & Ht & _). discriminate.
  - pose proof (Zero_of_kind t) as HZ.
    apply isNil_inv in Hn as [[K ->]|[[K ->]|[[K ->]|[[K ->]|[K ->]]]]];
      unfold isZero; rewrite K in *.
    + rewrite Len_not_array by congruence. simpl.
      split; [discriminate|]. intros (t' & [= <-] & _).
    + unfold Reflect.DeepEqual. rewrite decide_True by reflexivity. rewrite HZ. simpl.
      split; [discriminate|]. intros (t' & [= <-] & _).
    + rewrite Len_not_array by congruence. simpl.
      split; [discriminate|]. intros (t' & [= <-] & _).
    + unfold Reflect.New, Reflect.DeepEqual.
      split; [intros _; eauto|]. intros _. destruct (decide _); reflexivity.
    + rewrite Len_not_array by congruence. simpl.
      split; [discriminate|]. intros (t' & [= <-] & _).
Qed.

(** X7.  A pointer that is not nil is zero-valued exactly when its type is
    an unnamed pointer type and what it points to is deeply equal to the
    zero value of the element type: Zero looks through one pointer.  A
    value of a defined pointer type (type P *T) is never zero-valued. *)
Theorem isZero_pointer (t : type) (a : nat) (v : value) :
  Reflect.KindOf t = Reflect.Ptr ->
  isZero (Iface t (VPtr (Some (a, v))))
  = bool_decide (t = TPtr (Reflect.Elem t))
    && Reflect.deepValueEqual v (Reflect.Zero (Reflect.Elem t)).
Proof.
  intros K. unfold isZero. rewrite K. unfold Reflect.New, Reflect.DeepEqual.
  case_bool_decide as Ht.
  - rewrite decide_True by exact Ht. simpl.
    replace (a =? S (Nat.max a (Reflect.maxAddr v))) with false
      by (symmetry; apply Nat.eqb_neq; lia).
    reflexivity.
  - rewrite decide_False by exact Ht. reflexivity.
Qed.

(** X8.  An array is zero-valued only when its type has length 0: isZero
    asks for the length of an array, a slice, a map and a channel alike, so
    an array of zeros, as [2]int{0, 0}, is not zero-valued. *)
Theorem isZero_array (t e : type) (n : nat) (v : value) :
  Reflect.under t = TArray n e ->
  isZero (Iface t v) = (n =? 0).
Proof.
  intros Hu. pose proof (KindOf_under t) as K. rewrite Hu in K. simpl in K.
  unfold isZero. rewrite <- K. unfold Reflect.Len. rewrite Hu.
  destruct (n =? 0); reflexivity.
Qed.

End ClassifierExtras.

Lemma isNil_isZero_witness :
  Workers.isNil Samples.nilTestStruct = true /\ Workers.isZero Samples.nilTestStruct = false.
Proof.
  split; [reflexivity|].
  apply (proj2 (isNil_isZero Samples.nilTestStruct eq_refl)).
  exists (TPtr Samples.testStruct). split; reflexivity.
Defined.

Lemma isZero_pointer_witness :
  Workers.isZero (Samples.ptrTo 1 0) = true
  /\ Workers.isZero
       (Iface (TNamed "P" (TPtr Samples.testStruct)) (VPtr (Some (1, VStruct [VInt 0]))))
     = false.
Proof.
  split.
  - exact (isZero_pointer (TPtr Samples.testStruct) 1 (VStruct [VInt 0]) eq_refl).
  - exact (isZero_pointer (TNamed "P" (TPtr Samples.testStruct)) 1 (VStruct [VInt 0]) eq_refl).
Defined.

Lemma isZero_array_witness :
  Workers.isZero (Iface (TArray 2 (TInt Iword)) (VArray [VInt 0; VInt 0])) = false.
Proof.
  exact (isZero_array (TArray 2 (TInt Iword)) (TInt Iword) 2 (VArray [VInt 0; VInt 0]) eq_refl).
Defined.

(** ** The checks of the Is package *)

Section CheckExtras.

Import Workers Testing.

Variable Equaler : type -> option hook.
Variable typeName : any -> string.
Variable ErrorOf : any -> res string.

Variables (w : world IsPkg.Is) (l t : nat) (x : IsPkg.Is).
Hypothesis Hx : objs w !! l = Some x.
Hypothesis Ht : IsPkg.TB x = Some t.

Ltac run :=
  unfold mbind, M_mbind, mret, M_mret, Testing.M_bind, Testing.M_ret.

Lemma fail_recorded (format : string) (args : list farg) :
  IsPkg.fail (Some l) format args w
  = (if IsPkg.strict x then Exited else Done tt,
     IsPkg.recorded (IsPkg.failure x t format args w) w).
Proof. rewrite (fail_reports w l t x format args Hx Ht). reflexivity. Qed.

Lemma failure_event (format : string) (args : list farg) :
  ev_tb (IsPkg.failure x t format args w) = t
  /\ ev_fatal (IsPkg.failure x t format args w) = IsPkg.strict x
  /\ ev_time (IsPkg.failure x t format args w) = now w.
Proof. unfold IsPkg.failure. destruct (_ =? _); auto. Qed.

Lemma helper_then {A} (m : M IsPkg.Is A) : (IsPkg.helper (Some l);; m) w = m w.
Proof. run. rewrite (helper_ok _ _ _ _ Hx Ht). reflexivity. Qed.

Lemma ret_then {A B} (a : A) (k : A -> M IsPkg.Is B) :
  (Testing.M_ret a ≫= k) w = k a w.
Proof. reflexivity. Qed.

(** What a check that fails gives. *)
Lemma failing_check (format : string) (args : list farg) :
  (IsPkg.fail (Some l) format args;; mret false) w
  = (if IsPkg.strict x then Exited else Done false,
     IsPkg.recorded (IsPkg.failure x t format args w) w).
Proof. run. rewrite fail_recorded. destruct (IsPkg.strict x); reflexivity. Qed.

Lemma passes_if (c : bool) (format : string) (args : list farg) :
  fst ((if c then IsPkg.fail (Some l) format args;; mret false else mret true) w)
  = Done true <-> c = false.
Proof.
  destruct c; [rewrite failing_check; destruct (IsPkg.strict x)|]; simpl;
    split; congruence.
Qed.

Lemma passes_unless (c : bool) (format : string) (args : list farg) :
  fst ((if negb c then IsPkg.fail (Some l) format args;; mret false else mret true) w)
  = Done true <-> c = true.
Proof. rewrite passes_if. destruct c; simpl; split; congruence. Qed.

(** X9.  On a context with a test handle, each of the checks Nil, NotNil,
    True, False, Zero, NotZero, Len, Err, NotErr and EqualType either
    returns true and leaves the world as it was, or records exactly one
    failure, for the handle of the context and at the time of the call;
    then it returns false when the context is lax, and the test stops when
    the context is strict.  None of them panics. *)
Theorem checks_report_once (o a : any) (b : bool) (n : Z) (c : M IsPkg.Is bool) :
  In c [IsPkg.Nil typeName (Some l) o; IsPkg.NotNil typeName (Some l) o;
        IsPkg.True (Some l) b; IsPkg.False (Some l) b;
        IsPkg.Zero typeName (Some l) o; IsPkg.NotZero typeName (Some l) o;
        IsPkg.Len typeName (Some l) o n;
        IsPkg.Err (Some l) o; IsPkg.NotErr (Some l) o;
        IsPkg.EqualType typeName (Some l) o a] ->
  c w = (Done true, w)
  \/ exists e,
       ev_tb e = t /\ ev_fatal e = IsPkg.strict x /\ ev_time e = now w
       /\ c w = (if IsPkg.strict x then Exited else Done false, IsPkg.recorded e w).
Proof.
  intros Hin. simpl in Hin.
  assert (Hfail : forall format args,
             exists e,
               ev_tb e = t /\ ev_fatal e = IsPkg.strict x /\ ev_time e = now w
               /\ (IsPkg.fail (Some l) format args;; mret false) w
                  = (if IsPkg.strict x then Exited else Done false, IsPkg.recorded e w)).
  { intros. eexists. rewrite failing_check.
    pose proof (failure_event format args) as (H1 & H2 & H3). eauto. }
  destruct Hin as [<-|[<-|[<-|[<-|[<-|[<-|[<-|[<-|[<-|[<-|[]]]]]]]]]]].
  all: unfold IsPkg.Nil, IsPkg.NotNil, IsPkg.True, IsPkg.False, IsPkg.Zero, IsPkg.NotZero,
      IsPkg.Len, IsPkg.Err, IsPkg.NotErr, IsPkg.EqualType.
  all: rewrite !helper_then.
  7: destruct o as [|ty v]; [right; apply Hfail|];
       destruct (IsPkg.lenKind (Reflect.KindOf ty)); cbn [negb]; [|right; apply Hfail];
       destruct (Z.of_nat (Reflect.Len ty v) =? n)%Z; cbn [negb];
       [left; reflexivity | right; apply Hfail].
  all: match goal with
       | |- context [if negb ?c then _ else _] => destruct c
       | |- context [if ?c then _ else _] => destruct c
       end; cbn [negb]; first [left; reflexivity | right; apply Hfail].
Qed.

(** X10.  The checks come in pairs of which exactly one passes: Nil and
    NotNil, Zero and NotZero, True and False, Err and NotErr, and, when the
    comparison returns, Equal and NotEqual. *)
Theorem checks_complementary (o a b : any) (v : bool) :
  let passes (c : M IsPkg.Is bool) := fst (c w) = Done true in
  (passes (IsPkg.Nil typeName (Some l) o) <-> ~ passes (IsPkg.NotNil typeName (Some l) o))
  /\ (passes (IsPkg.Zero typeName (Some l) o)
      <-> ~ passes (IsPkg.NotZero typeName (Some l) o))
  /\ (passes (IsPkg.True (Some l) v) <-> ~ passes (IsPkg.False (Some l) v))
  /\ (passes (IsPkg.Err (Some l) o) <-> ~ passes (IsPkg.NotErr (Some l) o))
  /\ ((exists r, IsPkg.isEqual Equaler a b = Ok r) ->
      (passes (IsPkg.Equal Equaler typeName (Some l) a b)
       <-> ~ passes (IsPkg.NotEqual Equaler typeName (Some l) a b))).
Proof.
  intros passes. unfold passes.
  unfold IsPkg.Nil, IsPkg.NotNil, IsPkg.True, IsPkg.False, IsPkg.Zero, IsPkg.NotZero,
    IsPkg.Err, IsPkg.NotErr, IsPkg.Equal, IsPkg.NotEqual.
  rewrite !helper_then.
  split; [|split; [|split; [|split]]].
  5: intros [r Hr]; rewrite Hr; unfold liftRes; rewrite !ret_then.
  all: rewrite ?passes_unless, ?passes_if.
  all: match goal with |- context [?c = true] => destruct c end.
  all: split; congruence.
Qed.

Lemma anyEqual_first_match (a o : any) (pre post : list any) :
  Forall (fun c => IsPkg.isEqual Equaler a c = Ok false) pre ->
  IsPkg.isEqual Equaler a o = Ok true ->
  IsPkg.anyEqual Equaler a (pre ++ o :: post) = Ok true.
Proof.
  intros Hpre Ho. induction Hpre as [|c pre Hc _ IH]; simpl.
  - rewrite Ho. reflexivity.
  - rewrite Hc. exact IH.
Qed.

Lemma anyEqual_no_match (a : any) (cs : list any) :
  Forall (fun c => IsPkg.isEqual Equaler a c = Ok false) cs ->
  IsPkg.anyEqual Equaler a cs = Ok false.
Proof.
  intros H. induction H as [|c cs Hc _ IH]; simpl; [reflexivity|].
  rewrite Hc. exact IH.
Qed.

(** objectTypeNames returns for a slice that shows an element. *)
Lemma objectTypeNames_ok (b : Heap.slice) :
  Heap.elems (arrs w) b <> [] ->
  exists names, IsPkg.objectTypeNames typeName b w = (Done names, w).
Proof.
  intros Hne. unfold IsPkg.objectTypeNames, Heap.isNilSlice.
  unfold Heap.elems in Hne. destruct (Heap.data b) as [[p off]|] eqn:Hd; [|congruence].
  run. unfold readSlice, Heap.elems. rewrite Hd.
  destruct (take (Heap.len b) (drop off (default [] (arrs w !! p)))); [congruence|].
  destruct (Heap.len b =? 1); eexists; reflexivity.
Qed.

Lemma OneOf_result (a : any) (b : Heap.slice) (r : bool) :
  IsPkg.anyEqual Equaler a (Heap.elems (arrs w) b) = Ok r ->
  IsPkg.OneOf Equaler typeName (Some l) a b w
  = if r then (Done true, w)
    else (names ← IsPkg.objectTypeNames typeName b;
          IsPkg.fail (Some l)
            "expected object '%s' to be equal to one of '%s', but got: %#v and %#v"
            [ArgStr (IsPkg.objectTypeName typeName a); ArgStr names; ArgAny a;
             IsPkg.candidates b (Heap.elems (arrs w) b)];;
          mret false) w.
Proof.
  intros H. unfold IsPkg.OneOf. rewrite helper_then.
  unfold readSlice. unfold mbind at 1 2, M_mbind at 1 2, Testing.M_bind at 1 2.
  rewrite H. destruct r; reflexivity.
Qed.

Lemma NotOneOf_result (a : any) (b : Heap.slice) (r : bool) :
  IsPkg.anyEqual Equaler a (Heap.elems (arrs w) b) = Ok r ->
  IsPkg.NotOneOf Equaler typeName (Some l) a b w
  = if r
    then (names ← IsPkg.objectTypeNames typeName b;
          IsPkg.fail (Some l)
            "expected object '%s' not to be equal to one of '%s', but got: %v and %v"
            [ArgStr (IsPkg.objectTypeName typeName a); ArgStr names; ArgAny a;
             IsPkg.candidates b (Heap.elems (arrs w) b)];;
          mret false) w
    else (Done true, w).
Proof.
  intros H. unfold IsPkg.NotOneOf. rewrite helper_then.
  unfold readSlice. unfold mbind at 1 2, M_mbind at 1 2, Testing.M_bind at 1 2.
  rewrite H. destruct r; reflexivity.
Qed.

(** X11.  OneOf stops at the first candidate that is equal: the candidates
    after it are not compared, whatever isEqual would do on them; OneOf
    returns true and NotOneOf records one failure.  When isEqual returns
    false on every candidate of a list that is not empty, OneOf records one
    failure and NotOneOf returns true. *)
Theorem OneOf_first_match (a o : any) (b : Heap.slice) (pre post : list any) :
  (Heap.elems (arrs w) b = pre ++ o :: post ->
   Forall (fun c => IsPkg.isEqual Equaler a c = Ok false) pre ->
   IsPkg.isEqual Equaler a o = Ok true ->
   IsPkg.OneOf Equaler typeName (Some l) a b w = (Done true, w)
   /\ exists e,
       ev_fatal e = IsPkg.strict x
       /\ IsPkg.NotOneOf Equaler typeName (Some l) a b w
          = (if IsPkg.strict x then Exited else Done false, IsPkg.recorded e w))
  /\ (Heap.elems (arrs w) b <> [] ->
      Forall (fun c => IsPkg.isEqual Equaler a c = Ok false) (Heap.elems (arrs w) b) ->
      IsPkg.NotOneOf Equaler typeName (Some l) a b w = (Done true, w)
      /\ exists e,
          ev_fatal e = IsPkg.strict x
          /\ IsPkg.OneOf Equaler typeName (Some l) a b w
             = (if IsPkg.strict x then Exited else Done false, IsPkg.recorded e w)).
Proof.
  assert (Hfail : forall format (args : string -> list farg),
             Heap.elems (arrs w) b <> [] ->
             exists e,
               ev_fatal e = IsPkg.strict x
               /\ (names ← IsPkg.objectTypeNames typeName b;
                   IsPkg.fail (Some l) format (args names);; mret false) w
                  = (if IsPkg.strict x then Exited else Done false, IsPkg.recorded e w)).
  { intros format args Hne. destruct (objectTypeNames_ok b Hne) as [names Hnames].
    unfold mbind at 1, M_mbind at 1, Testing.M_bind at 1. rewrite Hnames.
    rewrite failing_check. eexists. split; [|reflexivity]. apply failure_event. }
  split.
  - intros Hl Hpre Ho.
    pose proof (anyEqual_first_match a o pre post Hpre Ho) as Hany. rewrite <- Hl in Hany.
    assert (Hne : Heap.elems (arrs w) b <> []) by (rewrite Hl; destruct pre; discriminate).
    rewrite (OneOf_result a b true Hany), (NotOneOf_result a b true Hany).
    split; [reflexivity|]. apply (Hfail _ (fun names => _) Hne).
  - intros Hne Hall.
    pose proof (anyEqual_no_match a _ Hall) as Hany.
    rewrite (OneOf_result a b false Hany), (NotOneOf_result a b false Hany).
    split; [reflexivity|]. apply (Hfail _ (fun names => _) Hne).
Qed.

Lemma containsLoop_first_match (b e : any) (pre post : list any) :
  Forall (fun c => IsPkg.isEqual Equaler c b = Ok false) pre ->
  IsPkg.isEqual Equaler e b = Ok true ->
  IsPkg.containsLoop Equaler (pre ++ e :: post) b = Ok true.
Proof.
  intros Hpre He. induction Hpre as [|c pre Hc _ IH]; simpl.
  - rewrite He. reflexivity.
  - rewrite Hc. exact IH.
Qed.

Lemma containsLoop_no_match (b : any) (es : list any) :
  Forall (fun c => IsPkg.isEqual Equaler c b = Ok false) es ->
  IsPkg.containsLoop Equaler es b = Ok false.
Proof.
  intros H. induction H as [|c es Hc _ IH]; simpl; [reflexivity|].
  rewrite Hc. exact IH.
Qed.

Lemma Contains_slice_result (ta : type) (sl : option (nat * list value)) (b : any) (r : bool) :
  Reflect.KindOf ta = Reflect.Slice ->
  IsPkg.containsLoop Equaler (IsPkg.sliceElements (Iface ta (VSlice sl))) b = Ok r ->
  IsPkg.Contains Equaler (Some l) (Iface ta (VSlice sl)) b w
  = if r then (Done true, w)
    else (if IsPkg.strict x then Exited else Done false,
          IsPkg.recorded
            (IsPkg.failure x t "%#v expected to contain %#v"
               [ArgAny (Iface ta (VSlice sl)); ArgAny b] w) w).
Proof.
  intros K H. unfold IsPkg.Contains, IsPkg.isString, IsPkg.isSlice.
  cbn [Reflect.TypeOf Reflect.TypeKind]. rewrite K.
  rewrite H. run. unfold res_mbind, res_bind, liftRes. simpl. unfold Testing.M_ret.
  destruct r; [reflexivity|].
  rewrite fail_recorded. destruct (IsPkg.strict x); reflexivity.
Qed.

(** X12.  Contains on a slice compares each element, as a value of the
    element type of the slice, with the item, the element on the left (so
    it is the Equal method of the element that is used), and stops at the
    first element that is equal; the elements after it are not compared.
    The item may be the nil interface.  When isEqual returns false on every
    element, one failure is recorded. *)
Theorem Contains_slice (ta : type) (sl : option (nat * list value)) (b : any)
    (pre post : list value) (e : value) :
  Reflect.KindOf ta = Reflect.Slice ->
  (Reflect.elemsOf sl = pre ++ e :: post ->
   Forall (fun c => IsPkg.isEqual Equaler (Iface (Reflect.Elem ta) c) b = Ok false) pre ->
   IsPkg.isEqual Equaler (Iface (Reflect.Elem ta) e) b = Ok true ->
   IsPkg.Contains Equaler (Some l) (Iface ta (VSlice sl)) b w = (Done true, w))
  /\ (Forall (fun c => IsPkg.isEqual Equaler (Iface (Reflect.Elem ta) c) b = Ok false)
        (Reflect.elemsOf sl) ->
      IsPkg.Contains Equaler (Some l) (Iface ta (VSlice sl)) b w
      = (if IsPkg.strict x then Exited else Done false,
         IsPkg.recorded
           (IsPkg.failure x t "%#v expected to contain %#v"
              [ArgAny (Iface ta (VSlice sl)); ArgAny b] w) w)).
Proof.
  intros K. split.
  - intros Hl Hpre He.
    apply (Contains_slice_result ta sl b true K).
    unfold IsPkg.sliceElements. rewrite Hl, map_app. simpl.
    apply containsLoop_first_match; [|exact He].
    apply Forall_map. exact Hpre.
  - intros Hall.
    apply (Contains_slice_result ta sl b false K).
    apply containsLoop_no_match. unfold IsPkg.sliceElements.
    apply Forall_map. exact Hall.
Qed.

(** X13.  Len passes exactly for an array, a slice or a map of the given
    length.  A string and a channel have a length too, and Len fails for
    them whatever the number is. *)
Theorem Len_passes (ty : type) (v : value) (n : Z) :
  fst (IsPkg.Len typeName (Some l) (Iface ty v) n w) = Done true
  <-> (Reflect.KindOf ty = Reflect.Array \/ Reflect.KindOf ty = Reflect.Slice
       \/ Reflect.KindOf ty = Reflect.Map)
      /\ Z.of_nat (Reflect.Len ty v) = n.
Proof.
  clear Equaler ErrorOf. unfold IsPkg.Len. rewrite helper_then.
  assert (Hk : IsPkg.lenKind (Reflect.KindOf ty) = true
               <-> Reflect.KindOf ty = Reflect.Array \/ Reflect.KindOf ty = Reflect.Slice
                   \/ Reflect.KindOf ty = Reflect.Map).
  { unfold IsPkg.lenKind. rewrite !orb_true_iff, !bool_decide_eq_true. tauto. }
  rewrite <- Hk.
  destruct (IsPkg.lenKind (Reflect.KindOf ty)); cbn [negb].
  - rewrite passes_unless, Z.eqb_eq. tauto.
  - rewrite failing_check. destruct (IsPkg.strict x); simpl; split;
      try discriminate; intros [? _]; discriminate.
Qed.

Lemma append_empty (s : string) : s +:+ "" = s.
Proof.
  induction s as [|ch r IH]; [reflexivity|].
  change (String ch (r +:+ "") = String ch r). rewrite IH. reflexivity.
Qed.

Lemma concat_names (f : any -> string) (e : any) (rest : list any) :
  f e +:+ String.concat "" (map (fun c => "," +:+ f c) rest)
  = String.concat "," (map f (e :: rest)).
Proof.
  revert e. induction rest as [|c rest IH]; intros e.
  - simpl. apply append_empty.
  - specialize (IH c). simpl in *.
    destruct (map (fun c0 => "," +:+ f c0) rest) eqn:E1; destruct (map f rest) eqn:E2;
      try (destruct rest; discriminate); simpl in *; rewrite <- IH; reflexivity.
Qed.

(** X14.  For a slice that shows an element, objectTypeNames returns the
    type names of all its elements, separated by commas; the case of one
    element and the loop agree. *)
Theorem objectTypeNames_joined (b : Heap.slice) (e : any) (rest : list any) :
  Heap.wf (arrs w) b ->
  Heap.elems (arrs w) b = e :: rest ->
  IsPkg.objectTypeNames typeName b w
  = (Done (String.concat "," (map typeName (e :: rest))), w).
Proof.
  intros Hwf Hl. pose proof (elems_length _ _ Hwf) as Hlen. rewrite Hl in Hlen.
  unfold IsPkg.objectTypeNames, Heap.isNilSlice.
  assert (Hd : Heap.data b <> None).
  { intros Hd. unfold Heap.elems in Hl. rewrite Hd in Hl. discriminate. }
  destruct (Heap.data b) as [d|] eqn:Ed; [|congruence].
  run. unfold readSlice. rewrite Hl.
  destruct (Heap.len b =? 1) eqn:E1.
  - apply Nat.eqb_eq in E1. destruct rest; [reflexivity | simpl in Hlen; lia].
  - unfold IsPkg.objectTypeName. rewrite concat_names. reflexivity.
Qed.

(** X15.  ShouldPanic on a function that panics with a value that is not
    the nil interface stops the panic, returns and records nothing.  On a
    function that returns, and on one that panics with the nil interface
    (panic(nil), after which recover returns nil up to Go 1.20), it records
    one failure.  On a function that stops the test (a fatal failure inside
    it) the deferred function still runs and records a second failure,
    after which the test stays stopped. *)
Theorem ShouldPanic_outcomes (f : IsPkg.func) (w' : world IsPkg.Is) :
  objs w' !! l = Some x ->
  (forall ty v,
      f w = (IsPkg.PanicsWith (Iface ty v), w') ->
      IsPkg.ShouldPanic (Some l) f w = (Done tt, w'))
  /\ (f w = (IsPkg.Returns, w') \/ f w = (IsPkg.PanicsWith nilAny, w') ->
      IsPkg.ShouldPanic (Some l) f w
      = (if IsPkg.strict x then Exited else Done tt,
         IsPkg.recorded (IsPkg.failure x t "expected function to panic" [] w') w'))
  /\ (f w = (IsPkg.Exits, w') ->
      IsPkg.ShouldPanic (Some l) f w
      = (Exited, IsPkg.recorded (IsPkg.failure x t "expected function to panic" [] w') w')).
Proof.
  intros Hx'. unfold IsPkg.ShouldPanic. rewrite helper_then.
  assert (Hfail : IsPkg.fail (Some l) "expected function to panic" [] w'
                  = (if IsPkg.strict x then Exited else Done tt,
                     IsPkg.recorded
                       (IsPkg.failure x t "expected function to panic" [] w') w'))
    by (rewrite (fail_reports w' l t x _ _ Hx' Ht); reflexivity).
  split; [|split].
  - intros ty v Hf. rewrite Hf. reflexivity.
  - intros [Hf|Hf]; rewrite Hf; rewrite Hfail; reflexivity.
  - intros Hf. rewrite Hf. rewrite Hfail. destruct (IsPkg.strict x); reflexivity.
Qed.

(** X16.  ErrMsg on an error that is not nil-like compares the text that
    its Error method returns with the expected text, as Equal on two
    strings does.  On a nil-like error, which includes a nil pointer held
    in the error value, the method is not called and one failure is
    recorded. *)
Theorem ErrMsg_compares_text (e : any) (expectedMsg text : string) :
  Equaler TString = None ->
  (isNil e = true ->
   IsPkg.ErrMsg Equaler typeName ErrorOf (Some l) e expectedMsg w
   = (if IsPkg.strict x then Exited else Done false,
      IsPkg.recorded (IsPkg.failure x t "expected error %#v" [ArgStr expectedMsg] w) w))
  /\ (isNil e = false -> ErrorOf e = Ok text ->
      IsPkg.ErrMsg Equaler typeName ErrorOf (Some l) e expectedMsg w
      = if String.eqb text expectedMsg then (Done true, w)
        else (if IsPkg.strict x then Exited else Done false,
              IsPkg.recorded
                (IsPkg.failure x t "got '%v' (%s). expected '%v' (%s)"
                   [ArgAny (Iface TString (VString text));
                    ArgStr (typeName (Iface TString (VString text)));
                    ArgAny (Iface TString (VString expectedMsg));
                    ArgStr (typeName (Iface TString (VString expectedMsg)))] w) w)).
Proof.
  intros HE. unfold IsPkg.ErrMsg. rewrite helper_then. split.
  - intros ->. apply failing_check.
  - intros -> ->. unfold liftRes at 1. rewrite ret_then.
    unfold IsPkg.Equal. rewrite helper_then.
    rewrite (proj1 (isEqual_strings Equaler Equaler text expectedMsg HE HE)).
    unfold liftRes. rewrite ret_then.
    destruct (String.eqb text expectedMsg); cbn [negb]; [reflexivity|].
    apply failing_check.
Qed.

End CheckExtras.

Lemma checks_report_once_witness :
  IsPkg.Zero Samples.shortName (Some 0) Samples.one Samples.laxStore
  = (Testing.Done true, Samples.laxStore)
  \/ exists e,
       Testing.ev_tb e = 0 /\ Testing.ev_fatal e = false
       /\ Testing.ev_time e = Testing.now Samples.laxStore
       /\ IsPkg.Zero Samples.shortName (Some 0) Samples.one Samples.laxStore
          = (Testing.Done false, IsPkg.recorded e Samples.laxStore).
Proof.
  apply (checks_report_once Samples.shortName Samples.laxStore 0 0 Samples.laxContext
           eq_refl eq_refl Samples.one nilAny true 0%Z).
  do 4 right. left. reflexivity.
Defined.

Lemma checks_complementary_witness :
  fst (IsPkg.Equal Samples.noHooks Samples.shortName (Some 0) Samples.one Samples.two
         Samples.laxStore) = Testing.Done true
  <-> ~ fst (IsPkg.NotEqual Samples.noHooks Samples.shortName (Some 0) Samples.one Samples.two
               Samples.laxStore) = Testing.Done true.
Proof.
  pose proof (checks_complementary Samples.noHooks Samples.shortName Samples.laxStore 0 0
                Samples.laxContext eq_refl eq_refl nilAny Samples.one Samples.two true)
    as (_ & _ & _ & _ & H).
  apply H. exists false. reflexivity.
Defined.

Lemma OneOf_first_match_witness :
  IsPkg.OneOf Samples.noHooks Samples.shortName (Some 0) Samples.one Samples.oneTwo
    Samples.candidateStore
  = (Testing.Done true, Samples.candidateStore).
Proof.
  pose proof (OneOf_first_match Samples.noHooks Samples.shortName Samples.candidateStore 0 0
                Samples.laxContext eq_refl eq_refl Samples.one Samples.one Samples.oneTwo
                [] [Samples.two]) as [H _].
  apply H; [reflexivity | constructor | reflexivity].
Defined.

Lemma Contains_slice_witness :
  IsPkg.Contains Samples.noHooks (Some 0) (Samples.int64s 1 [0; 1]%Z) Samples.one
    Samples.laxStore
  = (Testing.Done true, Samples.laxStore).
Proof.
  pose proof (Contains_slice Samples.noHooks Samples.laxStore 0 0 Samples.laxContext
                eq_refl eq_refl (TSlice (TInt I64)) (Some (1, [VInt 0; VInt 1]))
                Samples.one [VInt 0] [] (VInt 1) eq_refl) as [H _].
  apply H; [reflexivity | repeat constructor | reflexivity].
Defined.

Lemma Len_passes_witness :
  fst (IsPkg.Len Samples.shortName (Some 0) (Samples.int64s 1 [0; 1]%Z) 2 Samples.laxStore)
  = Testing.Done true.
Proof.
  apply (Len_passes Samples.shortName Samples.laxStore 0 0 Samples.laxContext
           eq_refl eq_refl).
  split; [right; left; reflexivity | reflexivity].
Defined.

Lemma objectTypeNames_joined_witness :
  IsPkg.objectTypeNames Samples.shortName Samples.oneTwo Samples.candidateStore
  = (Testing.Done "int,int", Samples.candidateStore).
Proof.
  apply (objectTypeNames_joined Samples.shortName Samples.candidateStore Samples.oneTwo
           Samples.one [Samples.two]).
  - split; [simpl; lia|]. exists [Samples.one; Samples.two].
    split; [reflexivity | simpl; lia].
  - reflexivity.
Defined.

Lemma ShouldPanic_outcomes_witness :
  IsPkg.ShouldPanic (Some 0) (IsPkg.funcOf (_ ← IsPkg.New None; mret tt)) Samples.strictStore
  = (Testing.Done tt, Samples.strictStore)
  /\ IsPkg.ShouldPanic (Some 0) (fun w => (IsPkg.PanicsWith nilAny, w)) Samples.laxStore
     = (Testing.Done tt,
        IsPkg.recorded (Testing.Event 0 false "expected function to panic" [] 0)
          Samples.laxStore).
Proof.
  split.
  - pose proof (ShouldPanic_outcomes Samples.strictStore 0 0 Samples.strictContext
                  eq_refl eq_refl (IsPkg.funcOf (_ ← IsPkg.New None; mret tt))
                  Samples.strictStore eq_refl) as [H _].
    apply (H TString (VString "You must provide a testing object.")). reflexivity.
  - pose proof (ShouldPanic_outcomes Samples.laxStore 0 0 Samples.laxContext
                  eq_refl eq_refl (fun w => (IsPkg.PanicsWith nilAny, w))
                  Samples.laxStore eq_refl) as (_ & H & _).
    apply H. right. reflexivity.
Defined.

Lemma ErrMsg_compares_text_witness :
  IsPkg.ErrMsg Samples.noHooks Samples.shortName Samples.errorText (Some 0)
    (Samples.errorsNew 1 "not found") "not found" Samples.laxStore
  = (Testing.Done true, Samples.laxStore).
Proof.
  pose proof (ErrMsg_compares_text Samples.noHooks Samples.shortName Samples.errorText
                Samples.laxStore 0 0 Samples.laxContext eq_refl eq_refl
                (Samples.errorsNew 1 "not found") "not found" "not found" eq_refl)
    as [_ H].
  apply H; reflexivity.
Defined.

(** ** Package require *)

Section RequireExtras.

Import Workers Testing.

Variable Equaler : type -> option hook.
Variable typeName : any -> string.
Variable slack : nat -> nat -> nat.
Variable ErrorOf : any -> res string.

Variables (h : nat) (w : world IsPkg.Is).

Ltac run :=
  unfold mbind, M_mbind, mret, M_mret, Testing.M_bind, Testing.M_ret.

(** The context New makes, its address, and the world after New. *)
Let c0 : IsPkg.Is := IsPkg.MkIs (Some h) true "" Heap.nilSlice "".
Let q : nat := fresh (dom (objs w)).
Let w1 : world IsPkg.Is := World (<[q := c0]> (objs w)) (arrs w) (tblog w) (now w) (polls w).

(** The world after the call of AddMsg whose result is dropped. *)
Let w2 (format : string) (args : Heap.slice) : world IsPkg.Is :=
  World (<[fresh (dom (objs w1)) := IsPkg.MkIs (Some h) true format args ""]> (objs w1))
    (arrs w) (tblog w) (now w) (polls w).

Lemma context_kept (format : string) (args : Heap.slice) :
  objs (w2 format args) !! q = Some c0.
Proof.
  unfold w2. simpl. rewrite lookup_insert_ne.
  - apply lookup_insert_eq.
  - intros Heq. pose proof (is_fresh (dom (<[q := c0]> (objs w)))) as Hf.
    rewrite Heq in Hf. apply Hf. apply elem_of_dom. rewrite lookup_insert_eq. eauto.
Qed.

Lemma AddMsg_on_new (format : string) (args : Heap.slice) :
  IsPkg.AddMsg slack (Some q) format args w1
  = (Done (Some (fresh (dom (objs w1)))), w2 format args).
Proof.
  unfold IsPkg.AddMsg, IsPkg.Msg. run. unfold deref. simpl.
  rewrite lookup_insert_eq. simpl. rewrite lookup_insert_eq. reflexivity.
Qed.

Lemma newContext_result (msgAndArgs : Heap.slice) (format : string) (rest : list any) :
  0 < Heap.len msgAndArgs ->
  Heap.elems (arrs w) msgAndArgs = Iface TString (VString format) :: rest ->
  RequirePkg.newContext slack (Some h) msgAndArgs w
  = (Done (Some q), w2 format (RequirePkg.from1 msgAndArgs)).
Proof.
  intros Hlen Hm. unfold RequirePkg.newContext, IsPkg.New, alloc.
  unfold mbind at 1, M_mbind at 1, Testing.M_bind at 1. fold q. fold c0. fold w1.
  apply Nat.ltb_lt in Hlen. rewrite Hlen.
  unfold mbind at 1 2, M_mbind at 1 2, Testing.M_bind at 1 2.
  unfold readSlice. change (arrs w1) with (arrs w). rewrite Hm.
  unfold mbind at 1, M_mbind at 1, Testing.M_bind at 1. simpl liftRes.
  unfold Testing.M_ret at 1.
  unfold mbind at 1, M_mbind at 1, Testing.M_bind at 1.
  rewrite AddMsg_on_new. reflexivity.
Qed.

(** X17.  Every function of package require starts with a new context
    and, when message arguments are given, calls AddMsg on it without
    keeping the result.  The context the check is then made on is strict
    and has no message: the message never reaches a failure report. *)
Theorem newContext_drops_message (msgAndArgs : Heap.slice) (format : string)
    (rest : list any) :
  0 < Heap.len msgAndArgs ->
  Heap.elems (arrs w) msgAndArgs = Iface TString (VString format) :: rest ->
  exists is_ w',
    RequirePkg.newContext slack (Some h) msgAndArgs w = (Done is_, w')
    /\ IsPkg.observable w' is_ = Some (Some h, true, "", [], "")
    /\ tblog w' = tblog w /\ arrs w' = arrs w /\ now w' = now w.
Proof.
  intros Hlen Hm. rewrite (newContext_result msgAndArgs format rest Hlen Hm).
  eexists _, _. split; [reflexivity|].
  unfold IsPkg.observable. rewrite context_kept. repeat split; reflexivity.
Qed.

(** A check on the context of a call, after the message was dropped. *)
Lemma require_check (msgAndArgs : Heap.slice) (format : string) (rest : list any)
    (chk : option nat -> M IsPkg.Is bool) (holds : bool) (fmt : string) (args : list farg) :
  0 < Heap.len msgAndArgs ->
  Heap.elems (arrs w) msgAndArgs = Iface TString (VString format) :: rest ->
  (forall w', objs w' !! q = Some c0 ->
     chk (Some q) w'
     = if holds then (Done true, w')
       else (Exited, IsPkg.recorded (Event h true fmt args (now w')) w')) ->
  let r := (is_ ← RequirePkg.newContext slack (Some h) msgAndArgs; chk is_;; mret tt) w in
  fst r = (if holds then Done tt else Exited)
  /\ tblog (snd r) = if holds then tblog w else tblog w ++ [Event h true fmt args (now w)].
Proof.
  intros Hlen Hm Hchk r.
  assert (Hr : r = if holds then (Done tt, w2 format (RequirePkg.from1 msgAndArgs))
                   else (Exited,
                         IsPkg.recorded (Event h true fmt args (now w))
                           (w2 format (RequirePkg.from1 msgAndArgs)))).
  { unfold r. unfold mbind at 1, M_mbind at 1, Testing.M_bind at 1.
    rewrite (newContext_result msgAndArgs format rest Hlen Hm).
    unfold mbind at 1, M_mbind at 1, Testing.M_bind at 1.
    rewrite (Hchk _ (context_kept _ _)). destruct holds; reflexivity. }
  rewrite Hr. destruct holds; split; reflexivity.
Qed.

(** The checks on a strict context without a message. *)
Lemma strict_check (w' : world IsPkg.Is) (c : bool) (fmt : string) (args : list farg) :
  objs w' !! q = Some c0 ->
  (IsPkg.helper (Some q);;
   if c then IsPkg.fail (Some q) fmt args;; mret false else mret true) w'
  = if c then (Exited, IsPkg.recorded (Event h true fmt args (now w')) w')
    else (Done true, w').
Proof.
  intros Hq. rewrite (helper_then w' q h c0 Hq eq_refl).
  destruct c; [|reflexivity]. rewrite (failing_check w' q h c0 Hq eq_refl). reflexivity.
Qed.

(** X18.  What the functions True, False, Nil, NotNil, Error and NoError
    of package require do when a message is passed: when the check holds
    they return and record nothing; when it does not, the test stops after
    one failure whose format and arguments are those of the check alone,
    without the message. *)
Theorem require_reports_without_message (msgAndArgs : Heap.slice) (format : string)
    (rest : list any) (b : bool) (o : any)
    (c : M IsPkg.Is unit) (holds : bool) (fmt : string) (args : list farg) :
  0 < Heap.len msgAndArgs ->
  Heap.elems (arrs w) msgAndArgs = Iface TString (VString format) :: rest ->
  In (c, holds, fmt, args)
    [(RequirePkg.True slack (Some h) b msgAndArgs, b, "expected boolean to be true", []);
     (RequirePkg.False slack (Some h) b msgAndArgs, negb b, "expected boolean to be false", []);
     (RequirePkg.Nil typeName slack (Some h) o msgAndArgs, isNil o,
      "expected object '%s' to be nil, but got: %v", [ArgStr (typeName o); ArgAny o]);
     (RequirePkg.NotNil typeName slack (Some h) o msgAndArgs, negb (isNil o),
      "expected object '%s' not to be nil", [ArgStr (typeName o)]);
     (RequirePkg.Error slack (Some h) o msgAndArgs, negb (isNil o), "expected error", []);
     (RequirePkg.NoError slack (Some h) o msgAndArgs, isNil o,
      "expected no error, but got: %v", [ArgAny o])] ->
  fst (c w) = (if holds then Done tt else Exited)
  /\ tblog (snd (c w)) = if holds then tblog w else tblog w ++ [Event h true fmt args (now w)].
Proof.
  intros Hlen Hm Hin. simpl in Hin.
  destruct Hin as [H|[H|[H|[H|[H|[H|[]]]]]]]; injection H as <- <- <- <-.
  all: unfold RequirePkg.True, RequirePkg.False, RequirePkg.Nil, RequirePkg.NotNil,
         RequirePkg.Error, RequirePkg.NoError.
  all: apply (require_check msgAndArgs format rest _ _ _ _ Hlen Hm).
  all: intros w' Hq.
  all: unfold IsPkg.True, IsPkg.False, IsPkg.Nil, IsPkg.NotNil, IsPkg.Err, IsPkg.NotErr,
         IsPkg.objectTypeName.
  all: rewrite (strict_check w' _ _ _ Hq).
  all: match goal with |- context [if negb ?c then _ else _] => destruct c
                     | |- context [if ?c then _ else _] => destruct c end; reflexivity.
Qed.

(** X19.  When the first message argument is not a string, the type
    assertion panics: each function of the package panics before it makes
    its check, and nothing is recorded. *)
Theorem require_message_not_a_string (msgAndArgs : Heap.slice) (first : any)
    (rest : list any) (msg : string) (b : bool) (o o' : any) (n : Z) (text : string)
    (f : IsPkg.func) (c : M IsPkg.Is unit) :
  0 < Heap.len msgAndArgs ->
  Heap.elems (arrs w) msgAndArgs = first :: rest ->
  RequirePkg.assertString first = Panic msg ->
  In c [RequirePkg.Contains Equaler slack (Some h) o o' msgAndArgs;
        RequirePkg.Equal Equaler typeName slack (Some h) o o' msgAndArgs;
        RequirePkg.EqualError Equaler typeName slack ErrorOf (Some h) o text msgAndArgs;
        RequirePkg.Error slack (Some h) o msgAndArgs;
        RequirePkg.False slack (Some h) b msgAndArgs;
        RequirePkg.Len typeName slack (Some h) o n msgAndArgs;
        RequirePkg.Nil typeName slack (Some h) o msgAndArgs;
        RequirePkg.NoError slack (Some h) o msgAndArgs;
        RequirePkg.NotNil typeName slack (Some h) o msgAndArgs;
        RequirePkg.Panics slack (Some h) f msgAndArgs;
        RequirePkg.True slack (Some h) b msgAndArgs] ->
  fst (c w) = Panicked msg /\ tblog (snd (c w)) = tblog w.
Proof.
  intros Hlen Hm Hp Hin.
  assert (Hnew : RequirePkg.newContext slack (Some h) msgAndArgs w = (Panicked msg, w1)).
  { unfold RequirePkg.newContext, IsPkg.New, alloc.
    unfold mbind at 1, M_mbind at 1, Testing.M_bind at 1. fold q. fold c0. fold w1.
    apply Nat.ltb_lt in Hlen. rewrite Hlen.
    unfold mbind at 1 2, M_mbind at 1 2, Testing.M_bind at 1 2.
    unfold readSlice. change (arrs w1) with (arrs w). rewrite Hm.
    unfold mbind at 1, M_mbind at 1, Testing.M_bind at 1. rewrite Hp. reflexivity. }
  simpl in Hin.
  destruct Hin as [<-|[<-|[<-|[<-|[<-|[<-|[<-|[<-|[<-|[<-|[<-|[]]]]]]]]]]]].
  all: unfold RequirePkg.Contains, RequirePkg.Equal, RequirePkg.EqualError, RequirePkg.Error,
         RequirePkg.False, RequirePkg.Len, RequirePkg.Nil, RequirePkg.NoError,
         RequirePkg.NotNil, RequirePkg.Panics, RequirePkg.True.
  all: split; unfold mbind at 1, M_mbind at 1, Testing.M_bind at 1; rewrite Hnew;
         reflexivity.
Qed.

(** X20.  EqualValuesf stops the test after one failure of Equal when
    isEqual returns false, stops it after one failure of EqualType when
    the values are equal and their types differ, and returns otherwise.
    The message it is given appears in neither failure. *)
Theorem EqualValuesf_outcomes (expected actual : any) (msg : string) (args : Heap.slice)
    (r : bool) :
  IsPkg.isEqual Equaler actual expected = Ok r ->
  let res := RequirePkg.EqualValuesf Equaler typeName slack (Some h) expected actual msg args w in
  let same := bool_decide (Reflect.TypeOf expected = Reflect.TypeOf actual) in
  fst res = (if r && same then Done tt else Exited)
  /\ tblog (snd res)
     = if negb r then
         tblog w ++ [Event h true "got '%v' (%s). expected '%v' (%s)"
                       [ArgAny actual; ArgStr (typeName actual);
                        ArgAny expected; ArgStr (typeName expected)] (now w)]
       else if negb same then
         tblog w ++ [Event h true
                       "expected objects '%s' to be of the same type as object '%s'"
                       [ArgStr (typeName expected); ArgStr (typeName actual)] (now w)]
       else tblog w.
Proof.
  intros Hr res same.
  pose (failed (e : event) := (@Exited unit, IsPkg.recorded e (w2 msg args))).
  assert (Hres :
    res = if negb r then
            failed (Event h true "got '%v' (%s). expected '%v' (%s)"
                      [ArgAny actual; ArgStr (typeName actual);
                       ArgAny expected; ArgStr (typeName expected)] (now w))
          else if negb same then
            failed (Event h true
                      "expected objects '%s' to be of the same type as object '%s'"
                      [ArgStr (typeName expected); ArgStr (typeName actual)] (now w))
          else (Done tt, w2 msg args));
    [|rewrite Hres; destruct r, same; split; reflexivity].
  unfold failed, res, RequirePkg.EqualValuesf, IsPkg.New, alloc.
  unfold mbind at 1, M_mbind at 1, Testing.M_bind at 1. fold q. fold c0. fold w1.
  unfold mbind at 1, M_mbind at 1, Testing.M_bind at 1. rewrite AddMsg_on_new.
  pose proof (context_kept msg args) as Hq.
  unfold mbind at 1, M_mbind at 1, Testing.M_bind at 1.
  unfold IsPkg.Equal. rewrite (helper_then _ q h c0 Hq eq_refl).
  rewrite Hr. unfold liftRes. rewrite ret_then.
  destruct r; cbn [negb andb].
  - unfold mret at 1, M_mret at 1, Testing.M_ret at 1.
    unfold mbind at 1, M_mbind at 1, Testing.M_bind at 1.
    unfold IsPkg.EqualType. rewrite (helper_then _ q h c0 Hq eq_refl).
    fold same. destruct same; cbn [negb]; [reflexivity|].
    rewrite (failing_check _ q h c0 Hq eq_refl). reflexivity.
  - rewrite (failing_check _ q h c0 Hq eq_refl). reflexivity.
Qed.

End RequireExtras.

Lemma newContext_drops_message_witness :
  exists is_ w',
    RequirePkg.newContext Samples.doubling (Some 0) Samples.wanted Samples.messageStore
    = (Testing.Done is_, w')
    /\ IsPkg.observable w' is_ = Some (Some 0, true, "", [], "")
    /\ Testing.tblog w' = [] /\ Testing.arrs w' = Testing.arrs Samples.messageStore
    /\ Testing.now w' = 0%Z.
Proof.
  apply (newContext_drops_message Samples.doubling 0 Samples.messageStore Samples.wanted
           "wanted %d" [Samples.one]); [simpl; lia | reflexivity].
Defined.

Lemma require_reports_without_message_witness :
  fst (RequirePkg.True Samples.doubling (Some 0) false Samples.wanted Samples.messageStore)
  = Testing.Exited
  /\ Testing.tblog
       (snd (RequirePkg.True Samples.doubling (Some 0) false Samples.wanted
               Samples.messageStore))
     = [Testing.Event 0 true "expected boolean to be true" [] 0].
Proof.
  apply (require_reports_without_message Samples.shortName Samples.doubling 0
           Samples.messageStore Samples.wanted "wanted %d" [Samples.one] false nilAny
           (RequirePkg.True Samples.doubling (Some 0) false Samples.wanted) false
           "expected boolean to be true" []);
    [simpl; lia | reflexivity | left; reflexivity].
Defined.

Lemma require_message_not_a_string_witness :
  fst (RequirePkg.True Samples.doubling (Some 0) true Samples.onlyOne Samples.messageStore)
  = Testing.Panicked "interface conversion: interface {} is not string"
  /\ Testing.tblog
       (snd (RequirePkg.True Samples.doubling (Some 0) true Samples.onlyOne
               Samples.messageStore)) = [].
Proof.
  apply (require_message_not_a_string Samples.noHooks Samples.shortName Samples.doubling
           Samples.errorText 0 Samples.messageStore Samples.onlyOne Samples.one []
           "interface conversion: interface {} is not string" true nilAny nilAny 0%Z ""
           (IsPkg.funcOf (mret tt)));
    [simpl; lia | reflexivity | reflexivity | do 10 right; left; reflexivity].
Defined.

Lemma EqualValuesf_outcomes_witness :
  fst (RequirePkg.EqualValuesf Samples.noHooks Samples.shortName Samples.doubling (Some 0)
         (Iface (TInt I64) (VInt 1)) Samples.one "wanted %d" Samples.onlyOne
         Samples.messageStore)
  = Testing.Exited
  /\ Testing.tblog
       (snd (RequirePkg.EqualValuesf Samples.noHooks Samples.shortName Samples.doubling
               (Some 0) (Iface (TInt I64) (VInt 1)) Samples.one "wanted %d" Samples.onlyOne
               Samples.messageStore))
     = [Testing.Event 0 true "expected objects '%s' to be of the same type as object '%s'"
          [Testing.ArgStr "int64"; Testing.ArgStr "int"] 0].
Proof.
  exact (EqualValuesf_outcomes Samples.noHooks Samples.shortName Samples.doubling 0
           Samples.messageStore (Iface (TInt I64) (VInt 1)) Samples.one "wanted %d"
           Samples.onlyOne true eq_refl).
Defined.

(** ** WaitForTrue with any predicate *)

Section WaitExtras.

Import Testing.

Variables (l t : nat) (x : IsPkg.Is) (timeout : Z) (f : nat -> bool * N).
Hypothesis Ht : IsPkg.TB x = Some t.


End WaitExtras.


(** ** Fail, and the round trip of Lax and Strict *)

Section ContextExtras.

Import Testing.

Variables (w : world IsPkg.Is) (l t : nat) (x : IsPkg.Is).
Hypothesis Hx : objs w !! l = Some x.

Ltac run :=
  unfold mbind, M_mbind, mret, M_mret, Testing.M_bind, Testing.M_ret.

(** X22.  Fail records one failure with the text it is given as the
    format, fatal exactly when the context is strict.  When the context has
    a message, the format is the text, the separator of the context (" - "
    unless MsgSep has set one) and the template of the message, and the
    arguments are those of the message. *)
Theorem Fail_reports (msg : string) :
  IsPkg.TB x = Some t ->
  let sep := if String.eqb (IsPkg.msgSep x) "" then " - " else IsPkg.msgSep x in
  let e :=
    if String.eqb (IsPkg.failFormat x) ""
    then Event t (IsPkg.strict x) msg [] (now w)
    else Event t (IsPkg.strict x) (msg +:+ sep +:+ IsPkg.failFormat x)
           (map ArgAny (Heap.elems (arrs w) (IsPkg.failArgs x))) (now w) in
  IsPkg.Fail (Some l) msg w
  = (if IsPkg.strict x then Exited else Done tt,
     World (objs w) (arrs w) (tblog w ++ [e]) (now w) (polls w)).
Proof.
  intros Ht sep e. unfold IsPkg.Fail. rewrite (helper_then w l t x Hx Ht).
  rewrite (fail_reports w l t x msg [] Hx Ht). cbv zeta. unfold e, sep.
  destruct (IsPkg.failFormat x) as [|ch rest]; reflexivity.
Qed.

(** X23.  Lax followed by Strict gives a context that shows what the first
    one shows, except that it is strict; the context in between is not
    strict, and the first one is as it was.  For a context made by New,
    which is strict, the round trip shows the same as the context. *)
Theorem Lax_Strict_round_trip :
  exists q1 w1 q2 w2,
    IsPkg.Lax (Some l) w = (Done (Some q1), w1)
    /\ IsPkg.Strict (Some q1) w1 = (Done (Some q2), w2)
    /\ IsPkg.observable w2 (Some q1)
       = Some (IsPkg.TB x, false, IsPkg.failFormat x,
               Heap.elems (arrs w) (IsPkg.failArgs x), IsPkg.msgSep x)
    /\ IsPkg.observable w2 (Some q2)
       = Some (IsPkg.TB x, true, IsPkg.failFormat x,
               Heap.elems (arrs w) (IsPkg.failArgs x), IsPkg.msgSep x)
    /\ IsPkg.observable w2 (Some l) = IsPkg.observable w (Some l)
    /\ q1 <> l /\ q2 <> l /\ q1 <> q2.
Proof.
  set (y1 := IsPkg.MkIs (IsPkg.TB x) false (IsPkg.failFormat x) (IsPkg.failArgs x)
               (IsPkg.msgSep x)).
  set (q1 := fresh (dom (objs w))).
  set (w1 := World (<[q1 := y1]> (objs w)) (arrs w) (tblog w) (now w) (polls w)).
  set (y2 := IsPkg.MkIs (IsPkg.TB x) true (IsPkg.failFormat x) (IsPkg.failArgs x)
               (IsPkg.msgSep x)).
  set (q2 := fresh (dom (objs w1))).
  set (w2 := World (<[q2 := y2]> (objs w1)) (arrs w) (tblog w) (now w) (polls w)).
  assert (H1 : objs w1 !! q1 = Some y1) by apply lookup_insert_eq.
  assert (Hq1 : objs w !! q1 = None) by apply fresh_unused.
  assert (Hq2 : objs w1 !! q2 = None) by apply fresh_unused.
  assert (Hl1 : q1 <> l) by (intros Heq; rewrite Heq in Hq1; congruence).
  assert (H12 : q1 <> q2) by (intros Heq; rewrite <- Heq in Hq2; congruence).
  assert (Hl2 : q2 <> l).
  { intros Heq. rewrite Heq in Hq2. unfold w1 in Hq2. simpl in Hq2.
    rewrite lookup_insert_ne in Hq2 by exact Hl1. congruence. }
  exists q1, w1, q2, w2. split; [|split].
  - unfold IsPkg.Lax. run. rewrite (deref_ok _ _ _ Hx). reflexivity.
  - unfold IsPkg.Strict. run. rewrite (deref_ok _ _ _ H1). reflexivity.
  - unfold IsPkg.observable, w2. cbn [objs arrs].
    rewrite lookup_insert_ne by (intros Heq; apply H12; congruence). rewrite H1.
    rewrite lookup_insert_eq.
    rewrite lookup_insert_ne by exact Hl2.
    unfold w1. cbn [objs]. rewrite lookup_insert_ne by exact Hl1. rewrite Hx.
    repeat split; assumption.
Qed.

End ContextExtras.

Lemma Fail_reports_witness :
  IsPkg.Fail (Some 0) "no luck" Samples.boundStore
  = (Testing.Exited,
     Testing.World (Testing.objs Samples.boundStore) (Testing.arrs Samples.boundStore)
       [Testing.Event 0 true "no luck - a %s" [Testing.ArgAny Samples.strX] 0] 0 0).
Proof.
  exact (Fail_reports Samples.boundStore 0 0 Samples.boundContext eq_refl "no luck" eq_refl).
Defined.

Lemma Lax_Strict_round_trip_witness :
  exists q1 w1 q2 w2,
    IsPkg.Lax (Some 0) Samples.boundStore = (Testing.Done (Some q1), w1)
    /\ IsPkg.Strict (Some q1) w1 = (Testing.Done (Some q2), w2)
    /\ IsPkg.observable w2 (Some q1) = Some (Samples.t0, false, "a %s", [Samples.strX], "")
    /\ IsPkg.observable w2 (Some q2) = Some (Samples.t0, true, "a %s", [Samples.strX], "")
    /\ IsPkg.observable w2 (Some 0) = IsPkg.observable Samples.boundStore (Some 0)
    /\ q1 <> 0 /\ q2 <> 0 /\ q1 <> q2.
Proof.
  exact (Lax_Strict_round_trip Samples.boundStore 0 Samples.boundContext eq_refl).
Defined.

(** ** The Asserter package *)

Section AsserterExtras.

Import Workers Testing.

Variables E C : type -> option hook.
Variable typeName : any -> string.
Variable slack : nat -> nat -> nat.
Variable jsonDiff : any -> any -> string.

Variables (w : world AsserterPkg.asserter) (q t : nat) (y : AsserterPkg.asserter).
Hypothesis Hy : objs w !! q = Some y.
Hypothesis Ht : AsserterPkg.tb y = Some t.

Ltac run :=
  unfold mbind, M_mbind, mret, M_mret, Testing.M_bind, Testing.M_ret.

(** X24.  Equal of the Asserter package with the nil interface on one
    side and a value that is not nil-like on the other: isEqual returns
    false, and diff, which is called to build the failure message, calls
    Kind on the nil Type.  Equal panics, records no failure and does not
    mark the asserter; NotEqual on the same operands returns. *)
Theorem asserter_Equal_nil_panics (b : any) :
  isNil b = false ->
  AsserterPkg.Equal E C typeName jsonDiff (Some q) nilAny b w
  = (Panicked "runtime error: invalid memory address or nil pointer dereference", w)
  /\ AsserterPkg.Equal E C typeName jsonDiff (Some q) b nilAny w
     = (Panicked "runtime error: invalid memory address or nil pointer dereference", w)
  /\ AsserterPkg.NotEqual E C typeName (Some q) nilAny b w = (Done tt, w)
  /\ AsserterPkg.NotEqual E C typeName (Some q) b nilAny w = (Done tt, w).
Proof.
  intros Hb. destruct b as [|tb vb]; [discriminate|].
  unfold AsserterPkg.Equal, AsserterPkg.NotEqual. run.
  rewrite (asserter_helper_ok _ _ _ _ Hy Ht).
  unfold AsserterPkg.isEqual. rewrite Hb. simpl. auto.
Qed.

(** X25.  Msg and AddMsg of the Asserter package return a new asserter
    with the test handle and the strictness of the receiver and with the
    failed flag cleared, whatever the flag of the receiver is.  AddMsg on
    an asserter with a message gives the template old + " - " + format and
    the arguments of the receiver followed by the new ones; on an asserter
    without a message it gives the format and the new arguments. *)
Theorem asserter_AddMsg_composes (format : string) (args : Heap.slice) :
  Heap.wf (arrs w) (AsserterPkg.failArgs y) ->
  exists q' w' y',
    AsserterPkg.AddMsg slack (Some q) format args w = (Done (Some q'), w')
    /\ objs w !! q' = None /\ objs w' !! q' = Some y'
    /\ AsserterPkg.tb y' = AsserterPkg.tb y
    /\ AsserterPkg.strict y' = AsserterPkg.strict y
    /\ AsserterPkg.failed y' = false
    /\ (AsserterPkg.failFormat y = "" ->
        AsserterPkg.failFormat y' = format
        /\ Heap.elems (arrs w') (AsserterPkg.failArgs y') = Heap.elems (arrs w) args)
    /\ (AsserterPkg.failFormat y <> "" ->
        AsserterPkg.failFormat y' = AsserterPkg.failFormat y +:+ " - " +:+ format
        /\ Heap.elems (arrs w') (AsserterPkg.failArgs y')
           = Heap.elems (arrs w) (AsserterPkg.failArgs y) ++ Heap.elems (arrs w) args).
Proof.
  intros Hwf. unfold AsserterPkg.AddMsg, AsserterPkg.Msg. run.
  rewrite (deref_ok _ _ _ Hy).
  pose proof (fresh_unused (objs w)) as Hq.
  destruct (String.eqb (AsserterPkg.failFormat y) "") eqn:Hf.
  - apply String.eqb_eq in Hf. rewrite (deref_ok _ _ _ Hy). unfold alloc.
    eexists _, _, _. split; [reflexivity|]. split; [exact Hq|].
    split; [apply lookup_insert_eq|]. simpl.
    do 3 (split; [reflexivity|]).
    split; [intros _; split; reflexivity | intros Hne; congruence].
  - apply String.eqb_neq in Hf. unfold appendSlice.
    pose proof (append_elems slack (arrs w) (AsserterPkg.failArgs y) args Hwf) as Hel.
    destruct (Heap.append slack (AsserterPkg.failArgs y) args (arrs w)) as [r arrs'].
    simpl in Hel. unfold alloc. simpl.
    eexists _, _, _. split; [reflexivity|]. split; [exact Hq|].
    split; [apply lookup_insert_eq|]. simpl.
    do 3 (split; [reflexivity|]).
    split; [intros He; congruence | intros _; split; [reflexivity | exact Hel]].
Qed.

End AsserterExtras.

Lemma asserter_Equal_nil_panics_witness :
  AsserterPkg.Equal Samples.noHooks Samples.noHooks Samples.shortName (fun _ _ => "")
    (Some 0) nilAny Samples.one Samples.asserterStore
  = (Testing.Panicked "runtime error: invalid memory address or nil pointer dereference",
     Samples.asserterStore).
Proof.
  exact (proj1 (asserter_Equal_nil_panics Samples.noHooks Samples.noHooks Samples.shortName
                  (fun _ _ => "") Samples.asserterStore 0 0 Samples.strictAsserter
                  eq_refl eq_refl Samples.one eq_refl)).
Defined.

Lemma asserter_AddMsg_composes_witness :
  exists q' w' y',
    AsserterPkg.AddMsg Samples.doubling (Some 0) "b %s" Samples.argY Samples.failedStore
    = (Testing.Done (Some q'), w')
    /\ Testing.objs w' !! q' = Some y'
    /\ AsserterPkg.failed y' = false
    /\ AsserterPkg.failFormat y' = "a %s - b %s"
    /\ Heap.elems (Testing.arrs w') (AsserterPkg.failArgs y') = [Samples.strX; Samples.strY].
Proof.
  assert (Hwf : Heap.wf (Testing.arrs Samples.failedStore)
                  (AsserterPkg.failArgs Samples.failedAsserter)).
  { split; [simpl; lia|]. exists [Samples.strX]. split; [reflexivity | simpl; lia]. }
  destruct (asserter_AddMsg_composes Samples.doubling Samples.failedStore 0
              Samples.failedAsserter eq_refl "b %s" Samples.argY Hwf)
    as (q' & w' & y' & H1 & _ & H3 & _ & _ & H6 & _ & H8).
  assert (Hne : AsserterPkg.failFormat Samples.failedAsserter <> "") by discriminate.
  destruct (H8 Hne) as [H9 H10].
  exists q', w', y'. repeat split; assumption.
Defined.

(** ** Instances of the facts on contexts, checks and lax scopes *)

Lemma mutators_keep_original_witness :
  exists q w',
    IsPkg.AddMsg Samples.doubling (Some 0) "b %s" Samples.argY Samples.boundStore
    = (Testing.Done (Some q), w')
    /\ Testing.objs Samples.boundStore !! q = None
    /\ IsPkg.observable w' (Some 0) = IsPkg.observable Samples.boundStore (Some 0).
Proof.
  apply (mutators_keep_original Samples.doubling Samples.boundStore 0 Samples.boundContext
           "b %s" "" Samples.argY None).
  - reflexivity.
  - split; [simpl; lia|]. exists [Samples.strX]. split; [reflexivity | simpl; lia].
  - right. left. reflexivity.
Defined.

Lemma PrependMsg_keeps_original_witness :
  exists q w',
    IsPkg.PrependMsg Samples.doubling (Some 0) "b %s" Samples.argY Samples.boundStore
    = (Testing.Done (Some q), w')
    /\ Testing.objs Samples.boundStore !! q = None
    /\ IsPkg.observable w' (Some 0) = IsPkg.observable Samples.boundStore (Some 0).
Proof.
  apply (PrependMsg_keeps_original Samples.doubling Samples.boundStore 0 Samples.boundContext
           "b %s" Samples.argY).
  - reflexivity.
  - split; [simpl; lia|]. exists [Samples.strX]. split; [reflexivity | simpl; lia].
  - split; [simpl; lia|]. exists [Samples.strY]. split; [reflexivity | simpl; lia].
  - apply untouched_full. reflexivity.
Defined.

Lemma Contains_by_kind_witness :
  IsPkg.Contains Samples.noHooks (Some 0) (Samples.str "hello") (Samples.str "ell")
    Samples.laxStore
  = (Testing.Done true, Samples.laxStore)
  /\ IsPkg.Contains Samples.noHooks (Some 0) (Samples.str "hello") Samples.one Samples.laxStore
     = (Testing.Done false,
        Testing.World (Testing.objs Samples.laxStore) (Testing.arrs Samples.laxStore)
          [Testing.Event 0 false "unexpected argument types %T and %T"
             [Testing.ArgAny (Samples.str "hello"); Testing.ArgAny Samples.one] 0] 0 0).
Proof.
  split.
  - apply (proj1 (Contains_by_kind Samples.noHooks Samples.laxStore 0 0 Samples.laxContext
                    TString TString (VString "hello") (VString "ell")
                    eq_refl eq_refl eq_refl)); reflexivity.
  - apply (proj2 (Contains_by_kind Samples.noHooks Samples.laxStore 0 0 Samples.laxContext
                    TString (TInt Iword) (VString "hello") (VInt 1)
                    eq_refl eq_refl eq_refl)); [right|]; discriminate.
Defined.

Lemma Lax_aggregates_witness :
  exists subs,
    length subs = 1
    /\ Forall (fun e => Testing.ev_fatal e = false) subs
    /\ fst (AsserterPkg.Lax (Some 0)
              (fun lax =>
                 AsserterPkg.runChecks Samples.shortName lax
                   [AsserterPkg.CheckTrue true; AsserterPkg.CheckTrue false;
                    AsserterPkg.CheckFalse false]) Samples.asserterStore)
       = Testing.Exited
    /\ Testing.tblog
         (snd (AsserterPkg.Lax (Some 0)
                 (fun lax =>
                    AsserterPkg.runChecks Samples.shortName lax
                      [AsserterPkg.CheckTrue true; AsserterPkg.CheckTrue false;
                       AsserterPkg.CheckFalse false]) Samples.asserterStore))
       = subs ++ [Testing.Event 0 true "at least one assertion in the Lax function failed"
                    [] 0].
Proof.
  destruct (Lax_aggregates Samples.shortName Samples.asserterStore 0 0 Samples.strictAsserter
              [AsserterPkg.CheckTrue true; AsserterPkg.CheckTrue false;
               AsserterPkg.CheckFalse false] eq_refl eq_refl) as (subs & H1 & H2 & H3 & H4).
  exists subs. split; [exact H1|]. split; [exact H2|]. split; [exact H3 | exact H4].
Defined.

(** ** Contexts derived from one context share its array *)

Section SharingExtras.

Import Testing.

Variable slack : nat -> nat -> nat.

Ltac run :=
  unfold mbind, M_mbind, mret, M_mret, Testing.M_bind, Testing.M_ret.

(** append within the capacity returns the data pointer of its first
    argument. *)
Lemma append_in_place (arrs : gmap nat (list any)) (s u : Heap.slice) (a off : nat) :
  Heap.data s = Some (a, off) ->
  Heap.len s + length (Heap.elems arrs u) <= Heap.cap s ->
  (Heap.append slack s u arrs).1
  = Heap.Slice (Some (a, off)) (Heap.len s + length (Heap.elems arrs u)) (Heap.cap s).
Proof.
  intros Hd Hc. unfold Heap.append. apply Nat.leb_le in Hc. rewrite Hc, Hd. reflexivity.
Qed.

(** What AddMsg does on a context with a message. *)
Lemma AddMsg_bound (w : world IsPkg.Is) (l : nat) (x : IsPkg.Is) (format : string)
    (args : Heap.slice) :
  objs w !! l = Some x -> IsPkg.failFormat x <> "" ->
  IsPkg.AddMsg slack (Some l) format args w
  = (Done (Some (fresh (dom (objs w)))),
     World (<[fresh (dom (objs w)) :=
                IsPkg.MkIs (IsPkg.TB x) (IsPkg.strict x)
                  (IsPkg.failFormat x
                   +:+ (if String.eqb (IsPkg.msgSep x) "" then " - " else IsPkg.msgSep x)
                   +:+ format)
                  (Heap.append slack (IsPkg.failArgs x) args (arrs w)).1 (IsPkg.msgSep x)]>
              (objs w))
       (Heap.append slack (IsPkg.failArgs x) args (arrs w)).2 (tblog w) (now w) (polls w)).
Proof.
  intros Hx Hne. apply String.eqb_neq in Hne.
  unfold IsPkg.AddMsg. run. rewrite (deref_ok _ _ _ Hx), Hne.
  rewrite (deref_ok _ _ _ Hx), (getMsgSep_ok _ _ _ Hx). unfold appendSlice.
  destruct (Heap.append slack (IsPkg.failArgs x) args (arrs w)) as [r arrs']. reflexivity.
Qed.

(** X26.  AddMsg appends to the argument slice of its receiver.  When that
    slice has spare capacity, two contexts derived from one context by
    AddMsg, with as many new arguments each, get the same part of the same
    array: after the second call the first derived context shows the
    arguments of the second one under its own template.  (The receiver
    itself shows what it showed.) *)
Theorem AddMsg_siblings_share (w : world IsPkg.Is) (l : nat) (x : IsPkg.Is)
    (f1 f2 : string) (args1 args2 : Heap.slice) (a off : nat) :
  objs w !! l = Some x -> IsPkg.failFormat x <> "" ->
  Heap.wf (arrs w) (IsPkg.failArgs x) -> Heap.wf (arrs w) args2 ->
  Heap.data (IsPkg.failArgs x) = Some (a, off) ->
  (forall a2 off2, Heap.data args2 = Some (a2, off2) -> a2 <> a) ->
  length (Heap.elems (arrs w) args1) = length (Heap.elems (arrs w) args2) ->
  Heap.len (IsPkg.failArgs x) + length (Heap.elems (arrs w) args1)
  <= Heap.cap (IsPkg.failArgs x) ->
  let sep := if String.eqb (IsPkg.msgSep x) "" then " - " else IsPkg.msgSep x in
  let old := Heap.elems (arrs w) (IsPkg.failArgs x) in
  exists q1 w1 q2 w2,
    IsPkg.AddMsg slack (Some l) f1 args1 w = (Done (Some q1), w1)
    /\ IsPkg.AddMsg slack (Some l) f2 args2 w1 = (Done (Some q2), w2)
    /\ IsPkg.observable w1 (Some q1)
       = Some (IsPkg.TB x, IsPkg.strict x, IsPkg.failFormat x +:+ sep +:+ f1,
               old ++ Heap.elems (arrs w) args1, IsPkg.msgSep x)
    /\ IsPkg.observable w2 (Some q1)
       = Some (IsPkg.TB x, IsPkg.strict x, IsPkg.failFormat x +:+ sep +:+ f1,
               old ++ Heap.elems (arrs w) args2, IsPkg.msgSep x)
    /\ IsPkg.observable w2 (Some q2)
       = Some (IsPkg.TB x, IsPkg.strict x, IsPkg.failFormat x +:+ sep +:+ f2,
               old ++ Heap.elems (arrs w) args2, IsPkg.msgSep x)
    /\ IsPkg.observable w2 (Some l) = IsPkg.observable w (Some l).
Proof.
  intros Hx Hne Hwf Hwf2 Hd Hfar Hlen Hcap sep old.
  set (s := IsPkg.failArgs x) in *.
  set (q1 := fresh (dom (objs w))).
  pose proof (fresh_unused (objs w)) as Hq1. fold q1 in Hq1.
  assert (Hl1 : l <> q1) by (intros Heq; rewrite Heq in Hx; congruence).
  (* the first call *)
  pose proof (AddMsg_bound w l x f1 args1 Hx Hne) as Hcall1. fold s q1 sep in Hcall1.
  pose proof (append_elems slack (arrs w) s args1 Hwf) as Hel1.
  pose proof (append_frame slack (arrs w) s args1 s Hwf Hwf (untouched_self _ _ _)) as Hs1.
  assert (Hun2 : Heap.untouched (arrs w) s args1 args2).
  { unfold Heap.untouched. intros _. fold s in Hd. rewrite Hd.
    destruct (Heap.data args2) as [[a2 off2]|] eqn:Hd2; [|exact I].
    intros Heq. exfalso. apply (Hfar a2 off2 eq_refl). congruence. }
  pose proof (append_frame slack (arrs w) s args1 args2 Hwf Hwf2 Hun2) as Ha2.
  pose proof (proj1 (append_wf slack (arrs w) s args1 s Hwf Hwf)) as Hwf1.
  pose proof (append_in_place (arrs w) s args1 a off Hd Hcap) as Hr1.
  destruct (Heap.append slack s args1 (arrs w)) as [r1 arrs1].
  cbn [fst snd] in *.
  match type of Hcall1 with _ = (_, ?w1') => set (w1 := w1') in * end.
  assert (Hx1 : objs w1 !! l = Some x)
    by (unfold w1; cbn [objs]; rewrite lookup_insert_ne by congruence; exact Hx).
  (* the second call *)
  set (q2 := fresh (dom (objs w1))).
  pose proof (fresh_unused (objs w1)) as Hq2. fold q2 in Hq2.
  assert (Hl2 : l <> q2) by (intros Heq; rewrite Heq in Hx1; congruence).
  assert (H12 : q1 <> q2).
  { intros Heq. rewrite <- Heq in Hq2. unfold w1 in Hq2. cbn [objs] in Hq2.
    rewrite lookup_insert_eq in Hq2. discriminate. }
  pose proof (AddMsg_bound w1 l x f2 args2 Hx1 Hne) as Hcall2. fold s q2 sep in Hcall2.
  change (arrs w1) with arrs1 in Hcall2.
  pose proof (append_elems slack arrs1 s args2 Hwf1) as Hel2.
  pose proof (append_frame slack arrs1 s args2 s Hwf1 Hwf1 (untouched_self _ _ _)) as Hs2.
  assert (Hcap2 : Heap.len s + length (Heap.elems arrs1 args2) <= Heap.cap s)
    by (rewrite Ha2, <- Hlen; exact Hcap).
  pose proof (append_in_place arrs1 s args2 a off Hd Hcap2) as Hr2.
  destruct (Heap.append slack s args2 arrs1) as [r2 arrs2].
  cbn [fst snd] in *.
  assert (Hr : r2 = r1) by (rewrite Hr1, Hr2, Ha2, Hlen; reflexivity).
  match type of Hcall2 with _ = (_, ?w2') => set (w2 := w2') in * end.
  exists q1, w1, q2, w2.
  split; [exact Hcall1|]. split; [exact Hcall2|].
  unfold IsPkg.observable, w2, w1. cbn [objs arrs].
  rewrite !lookup_insert_eq.
  rewrite (lookup_insert_ne _ q2 q1) by congruence. rewrite lookup_insert_eq.
  rewrite (lookup_insert_ne _ q2 l) by congruence.
  rewrite (lookup_insert_ne _ q1 l) by congruence. rewrite Hx.
  cbn [IsPkg.TB IsPkg.strict IsPkg.failFormat IsPkg.failArgs IsPkg.msgSep].
  fold s. rewrite Hel1. rewrite <- Hr at 1. rewrite Hel2, Hs2, Hs1, Ha2.
  repeat split; reflexivity.
Qed.

End SharingExtras.

Lemma AddMsg_siblings_share_witness :
  exists q1 w1 q2 w2,
    IsPkg.AddMsg Samples.doubling (Some 0) "b %s" Samples.argY Samples.spareStore
    = (Testing.Done (Some q1), w1)
    /\ IsPkg.AddMsg Samples.doubling (Some 0) "c %d" Samples.argOne w1
       = (Testing.Done (Some q2), w2)
    /\ IsPkg.observable w1 (Some q1)
       = Some (Samples.t0, true, "a %s - b %s", [Samples.strX; Samples.strY], "")
    /\ IsPkg.observable w2 (Some q1)
       = Some (Samples.t0, true, "a %s - b %s", [Samples.strX; Samples.one], "")
    /\ IsPkg.observable w2 (Some q2)
       = Some (Samples.t0, true, "a %s - c %d", [Samples.strX; Samples.one], "")
    /\ IsPkg.observable w2 (Some 0) = IsPkg.observable Samples.spareStore (Some 0).
Proof.
  apply (AddMsg_siblings_share Samples.doubling Samples.spareStore 0 Samples.spareContext
           "b %s" "c %d" Samples.argY Samples.argOne 0 0).
  - reflexivity.
  - discriminate.
  - split; [simpl; lia|]. exists [Samples.strX; nilAny]. split; [reflexivity | simpl; lia].
  - split; [simpl; lia|]. exists [Samples.one]. split; [reflexivity | simpl; lia].
  - reflexivity.
  - intros a2 off2 [= <- _]. discriminate.
  - reflexivity.
  - vm_compute. lia.
Defined.
